(** * A predictive horizontal pod autoscaler: model and verified properties

    Shallow embedding of the decision path of the autoscaler:

    - [crd/helper/scaling_algoirthm.py]   the scaling algorithm (cooldown
      gate, required pods, scale-out clamp, gradual scale-in);
    - [autoscaler/helper/model_handler.py]   the forecast validator;
    - [autoscaler/helper/prometheus_client.py]   parsing and minute
      alignment of the history window;
    - [autoscaler/main.py]   the per-deployment cycle, the eviction rule of
      the main loop and the registration of a policy.

    Conventions of the model.

    - Python [int] is [Z].
    - Python [float] is [pyfloat]: an exact rational, or one of the three
      special values [inf], [-inf], [nan].  The special values are kept
      because the code's behaviour on them ([math.ceil] raising) is
      observable; the rounding of the binary format is left to the module
      [Machine].
    - [datetime] is a number of microseconds ([Z]); every [datetime.now()]
      of the source is an explicit argument.
    - A [try: ... except Exception] is [try_except] over the [result]
      monad; what external collaborators return (Kubernetes, Prometheus, the
      model) is an input of the cycle.
    - The module [Machine] embeds the scaling algorithm, the forecast
      validator and the cycle a second time, over binary64 floats with
      their rounding and over datetimes that end with year 9999.  The
      properties whose conclusion is a number computed by a float
      operation, or a decision taken at the edge of the datetime range, are
      stated there; those on signs, bounds and control flow are stated over
      the exact numbers. *)

From Stdlib Require Import ZArith QArith Qround Lia List Permutation.
From Stdlib Require Import Floats.SpecFloat.
From stdpp Require Import gmap strings list fin_maps.
Import ListNotations.

Local Open Scope Z_scope.

(** ** Exceptions and the [result] monad *)

Inductive exn : Type :=
| ValueError
| OverflowError
| TypeError
| IndexError
| ZeroDivisionError
| PlainException.

Inductive result (A : Type) : Type :=
| Ok (a : A)
| Raise (e : exn).
Arguments Ok {A} a.
Arguments Raise {A} e.

#[global] Instance result_ret : MRet result := fun A a => Ok a.

#[global] Instance result_bind : MBind result := fun A B k m =>
  match m with
  | Ok a => k a
  | Raise e => Raise e
  end.

(** [try: body  except Exception as e: handler e]. *)
Definition try_except {A : Type} (body : result A) (handler : exn -> result A)
  : result A :=
  match body with
  | Ok a => Ok a
  | Raise e => handler e
  end.

(** ** Python floats *)

Inductive pyfloat : Type :=
| FFinite (q : Q)
| FPosInf
| FNegInf
| FNaN.

Definition float_of_int (z : Z) : pyfloat := FFinite (inject_Z z).

Definition fzero : pyfloat := FFinite 0%Q.

Definition Qltb (a b : Q) : bool :=
  match (a ?= b)%Q with
  | Lt => true
  | _ => false
  end.

(** [x < y] on floats: every comparison with [nan] is false. *)
Definition flt (x y : pyfloat) : bool :=
  match x, y with
  | FNaN, _ | _, FNaN => false
  | FFinite a, FFinite b => Qltb a b
  | FNegInf, FNegInf => false
  | FNegInf, _ => true
  | _, FNegInf => false
  | FPosInf, _ => false
  | FFinite _, FPosInf => true
  end.

Definition fgt (x y : pyfloat) : bool := flt y x.

(** Product of an infinity of the given sign ([true] for [+inf]) with the
    finite factor [a]. *)
Definition inf_times (positive : bool) (a : Q) : pyfloat :=
  match (a ?= 0)%Q with
  | Eq => FNaN
  | Gt => if positive then FPosInf else FNegInf
  | Lt => if positive then FNegInf else FPosInf
  end.

Definition fmul (x y : pyfloat) : pyfloat :=
  match x, y with
  | FNaN, _ | _, FNaN => FNaN
  | FFinite a, FFinite b => FFinite (a * b)%Q
  | FFinite a, FPosInf | FPosInf, FFinite a => inf_times true a
  | FFinite a, FNegInf | FNegInf, FFinite a => inf_times false a
  | FPosInf, FPosInf | FNegInf, FNegInf => FPosInf
  | FPosInf, FNegInf | FNegInf, FPosInf => FNegInf
  end.

Definition fadd (x y : pyfloat) : pyfloat :=
  match x, y with
  | FNaN, _ | _, FNaN => FNaN
  | FFinite a, FFinite b => FFinite (a + b)%Q
  | FPosInf, FNegInf | FNegInf, FPosInf => FNaN
  | FPosInf, _ | _, FPosInf => FPosInf
  | FNegInf, _ | _, FNegInf => FNegInf
  end.

(** [x / y]: a zero divisor raises [ZeroDivisionError]. *)
Definition fdiv (x y : pyfloat) : result pyfloat :=
  match y with
  | FFinite b =>
      match (b ?= 0)%Q with
      | Eq => Raise ZeroDivisionError
      | _ =>
          match x with
          | FFinite a => Ok (FFinite (a / b)%Q)
          | FPosInf => Ok (inf_times true b)
          | FNegInf => Ok (inf_times false b)
          | FNaN => Ok FNaN
          end
      end
  | FNaN => Ok FNaN
  | FPosInf | FNegInf =>
      match x with
      | FFinite _ => Ok fzero
      | _ => Ok FNaN
      end
  end.

(** [math.ceil]: [ValueError] on [nan], [OverflowError] on an infinity. *)
Definition math_ceil (x : pyfloat) : result Z :=
  match x with
  | FFinite q => Ok (Qceiling q)
  | FPosInf | FNegInf => Raise OverflowError
  | FNaN => Raise ValueError
  end.

(** ** scaling_algoirthm.py *)

(** The CRD loader stores whatever the policy holds in
    [resource_removal_strategy]; its default there is the string
    ['gradual'], so the field is a number or a text. *)
Inductive rrs_value : Type :=
| RrsNumber (f : pyfloat)
| RrsText (s : string).

Record ScalingConfig : Type := {
  min_replicas : Z;
  max_replicas : Z;
  workload_per_pod : Z;
  resource_removal_strategy : rrs_value;
  cooldown_period : Z;
}.

Inductive Action : Type :=
| scale_out
| scale_in
| no_action.

(** The [reason] f-strings, kept as their template and the values that
    fill the holes. *)
Inductive Reason : Type :=
| InCooldown (remaining : Z)
| ScalingOut (pods_required target : Z)
| RemovingSurplus (pods_required surplus pool : Z)
| ErrorInCalculation (e : exn).

Record ScalingDecision : Type := {
  action : Action;
  target_replicas : Z;
  current_replicas : Z;
  predicted_workload : pyfloat;
  reason : option Reason;
  pods_surplus : option Z;
}.

(** State of a [ScalingAlgorithm] object.  [scaling_history] is created
    empty by [__init__] and never read or written afterwards. *)
Record ScalingAlgorithm : Type := {
  last_scaling_time : gmap string Z;
}.

Definition ScalingAlgorithm_init : ScalingAlgorithm :=
  {| last_scaling_time := ∅ |}.

Definition microseconds (seconds : Z) : Z := seconds * 1000000.

Definition is_scaling_action (a : Action) : bool :=
  match a with
  | scale_out | scale_in => true
  | no_action => false
  end.

(** [now] is the value of [datetime.now()] inside the call. *)
Definition execute_scaling_decision (self : ScalingAlgorithm)
    (deployment_name : string) (decision : ScalingDecision) (now : Z)
  : bool * ScalingAlgorithm :=
  if is_scaling_action (action decision)
  then (true,
        {| last_scaling_time :=
             <[deployment_name := now]> (last_scaling_time self) |})
  else (false, self).

Definition _calculate_required_pods (predicted_workload : pyfloat)
    (workload_per_pod : Z) : result Z :=
  if workload_per_pod <=? 0 then Ok 1
  else
    ratio ← fdiv predicted_workload (float_of_int workload_per_pod);
    required_pods ← math_ceil ratio;
    Ok (Z.max 1 required_pods).

Definition _is_in_cooldown (self : ScalingAlgorithm) (deployment_name : string)
    (cooldown_period : Z) (now : Z) : bool :=
  match last_scaling_time self !! deployment_name with
  | None => false
  | Some last_scaling =>
      let cooldown_end := last_scaling + microseconds cooldown_period in
      now <? cooldown_end
  end.

(** [int(remaining.total_seconds())] truncates toward zero. *)
Definition _get_cooldown_remaining (self : ScalingAlgorithm)
    (deployment_name : string) (cooldown_period : Z) (now : Z) : Z :=
  match last_scaling_time self !! deployment_name with
  | None => 0
  | Some last_scaling =>
      let cooldown_end := last_scaling + microseconds cooldown_period in
      let remaining := cooldown_end - now in
      Z.max 0 (Z.quot remaining 1000000)
  end.

(** [(current_replicas - pods_adjusted) * resource_removal_strategy] and its
    [math.ceil]: an [int] times a [str] is a [str], on which [math.ceil]
    raises [TypeError]. *)
Definition ceil_of_share (pool : Z) (rrs : rrs_value) : result Z :=
  match rrs with
  | RrsNumber f => math_ceil (fmul (float_of_int pool) f)
  | RrsText _ => Raise TypeError
  end.

Definition no_action_decision (current_replicas : Z)
    (predicted_workload : pyfloat) (why : option Reason) : ScalingDecision :=
  {| action := no_action;
     target_replicas := current_replicas;
     current_replicas := current_replicas;
     predicted_workload := predicted_workload;
     reason := why;
     pods_surplus := None |}.

(** The [try] block of [calculate_scaling_decision].  [now] is the clock
    read by [_is_in_cooldown], [now_remaining] the later one read by
    [_get_cooldown_remaining]. *)
Definition calculate_scaling_decision_body (self : ScalingAlgorithm)
    (now now_remaining : Z) (deployment_name : string)
    (predicted_workload : pyfloat) (current_replicas : Z)
    (config : ScalingConfig) : result ScalingDecision :=
  if _is_in_cooldown self deployment_name (cooldown_period config) now
  then
    let cooldown_remaining :=
      _get_cooldown_remaining self deployment_name (cooldown_period config)
        now_remaining in
    Ok (no_action_decision current_replicas predicted_workload
          (Some (InCooldown cooldown_remaining)))
  else
    required ← _calculate_required_pods predicted_workload
                  (workload_per_pod config);
    let pods_required := Z.max required (min_replicas config) in
    if pods_required >? current_replicas then
      let target_replicas := Z.min pods_required (max_replicas config) in
      Ok {| action := scale_out;
            target_replicas := target_replicas;
            current_replicas := current_replicas;
            predicted_workload := predicted_workload;
            reason := Some (ScalingOut pods_required target_replicas);
            pods_surplus := None |}
    else if pods_required <? current_replicas then
      let pods_adjusted := Z.max pods_required (min_replicas config) in
      pods_surplus ← ceil_of_share (current_replicas - pods_adjusted)
                        (resource_removal_strategy config);
      let target_replicas := current_replicas - pods_surplus in
      let target_replicas := Z.max target_replicas (min_replicas config) in
      Ok {| action := scale_in;
            target_replicas := target_replicas;
            current_replicas := current_replicas;
            predicted_workload := predicted_workload;
            reason := Some (RemovingSurplus pods_required pods_surplus
                              (current_replicas - pods_adjusted));
            pods_surplus := Some pods_surplus |}
    else
      Ok (no_action_decision current_replicas predicted_workload None).

Definition calculate_scaling_decision (self : ScalingAlgorithm)
    (now now_remaining : Z) (deployment_name : string)
    (predicted_workload : pyfloat) (current_replicas : Z)
    (config : ScalingConfig) : result ScalingDecision :=
  try_except
    (calculate_scaling_decision_body self now now_remaining deployment_name
       predicted_workload current_replicas config)
    (fun e => Ok (no_action_decision current_replicas predicted_workload
                    (Some (ErrorInCalculation e)))).

(** ** model_handler.py: the forecast validator *)

Record ValidationThresholds : Type := {
  max_spike_multiplier : pyfloat;
  max_historical_multiplier : pyfloat;
}.

Definition fsum (l : list pyfloat) : pyfloat := fold_left fadd l fzero.

(** [np.mean] of a list of rows: the mean of all the elements; rows of
    unequal lengths do not form an array ([ValueError]); no element at all
    gives [nan]. *)
Definition np_mean (rows : list (list pyfloat)) : result pyfloat :=
  match rows with
  | [] => Ok FNaN
  | first :: rest =>
      if forallb (fun r => Nat.eqb (length r) (length first)) rest then
        match concat rows with
        | [] => Ok FNaN
        | flat =>
            fdiv (fsum flat) (float_of_int (Z.of_nat (length flat)))
        end
      else Raise ValueError
  end.

(** [l[-1]] and [l[0]]. *)
Definition py_last {A : Type} (l : list A) : result A :=
  match last l with
  | Some x => Ok x
  | None => Raise IndexError
  end.

Definition py_first {A : Type} (l : list A) : result A :=
  match l with
  | x :: _ => Ok x
  | [] => Raise IndexError
  end.

Definition _validate_prediction (prediction : pyfloat)
    (historical_data : list (list pyfloat))
    (thresholds : ValidationThresholds) : result bool :=
  if flt prediction (float_of_int 0) then Ok false
  else
    match historical_data with
    | [] => Ok true
    | _ =>
        last_row ← py_last historical_data;
        current_load ← py_first last_row;
        historical_avg ← np_mean historical_data;
        if fgt current_load (float_of_int 0)
           && fgt prediction
                (fmul current_load (max_spike_multiplier thresholds))
        then Ok false
        else if fgt historical_avg (float_of_int 0)
                && fgt prediction
                     (fmul historical_avg
                        (max_historical_multiplier thresholds))
        then Ok false
        else Ok true
    end.

(** ** prometheus_client.py: parsing and alignment of the window *)

Record QueryConfig : Type := {
  service_name : string;
  window_minutes : Z;
  query_template : option string;
}.

(** A timestamp of the response, after [datetime.fromtimestamp(float(_))]:
    a date (in microseconds) or a failed conversion. *)
Inductive raw_time : Type :=
| RawTime (us : Z)
| RawTimeInvalid.

(** A value string of the response: the literal ['NaN'], a string that
    [float] reads, or one on which [float] raises. *)
Inductive raw_value : Type :=
| RawNaN
| RawFloat (f : pyfloat)
| RawInvalid.

Definition raw_sample : Type := raw_time * raw_value.

(** One series of the result: a dict that may hold the key ['value'] (instant
    query) and the key ['values'] (range query). *)
Record series : Type := {
  series_value : option raw_sample;
  series_values : option (list raw_sample);
}.

(** [data.get('data', {}).get('result', [])] of a response whose status is
    ['success']. *)
Record response : Type := {
  result_data : list series;
}.

Definition sample : Type := Z * pyfloat.

Definition parse_sample (p : raw_sample) : result sample :=
  timestamp ← match fst p with
              | RawTime us => Ok us
              | RawTimeInvalid => Raise ValueError
              end;
  value ← match snd p with
          | RawNaN => Ok fzero
          | RawFloat f => Ok f
          | RawInvalid => Raise ValueError
          end;
  Ok (timestamp, value).

Fixpoint parse_samples (l : list raw_sample) : result (list sample) :=
  match l with
  | [] => Ok []
  | p :: rest =>
      s ← parse_sample p;
      more ← parse_samples rest;
      Ok (s :: more)
  end.

Definition parse_series (s : series) : result (list sample) :=
  match series_value s with
  | Some p => x ← parse_sample p; Ok [x]
  | None =>
      match series_values s with
      | Some l => parse_samples l
      | None => Ok []
      end
  end.

Fixpoint parse_all (ss : list series) : result (list sample) :=
  match ss with
  | [] => Ok []
  | s :: rest =>
      here ← parse_series s;
      more ← parse_all rest;
      Ok (here ++ more)
  end.

(** [list.sort(key=lambda x: x[0])]: stable, ascending by timestamp. *)
Fixpoint insert_by_time (x : sample) (l : list sample) : list sample :=
  match l with
  | [] => [x]
  | y :: rest =>
      if fst x <=? fst y then x :: y :: rest
      else y :: insert_by_time x rest
  end.

Fixpoint sort_by_time (l : list sample) : list sample :=
  match l with
  | [] => []
  | x :: rest => insert_by_time x (sort_by_time rest)
  end.

Definition _parse_query_result (data : response) : list sample :=
  match parse_all (result_data data) with
  | Ok parsed_data => sort_by_time parsed_data
  | Raise _ => []
  end.

(** An entry of the returned window: a one-element list [[value]] or a bare
    float. *)
Inductive window_entry : Type :=
| Row (l : list pyfloat)
| Bare (f : pyfloat).

Definition minutes (n : Z) : Z := microseconds (60 * n).

Definition tolerance : Z := microseconds 30.

(** [range(n)] as the list of its values. *)
Definition py_range (n : Z) : list Z := map Z.of_nat (seq 0 (Z.to_nat n)).

Definition expected_timestamps (end_time window_minutes : Z) : list Z :=
  map (fun i => end_time - minutes (window_minutes - 1 - i))
      (py_range window_minutes).

(** [closest_diff]: [None] is [float('inf')]. *)
Definition closer (diff : Z) (closest_diff : option Z) : bool :=
  match closest_diff with
  | None => true
  | Some d => diff <? d
  end.

Definition closest_step (expected_ts : Z) (acc : pyfloat * option Z)
    (point : sample) : pyfloat * option Z :=
  let diff := Z.abs (fst point - expected_ts) in
  if closer diff (snd acc) && (diff <=? tolerance)
  then (snd point, Some diff)
  else acc.

Definition closest_value (expected_ts : Z) (parsed_data : list sample)
  : pyfloat :=
  fst (fold_left (closest_step expected_ts) parsed_data (fzero, None)).

(** [end_time] is the [datetime.now()] of the call; [answer] is what
    [_execute_range_query] returned ([None] after a failed query). *)
Definition get_historical_workload (end_time : Z) (query_config : QueryConfig)
    (answer : option response) : option (list window_entry) :=
  match answer with
  | None => None
  | Some data =>
      match _parse_query_result data with
      | [] =>
          Some (repeat (Bare fzero) (Z.to_nat (window_minutes query_config)))
      | parsed_data =>
          Some (map (fun expected_ts =>
                       Row [closest_value expected_ts parsed_data])
                    (expected_timestamps end_time
                       (window_minutes query_config)))
      end
  end.

(** ** main.py: the registry, the policy loader and the cycle *)

(** The dict stored in [monitored_deployments] for one deployment. *)
Record deployment_entry : Type := {
  crd_name : string;
  thresholds : ValidationThresholds;
  query_config : QueryConfig;
  scaling_config : ScalingConfig;
  last_processed : option Z;
  error_count : Z;
}.

(** The two mutable parts of the operator that the decision path uses.  The
    [ScalingAlgorithm] object is created once, in [__init__]. *)
Record operator : Type := {
  monitored_deployments : gmap string deployment_entry;
  scaling_algorithm : ScalingAlgorithm;
}.

(** A custom resource as [_process_crd_configuration] reads it: every key
    is looked up with [.get], so every field may be absent. *)
Record crd : Type := {
  metadata_name : option string;
  targetDeployment : option string;
  maxHistoricalMultiplier : option pyfloat;
  maxSpikeMultiplier : option pyfloat;
  prometheusService : option string;
  windowMinute : option Z;
  queryTemplate : option string;
  minReplicas : option Z;
  maxReplicas : option Z;
  workloadPerPod : option Z;
  resourceRemovalStrategy : option rrs_value;
  cooldownPeriod : option Z;
}.

(** [d.get(key, fallback)]. *)
Definition get_or {A : Type} (field : option A) (fallback : A) : A :=
  match field with
  | Some v => v
  | None => fallback
  end.

(** [not s] for an optional string: absent or empty. *)
Definition missing (field : option string) : bool :=
  match field with
  | None => true
  | Some s => String.eqb s EmptyString
  end.

Definition quote : string := String (Ascii.ascii_of_nat 34) EmptyString.

Definition fallback_query_template : string :=
  ("rate(http_requests_total{{service=" ++ quote ++ "{service_name}"
    ++ quote ++ "}}[{window}m])")%string.

(** The [try] block of [_process_crd_configuration]. *)
Definition _process_crd_configuration_body (self : operator) (c : crd)
  : result operator :=
  let crd_name := get_or (metadata_name c) "unknown"%string in
  if missing (targetDeployment c) then Raise ValueError
  else
    let deployment_name := get_or (targetDeployment c) EmptyString in
    let thresholds :=
      {| max_historical_multiplier :=
           get_or (maxHistoricalMultiplier c) (FFinite 2%Q);
         max_spike_multiplier :=
           get_or (maxSpikeMultiplier c) (FFinite 3%Q) |} in
    if missing (prometheusService c) then Raise ValueError
    else
      let query_config :=
        {| service_name := get_or (prometheusService c) EmptyString;
           window_minutes := get_or (windowMinute c) 10;
           query_template :=
             Some (get_or (queryTemplate c) fallback_query_template) |} in
      let scaling_config :=
        {| min_replicas := get_or (minReplicas c) 1;
           max_replicas := get_or (maxReplicas c) 10;
           workload_per_pod := get_or (workloadPerPod c) 100;
           resource_removal_strategy :=
             get_or (resourceRemovalStrategy c) (RrsText "gradual");
           cooldown_period := get_or (cooldownPeriod c) 300 |} in
      Ok {| monitored_deployments :=
              <[deployment_name :=
                  {| crd_name := crd_name;
                     thresholds := thresholds;
                     query_config := query_config;
                     scaling_config := scaling_config;
                     last_processed := None;
                     error_count := 0 |}]>
                (monitored_deployments self);
            scaling_algorithm := scaling_algorithm self |}.

(** Both handlers re-raise a plain [Exception] with a message. *)
Definition _process_crd_configuration (self : operator) (c : crd)
  : result operator :=
  try_except (_process_crd_configuration_body self c)
    (fun _ => Raise PlainException).

(** The loop of [_load_crd_configurations] over the listed items: an item
    that fails is skipped. *)
Definition load_items (self : operator) (items : list crd) : operator :=
  fold_left
    (fun op c =>
       match _process_crd_configuration op c with
       | Ok op' => op'
       | Raise _ => op
       end)
    items self.

(** What the collaborators answer during one cycle of one deployment, and
    the successive readings of the clock. *)
Record cycle_env : Type := {
  env_replicas : option Z;
  env_history : option (list window_entry);
  env_prediction : option pyfloat;
  env_patch_ok : bool;
  env_now_check : Z;
  env_now_remaining : Z;
  env_now_executed : Z;
  env_now_processed : Z;
}.

(** The line a cycle prints about its own end. *)
Inductive cycle_report : Type :=
| ReplicaReadFailed
| NoHistoricalData
| PredictionFailed
| ScalingApplied
| ScalingFailed
| NoScalingNeeded
| ProcessingError (e : exn).

Record cycle_result : Type := {
  res_entry : deployment_entry;
  res_algorithm : ScalingAlgorithm;
  res_patch : option Z;
  res_decision : option ScalingDecision;
  res_report : cycle_report;
}.

Definition set_error_count (config : deployment_entry) (n : Z)
  : deployment_entry :=
  {| crd_name := crd_name config;
     thresholds := thresholds config;
     query_config := query_config config;
     scaling_config := scaling_config config;
     last_processed := last_processed config;
     error_count := n |}.

Definition set_last_processed (config : deployment_entry) (t : Z)
  : deployment_entry :=
  {| crd_name := crd_name config;
     thresholds := thresholds config;
     query_config := query_config config;
     scaling_config := scaling_config config;
     last_processed := Some t;
     error_count := error_count config |}.

Definition increment_errors (config : deployment_entry) : deployment_entry :=
  set_error_count config (error_count config + 1).

(** [_get_historical_metrics]: [if not metrics: return None]. *)
Definition _get_historical_metrics (metrics : option (list window_entry))
  : option (list window_entry) :=
  match metrics with
  | None | Some [] => None
  | Some l => Some l
  end.

Definition is_zero (f : pyfloat) : bool :=
  match f with
  | FFinite q => Qeq_bool q 0
  | _ => false
  end.

(** Truth value of a window entry: a non-empty list, a non-zero float. *)
Definition truthy (e : window_entry) : bool :=
  match e with
  | Row [] => false
  | Row (_ :: _) => true
  | Bare f => negb (is_zero f)
  end.

(** [e[0]]: a float is not subscriptable. *)
Definition subscript0 (e : window_entry) : result pyfloat :=
  match e with
  | Row l => py_first l
  | Bare _ => Raise TypeError
  end.

(** [current_request[0] if current_request else None]. *)
Definition current_request_value (current_request : window_entry)
  : result (option pyfloat) :=
  if truthy current_request
  then v ← subscript0 current_request; Ok (Some v)
  else Ok None.

Definition failed (alg : ScalingAlgorithm) (config : deployment_entry)
    (report : cycle_report) : cycle_result :=
  {| res_entry := increment_errors config;
     res_algorithm := alg;
     res_patch := None;
     res_decision := None;
     res_report := report |}.

(** The [try] block of [_process_deployment]. *)
Definition _process_deployment_body (alg : ScalingAlgorithm)
    (deployment_name : string) (config : deployment_entry) (env : cycle_env)
  : result cycle_result :=
  match env_replicas env with
  | None => Ok (failed alg config ReplicaReadFailed)
  | Some current_replicas =>
      match _get_historical_metrics (env_history env) with
      | None => Ok (failed alg config NoHistoricalData)
      | Some historical_data =>
          current_request ← py_last historical_data;
          _ ← current_request_value current_request;
          match env_prediction env with
          | None => Ok (failed alg config PredictionFailed)
          | Some predicted_workload =>
              scaling_decision ←
                calculate_scaling_decision alg (env_now_check env)
                  (env_now_remaining env) deployment_name predicted_workload
                  current_replicas (scaling_config config);
              if is_scaling_action (action scaling_decision) then
                if env_patch_ok env then
                  Ok {| res_entry :=
                          set_last_processed (set_error_count config 0)
                            (env_now_processed env);
                        res_algorithm :=
                          snd (execute_scaling_decision alg deployment_name
                                 scaling_decision (env_now_executed env));
                        res_patch := Some (target_replicas scaling_decision);
                        res_decision := Some scaling_decision;
                        res_report := ScalingApplied |}
                else
                  Ok {| res_entry :=
                          set_last_processed (increment_errors config)
                            (env_now_processed env);
                        res_algorithm := alg;
                        res_patch := Some (target_replicas scaling_decision);
                        res_decision := Some scaling_decision;
                        res_report := ScalingFailed |}
              else
                Ok {| res_entry :=
                        set_last_processed (set_error_count config 0)
                          (env_now_processed env);
                      res_algorithm := alg;
                      res_patch := None;
                      res_decision := Some scaling_decision;
                      res_report := NoScalingNeeded |}
          end
      end
  end.

(** [_process_deployment]: every exception of the block is raised before the
    block has changed anything, so the handler increments the counter of the
    entry it was given. *)
Definition _process_deployment (alg : ScalingAlgorithm)
    (deployment_name : string) (config : deployment_entry) (env : cycle_env)
  : cycle_result :=
  match _process_deployment_body alg deployment_name config env with
  | Ok r => r
  | Raise e => failed alg config (ProcessingError e)
  end.

(** The body of the [for deployment_name in deployment_names] loop of [run]:
    skip a name that is no longer monitored, process it, and drop it when
    its counter exceeds 10. *)
Definition run_deployment (self : operator) (deployment_name : string)
    (env : cycle_env) : operator :=
  match monitored_deployments self !! deployment_name with
  | None => self
  | Some config =>
      let r :=
        _process_deployment (scaling_algorithm self) deployment_name config
          env in
      let updated :=
        <[deployment_name := res_entry r]> (monitored_deployments self) in
      {| monitored_deployments :=
           if error_count (res_entry r) >? 10
           then delete deployment_name updated
           else updated;
         scaling_algorithm := res_algorithm r |}
  end.

(** The successive cycles of one deployment, one per pass. *)
Definition run_cycles (self : operator) (deployment_name : string)
    (envs : list cycle_env) : operator :=
  fold_left (fun op env => run_deployment op deployment_name env) envs self.

(** ** Vocabulary of the statements *)

(** The removal fraction is not a negative number. *)
Definition removal_not_negative (config : ScalingConfig) : Prop :=
  forall q, resource_removal_strategy config = RrsNumber (FFinite q) ->
            (0 <= q)%Q.

(** A policy used in the examples. *)
Definition sample_config : ScalingConfig :=
  {| min_replicas := 1;
     max_replicas := 5;
     workload_per_pod := 100;
     resource_removal_strategy := RrsNumber (FFinite (1 # 2));
     cooldown_period := 300 |}.


(** The required pod count as line 84 of the source computes it. *)
Definition pods_required_of (forecast : pyfloat) (config : ScalingConfig)
  : result Z :=
  required ← _calculate_required_pods forecast (workload_per_pod config);
  Ok (Z.max required (min_replicas config)).

(** The reports that end a cycle on a failure. *)
Definition is_failure (report : cycle_report) : bool :=
  match report with
  | ScalingApplied | NoScalingNeeded => false
  | _ => true
  end.

(** The ways a cycle of [_process_deployment] can end. *)
Inductive cycle_ends (alg : ScalingAlgorithm) (name : string)
    (config : deployment_entry) (env : cycle_env) : cycle_result -> Prop :=
| ends_early (report : cycle_report) :
    is_failure report = true ->
    report <> ScalingFailed ->
    cycle_ends alg name config env (failed alg config report)
| ends_applied (current : Z) (forecast : pyfloat) (d : ScalingDecision) :
    env_replicas env = Some current ->
    env_prediction env = Some forecast ->
    calculate_scaling_decision alg (env_now_check env)
      (env_now_remaining env) name forecast current (scaling_config config)
    = Ok d ->
    is_scaling_action (action d) = true ->
    env_patch_ok env = true ->
    cycle_ends alg name config env
      {| res_entry :=
           set_last_processed (set_error_count config 0)
             (env_now_processed env);
         res_algorithm :=
           {| last_scaling_time :=
                <[name := env_now_executed env]> (last_scaling_time alg) |};
         res_patch := Some (target_replicas d);
         res_decision := Some d;
         res_report := ScalingApplied |}
| ends_patch_failed (current : Z) (forecast : pyfloat) (d : ScalingDecision) :
    env_replicas env = Some current ->
    env_prediction env = Some forecast ->
    calculate_scaling_decision alg (env_now_check env)
      (env_now_remaining env) name forecast current (scaling_config config)
    = Ok d ->
    is_scaling_action (action d) = true ->
    env_patch_ok env = false ->
    cycle_ends alg name config env
      {| res_entry :=
           set_last_processed (increment_errors config)
             (env_now_processed env);
         res_algorithm := alg;
         res_patch := Some (target_replicas d);
         res_decision := Some d;
         res_report := ScalingFailed |}
| ends_no_action (current : Z) (forecast : pyfloat) (d : ScalingDecision) :
    env_replicas env = Some current ->
    env_prediction env = Some forecast ->
    calculate_scaling_decision alg (env_now_check env)
      (env_now_remaining env) name forecast current (scaling_config config)
    = Ok d ->
    is_scaling_action (action d) = false ->
    cycle_ends alg name config env
      {| res_entry :=
           set_last_processed (set_error_count config 0)
             (env_now_processed env);
         res_algorithm := alg;
         res_patch := None;
         res_decision := Some d;
         res_report := NoScalingNeeded |}.

(** Every cycle of the list, run in turn for the deployment, finds it
    monitored and ends on a failure. *)
Fixpoint all_fail (self : operator) (name : string) (envs : list cycle_env)
  : Prop :=
  match envs with
  | [] => True
  | env :: rest =>
      (exists config,
         monitored_deployments self !! name = Some config
         /\ is_failure
              (res_report
                 (_process_deployment (scaling_algorithm self) name config
                    env)) = true)
      /\ all_fail (run_deployment self name env) name rest
  end.

(** The metrics fetch of the cycle fails, the replica count having been
    read: nothing, or an empty window, comes back. *)
Definition metrics_fetch_fails (env : cycle_env) : Prop :=
  is_Some (env_replicas env)
  /\ _get_historical_metrics (env_history env) = None.

(** A cycle in which the metrics fetch fails. *)
Definition metrics_down : cycle_env :=
  {| env_replicas := Some 3;
     env_history := None;
     env_prediction := None;
     env_patch_ok := true;
     env_now_check := 0;
     env_now_remaining := 0;
     env_now_executed := 0;
     env_now_processed := 0 |}.

Definition sample_entry : deployment_entry :=
  {| crd_name := "web-policy";
     thresholds := {| max_spike_multiplier := FFinite 3;
                      max_historical_multiplier := FFinite 2 |};
     query_config := {| service_name := "web";
                        window_minutes := 10;
                        query_template := None |};
     scaling_config := sample_config;
     last_processed := None;
     error_count := 0 |}.

Definition sample_operator : operator :=
  {| monitored_deployments := {[ "web"%string := sample_entry ]};
     scaling_algorithm := ScalingAlgorithm_init |}.

(** The registry entry that [_process_crd_configuration] builds from a
    resource, whatever the registry held before. *)
Definition entry_of_crd (c : crd) : deployment_entry :=
  {| crd_name := get_or (metadata_name c) "unknown"%string;
     thresholds :=
       {| max_spike_multiplier := get_or (maxSpikeMultiplier c) (FFinite 3%Q);
          max_historical_multiplier :=
            get_or (maxHistoricalMultiplier c) (FFinite 2%Q) |};
     query_config :=
       {| service_name := get_or (prometheusService c) EmptyString;
          window_minutes := get_or (windowMinute c) 10;
          query_template :=
            Some (get_or (queryTemplate c) fallback_query_template) |};
     scaling_config :=
       {| min_replicas := get_or (minReplicas c) 1;
          max_replicas := get_or (maxReplicas c) 10;
          workload_per_pod := get_or (workloadPerPod c) 100;
          resource_removal_strategy :=
            get_or (resourceRemovalStrategy c) (RrsText "gradual");
          cooldown_period := get_or (cooldownPeriod c) 300 |};
     last_processed := None;
     error_count := 0 |}.

Definition sample_crd : crd :=
  {| metadata_name := Some "web-policy"%string;
     targetDeployment := Some "web"%string;
     maxHistoricalMultiplier := None;
     maxSpikeMultiplier := None;
     prometheusService := Some "web-svc"%string;
     windowMinute := None;
     queryTemplate := None;
     minReplicas := Some 1;
     maxReplicas := Some 5;
     workloadPerPod := Some 100;
     resourceRemovalStrategy := Some (RrsNumber (FFinite (1 # 2)));
     cooldownPeriod := Some 300 |}.

(** The algorithm after ["web"] was scaled at time 1000. *)
Definition scaled_at_1000 : ScalingAlgorithm :=
  {| last_scaling_time := {[ "web"%string := 1000 ]} |}.

(** An operator that monitors ["web"] under [sample_crd], has counted three
    errors for it and scaled it at time 1000. *)
Definition operator_before_reload : operator :=
  {| monitored_deployments :=
       {[ "web"%string := set_error_count (entry_of_crd sample_crd) 3 ]};
     scaling_algorithm := scaled_at_1000 |}.

(** A history window as the validator receives it: one row [[v]] per
    value. *)
Definition window_rows (values : list pyfloat) : list (list pyfloat) :=
  map (fun v => [v]) values.

(** Mean of a non-empty list of values. *)
Definition fmean (values : list pyfloat) : pyfloat :=
  match fdiv (fsum values) (float_of_int (Z.of_nat (length values))) with
  | Ok m => m
  | Raise _ => FNaN
  end.

(** The spike rule and the historical rule in the words of the
    specification. *)
Definition spike_rejects (forecast : pyfloat) (values : list pyfloat)
    (thresholds : ValidationThresholds) : bool :=
  match last values with
  | Some current =>
      fgt current fzero
      && fgt forecast (fmul current (max_spike_multiplier thresholds))
  | None => false
  end.

Definition mean_rejects (forecast : pyfloat) (values : list pyfloat)
    (thresholds : ValidationThresholds) : bool :=
  match values with
  | [] => false
  | _ =>
      fgt (fmean values) fzero
      && fgt forecast
           (fmul (fmean values) (max_historical_multiplier thresholds))
  end.

Definition rejects_by_spec (forecast : pyfloat) (values : list pyfloat)
    (thresholds : ValidationThresholds) : bool :=
  flt forecast fzero
  || spike_rejects forecast values thresholds
  || mean_rejects forecast values thresholds.

Definition default_thresholds : ValidationThresholds :=
  {| max_spike_multiplier := FFinite 3;
     max_historical_multiplier := FFinite 2 |}.

(** The value an entry of the window carries. *)
Definition entry_value (e : window_entry) : option pyfloat :=
  match e with
  | Row [v] => Some v
  | Row _ => None
  | Bare v => Some v
  end.

Definition distance (ts slot : Z) : Z := Z.abs (ts - slot).

(** [v] is what the specification puts in the slot at time [slot]: the value
    of a parsed sample within the tolerance than which no parsed sample is
    closer, or 0.0 when no parsed sample is within the tolerance. *)
Definition slot_holds (parsed : list sample) (slot : Z) (v : pyfloat)
  : Prop :=
  (exists ts,
     In (ts, v) parsed
     /\ distance ts slot <= tolerance
     /\ forall p, In p parsed -> distance ts slot <= distance (fst p) slot)
  \/ (v = fzero
      /\ forall p, In p parsed -> tolerance < distance (fst p) slot).

(** What the alignment loop maintains while it scans the samples [seen]. *)
Definition closest_inv (slot : Z) (seen : list sample)
    (acc : pyfloat * option Z) : Prop :=
  match snd acc with
  | None =>
      fst acc = fzero
      /\ forall p, In p seen -> tolerance < distance (fst p) slot
  | Some d =>
      d <= tolerance
      /\ (exists ts, In (ts, fst acc) seen /\ distance ts slot = d)
      /\ forall p, In p seen -> d <= distance (fst p) slot
  end.

(** The shape of a normal entry: a one-element list. *)
Definition is_row (e : window_entry) : Prop := exists v, e = Row [v].

(** A response with one range series holding a sample 95 s and a sample 40 s
    before the time [t]. *)
Definition two_samples (t : Z) : response :=
  {| result_data :=
       [ {| series_value := None;
            series_values :=
              Some [ (RawTime (t - microseconds 95), RawFloat (FFinite 5));
                     (RawTime (t - microseconds 40), RawFloat (FFinite 7)) ]
         |} ] |}.

Definition window_of (n : Z) : QueryConfig :=
  {| service_name := "web-svc";
     window_minutes := n;
     query_template := None |}.

(** The cycle got a history it can read its last value from. *)
Definition history_readable (env : cycle_env) : Prop :=
  exists history current_request v,
    _get_historical_metrics (env_history env) = Some history
    /\ py_last history = Ok current_request
    /\ current_request_value current_request = Ok v.

(** The [scale_in] decision that removes nothing. *)
Definition idle_scale_in (current required : Z) (forecast : pyfloat)
  : ScalingDecision :=
  {| action := scale_in;
     target_replicas := current;
     current_replicas := current;
     predicted_workload := forecast;
     reason := Some (RemovingSurplus required 0 (current - required));
     pods_surplus := Some 0 |}.

Definition never_remove : ScalingConfig :=
  {| min_replicas := 1;
     max_replicas := 5;
     workload_per_pod := 100;
     resource_removal_strategy := RrsNumber (FFinite 0);
     cooldown_period := 300 |}.

Definition never_remove_entry : deployment_entry :=
  {| crd_name := "web-policy";
     thresholds := default_thresholds;
     query_config := window_of 10;
     scaling_config := never_remove;
     last_processed := None;
     error_count := 0 |}.

(** A cycle with 4 replicas running and a forecast that needs one. *)
Definition low_load : cycle_env :=
  {| env_replicas := Some 4;
     env_history := Some (repeat (Row [FFinite 50]) 10);
     env_prediction := Some (FFinite 50);
     env_patch_ok := true;
     env_now_check := 1000;
     env_now_remaining := 1000;
     env_now_executed := 2000;
     env_now_processed := 3000 |}.

(** A cycle with 1 replica running and a forecast that needs one. *)
Definition steady_load : cycle_env :=
  {| env_replicas := Some 1;
     env_history := Some (repeat (Row [FFinite 50]) 10);
     env_prediction := Some (FFinite 50);
     env_patch_ok := true;
     env_now_check := 1000;
     env_now_remaining := 1000;
     env_now_executed := 2000;
     env_now_processed := 3000 |}.

Definition low_load_cycle : cycle_result :=
  _process_deployment ScalingAlgorithm_init "web" never_remove_entry low_load.
(** * Further code of the repository *)

(** A policy that names a target and a metrics service and leaves every
    other field to the loader's defaults. *)
Definition bare_crd : crd :=
  {| metadata_name := Some "web-policy"%string;
     targetDeployment := Some "web"%string;
     maxHistoricalMultiplier := None;
     maxSpikeMultiplier := None;
     prometheusService := Some "web-svc"%string;
     windowMinute := None;
     queryTemplate := None;
     minReplicas := None;
     maxReplicas := None;
     workloadPerPod := None;
     resourceRemovalStrategy := None;
     cooldownPeriod := None |}.

(** The replica count a deployment runs after one more cycle, when the cycle
    falls outside cooldown and the deployment then runs what the decision
    asked for. *)
Definition replicas_after (name : string) (config : ScalingConfig)
    (forecast : pyfloat) (current : Z) : Z :=
  match calculate_scaling_decision ScalingAlgorithm_init 0 0 name forecast
          current config with
  | Ok d => target_replicas d
  | Raise _ => current
  end.

Fixpoint replicas_after_cycles (n : nat) (name : string)
    (config : ScalingConfig) (forecast : pyfloat) (current : Z) : Z :=
  match n with
  | O => current
  | S n' =>
      replicas_after_cycles n' name config forecast
        (replicas_after name config forecast current)
  end.

(** The [for deployment_name in deployment_names] loop of [run] over a
    snapshot of the names; [envs] gives what each deployment meets in this
    pass. *)
Definition run_pass (self : operator) (deployment_names : list string)
    (envs : string -> cycle_env) : operator :=
  fold_left (fun op name => run_deployment op name (envs name))
    deployment_names self.

(** What the loop body does to the registry once the cycle has produced
    [entry]. *)
Definition keep_or_drop (name : string) (entry : deployment_entry)
    (registry : gmap string deployment_entry)
  : gmap string deployment_entry :=
  if error_count entry >? 10
  then delete name (<[name := entry]> registry)
  else <[name := entry]> registry.

(** What a cycle does to the cooldown records. *)
Definition record_scaling (name : string) (report : cycle_report) (t : Z)
    (alg : ScalingAlgorithm) : ScalingAlgorithm :=
  match report with
  | ScalingApplied =>
      {| last_scaling_time := <[name := t]> (last_scaling_time alg) |}
  | _ => alg
  end.

(** [_load_crd_configurations]: [listing] is what the Kubernetes API
    returned for the custom objects, its ['items'], or the exception it
    raised.  Every exception leaves as a plain [Exception]. *)
Definition _load_crd_configurations (self : operator)
    (listing : result (list crd)) : result operator :=
  try_except
    (items ← listing;
     match items with
     | [] => Ok self
     | _ => Ok (load_items self items)
     end)
    (fun _ => Raise PlainException).

(** [_reload_crd_configurations]: a failed reload keeps what is loaded. *)
Definition _reload_crd_configurations (self : operator)
    (listing : result (list crd)) : operator :=
  match _load_crd_configurations self listing with
  | Ok after => after
  | Raise _ => self
  end.

(** A policy whose window has no minute, and a cycle under it in which
    Prometheus answers with two samples. *)
Definition zero_window_entry : deployment_entry :=
  {| crd_name := "web-policy";
     thresholds := default_thresholds;
     query_config := window_of 0;
     scaling_config := sample_config;
     last_processed := None;
     error_count := 0 |}.

Definition zero_window_cycle : cycle_env :=
  {| env_replicas := Some 3;
     env_history :=
       get_historical_workload (minutes 100) (window_of 0)
         (Some (two_samples (minutes 100)));
     env_prediction := Some (FFinite 50);
     env_patch_ok := true;
     env_now_check := 0;
     env_now_remaining := 0;
     env_now_executed := 0;
     env_now_processed := 0 |}.

(** A value of the history that shows no load: a finite number that is not
    above 0. *)
Definition no_load (v : pyfloat) : Prop :=
  exists q, v = FFinite q /\ (q <= 0)%Q.

(** Samples in ascending order of time. *)
Fixpoint ascending (l : list sample) : Prop :=
  match l with
  | [] => True
  | x :: rest => (forall y, In y rest -> fst x <= fst y) /\ ascending rest
  end.

(** A raw sample that [_parse_query_result] cannot read. *)
Definition unreadable (p : raw_sample) : Prop :=
  fst p = RawTimeInvalid \/ snd p = RawInvalid.

(** A response whose only series holds one good and one unreadable
    sample. *)
Definition one_bad_sample : response :=
  {| result_data :=
       [ {| series_value := None;
            series_values :=
              Some [ (RawTime (minutes 99), RawFloat (FFinite 5));
                     (RawTime (minutes 100), RawInvalid) ] |} ] |}.

(** ** prometheus_client.py: the ranged query and its retries *)

(** What one attempt of [_execute_range_query] meets: an answer whose status
    is ['success']; a [requests] exception (connection, timeout, HTTP
    status); or any other exception, such as the one the code raises on a
    status that is not ['success']. *)
Inductive attempt_outcome : Type :=
| Answered (data : response)
| TransportFailed
| OtherwiseFailed.

(** The attributes of a [PrometheusClient] that the query reads and
    writes; [failures_so_far] is its [consecutive_failures]. *)
Record PrometheusClient : Type := {
  max_retries : Z;
  last_successful_query : option Z;
  failures_so_far : Z;
  is_healthy : bool;
}.

(** What a call leaves: its return value, the client, and the seconds it
    slept, in order. *)
Record query_run : Type := {
  run_answer : option response;
  run_client : PrometheusClient;
  run_sleeps : list Z;
}.

Definition note_success (self : PrometheusClient) (now : Z)
  : PrometheusClient :=
  {| max_retries := max_retries self;
     last_successful_query := Some now;
     failures_so_far := 0;
     is_healthy := true |}.

Definition note_failure (self : PrometheusClient) : PrometheusClient :=
  {| max_retries := max_retries self;
     last_successful_query := last_successful_query self;
     failures_so_far := failures_so_far self + 1;
     is_healthy := false |}.

(** The [for attempt in range(self.max_retries)] loop over the attempts
    still to make.  [outcome] tells what each attempt meets and [clock] the
    [datetime.now()] of a success. *)
Fixpoint attempts (outcome : Z -> attempt_outcome) (clock : Z -> Z)
    (todo : list Z) (self : PrometheusClient) (slept : list Z) : query_run :=
  match todo with
  | [] => {| run_answer := None; run_client := self; run_sleeps := slept |}
  | attempt :: rest =>
      match outcome attempt with
      | Answered data =>
          {| run_answer := Some data;
             run_client := note_success self (clock attempt);
             run_sleeps := slept |}
      | TransportFailed =>
          if attempt <? max_retries self - 1
          then attempts outcome clock rest self (slept ++ [2 ^ attempt])
          else attempts outcome clock rest (note_failure self) slept
      | OtherwiseFailed =>
          {| run_answer := None;
             run_client := note_failure self;
             run_sleeps := slept |}
      end
  end.

Definition _execute_range_query (self : PrometheusClient)
    (outcome : Z -> attempt_outcome) (clock : Z -> Z) : query_run :=
  attempts outcome clock (py_range (max_retries self)) self [].

(** The attempts numbered from [first], [count] of them. *)
Definition attempts_from (first count : nat) : list Z :=
  map Z.of_nat (seq first count).

(** A client as [__init__] leaves it after a good connection test. *)
Definition fresh_client : PrometheusClient :=
  {| max_retries := 5;
     last_successful_query := None;
     failures_so_far := 0;
     is_healthy := true |}.

(** Total of the seconds slept. *)
Definition total_sleep (sleeps : list Z) : Z := fold_right Z.add 0 sleeps.

(** ** prometheus_client.py: the whole of [get_historical_workload] *)

(** [template.format] called with keyword arguments that are strings.
    The model covers literal text, doubled braces and fields that are a
    plain keyword name; a field with a conversion, a format specification,
    an attribute or an index, or a name that begins with a digit, is
    [BeyondModel]. *)
Inductive format_result : Type :=
| Formatted (s : string)
| MissingKey (name : string)
| MissingIndex
| BadTemplate
| BeyondModel.

Inductive format_state : Type :=
| InText
| AfterOpen
| AfterClose
| InField (name : string).

Definition is_digit (c : Ascii.ascii) : bool :=
  let n := Ascii.nat_of_ascii c in
  (Nat.leb 48 n && Nat.leb n 57)%bool.

(** The characters [{], [}], [!], [:], [.] and [[]. *)
Definition open_brace : Ascii.ascii := Ascii.ascii_of_nat 123.
Definition close_brace : Ascii.ascii := Ascii.ascii_of_nat 125.
Definition bang : Ascii.ascii := Ascii.ascii_of_nat 33.
Definition colon : Ascii.ascii := Ascii.ascii_of_nat 58.
Definition dot : Ascii.ascii := Ascii.ascii_of_nat 46.
Definition open_bracket : Ascii.ascii := Ascii.ascii_of_nat 91.

Definition beyond_plain_name (c : Ascii.ascii) : bool :=
  (Ascii.eqb c bang || Ascii.eqb c colon || Ascii.eqb c dot
   || Ascii.eqb c open_bracket || Ascii.eqb c open_brace)%bool.

Fixpoint lookup_keyword (kwargs : list (string * string)) (name : string)
  : option string :=
  match kwargs with
  | [] => None
  | (k, v) :: rest =>
      if String.eqb k name then Some v else lookup_keyword rest name
  end.

Definition push (s : string) (c : Ascii.ascii) : string :=
  (s ++ String c EmptyString)%string.

Fixpoint format_from (kwargs : list (string * string)) (template : string)
    (state : format_state) (out : string) : format_result :=
  match template with
  | EmptyString =>
      match state with
      | InText => Formatted out
      | _ => BadTemplate
      end
  | String c rest =>
      match state with
      | InText =>
          if Ascii.eqb c open_brace then format_from kwargs rest AfterOpen out
          else if Ascii.eqb c close_brace
               then format_from kwargs rest AfterClose out
               else format_from kwargs rest InText (push out c)
      | AfterClose =>
          if Ascii.eqb c close_brace
          then format_from kwargs rest InText (push out c)
          else BadTemplate
      | AfterOpen =>
          if Ascii.eqb c open_brace
          then format_from kwargs rest InText (push out c)
          else if Ascii.eqb c close_brace then MissingIndex
          else if (beyond_plain_name c || is_digit c)%bool then BeyondModel
          else format_from kwargs rest (InField (push EmptyString c)) out
      | InField name =>
          if Ascii.eqb c close_brace then
            match lookup_keyword kwargs name with
            | Some v => format_from kwargs rest InText (out ++ v)%string
            | None => MissingKey name
            end
          else if beyond_plain_name c then BeyondModel
          else format_from kwargs rest (InField (push name c)) out
      end
  end.

Definition py_format (template : string) (kwargs : list (string * string))
  : format_result :=
  format_from kwargs template InText EmptyString.

(** [self.default_query_template]. *)
Definition default_query_template : string :=
  "sum(rate(flask_requests_total[1m])) * 60".

(** [query_config.query_template or self.default_query_template]. *)
Definition template_of (query_config : QueryConfig) : string :=
  match query_template query_config with
  | None => default_query_template
  | Some t => if String.eqb t EmptyString then default_query_template else t
  end.

(** What a call of [get_historical_workload] leaves. *)
Record workload_call : Type := {
  call_window : option (list window_entry);
  call_client : PrometheusClient;
  call_sleeps : list Z;
}.

(** [get_historical_workload] from the template to the window: every
    exception of the block, the [KeyError] of [format] included, gives
    [None]; [end_time] is the [datetime.now()] of the call.  The result is
    absent when the template is beyond the model of [format]. *)
Definition get_historical_workload_call (self : PrometheusClient)
    (query_config : QueryConfig) (end_time : Z)
    (outcome : Z -> attempt_outcome) (clock : Z -> Z)
  : option workload_call :=
  match py_format (template_of query_config)
          [("service"%string, service_name query_config)] with
  | BeyondModel => None
  | Formatted _ =>
      let r := _execute_range_query self outcome clock in
      Some {| call_window :=
                get_historical_workload end_time query_config (run_answer r);
              call_client := run_client r;
              call_sleeps := run_sleeps r |}
  | MissingKey _ | MissingIndex | BadTemplate =>
      Some {| call_window := None;
              call_client := self;
              call_sleeps := [] |}
  end.

(** A template without any brace. *)
Fixpoint brace_free (template : string) : bool :=
  match template with
  | EmptyString => true
  | String c rest =>
      (negb (Ascii.eqb c open_brace) && negb (Ascii.eqb c close_brace)
       && brace_free rest)%bool
  end.

(** A cycle that reads its history through [get_historical_workload] under
    the policy [bare_crd], with a client whose every attempt would be
    answered. *)
Definition bare_policy_cycle : cycle_env :=
  {| env_replicas := Some 3;
     env_history :=
       match get_historical_workload_call fresh_client
               (query_config (entry_of_crd bare_crd)) (minutes 100)
               (fun _ => Answered (two_samples (minutes 100)))
               (fun _ => 0) with
       | Some call => call_window call
       | None => None
       end;
     env_prediction := Some (FFinite 50);
     env_patch_ok := true;
     env_now_check := 0;
     env_now_remaining := 0;
     env_now_executed := 0;
     env_now_processed := 0 |}.

(** ** main.py: the window handed to the model *)

(** The head of [_make_prediction]: a window that is not 10 entries long is
    padded with its last entry, or with 0 when it is empty, or cut down to
    its last 10 entries. *)
Definition pad_or_truncate (historical_data : list window_entry)
  : list window_entry :=
  let n := length historical_data in
  if Nat.eqb n 10 then historical_data
  else if Nat.ltb n 10 then
    let last_value :=
      match last historical_data with
      | Some e => e
      | None => Bare fzero
      end in
    historical_data ++ repeat last_value (10 - n)
  else skipn (n - 10) historical_data.

(** A cycle whose forecast is [nan]. *)
Definition nan_forecast_cycle : cycle_env :=
  {| env_replicas := Some 4;
     env_history := Some (repeat (Row [FFinite 50]) 10);
     env_prediction := Some FNaN;
     env_patch_ok := true;
     env_now_check := 1000;
     env_now_remaining := 1000;
     env_now_executed := 2000;
     env_now_processed := 3000 |}.

(** ** locustfile.py: the load shape *)

Record MyLoadShape : Type := {
  min_users : Z;
  max_users : Z;
  wave_length : Z;
  random_factor : Q;
}.

Definition MyLoadShape_init : MyLoadShape :=
  {| min_users := 25;
     max_users := 150;
     wave_length := 180;
     random_factor := 1 # 5 |}.

(** [min(a, b)] and [max(a, b)] of Python: the first argument unless the
    second is strictly smaller, or strictly larger. *)
Definition py_min (a b : Q) : Q := if Qltb b a then b else a.
Definition py_max (a b : Q) : Q := if Qltb a b then b else a.

(** [int(x)] truncates toward zero. *)
Definition int_of (x : Q) : Z := if Qltb x 0 then Qceiling x else Qfloor x.

(** [tick], from the value [base_wave] of the sine and the value
    [random_noise] drawn by [random.uniform]. *)
Definition tick (self : MyLoadShape) (base_wave random_noise : Q) : Z * Z :=
  let wave_with_noise := (base_wave + random_noise)%Q in
  let normalized := ((wave_with_noise + 1) / 2)%Q in
  let normalized := py_max 0 (py_min 1 normalized) in
  let user_count :=
    int_of (inject_Z (min_users self)
            + inject_Z (max_users self - min_users self) * normalized)%Q in
  let spawn_rate := Z.max 1 (user_count / 10) in
  (user_count, spawn_rate).

(** ** locustfile.py: the request tracker *)

(** [request_counts] is a [defaultdict(int)]; [csv_rows] is what has been
    appended to the CSV file after the header, the first column being the
    instant that is formatted into it; times are seconds. *)
Record RequestTracker : Type := {
  request_counts : gmap Z Z;
  start_time : option Q;
  last_logged_minute : Z;
  csv_rows : list (Q * Z);
}.

Definition RequestTracker_init : RequestTracker :=
  {| request_counts := ∅;
     start_time := None;
     last_logged_minute := -1;
     csv_rows := [] |}.

(** [counts[minute]] read as a value of the [defaultdict]. *)
Definition count_of (counts : gmap Z Z) (minute : Z) : Z :=
  match counts !! minute with
  | Some n => n
  | None => 0
  end.

(** [int((now - start) // 60)]. *)
Definition minute_of (start now : Q) : Z := Qfloor ((now - start) / 60).

(** [record_request]: [first_clock] is the [time.time()] that sets
    [start_time] on the first request, [now] the one read next. *)
Definition record_request (self : RequestTracker) (first_clock now : Q)
  : RequestTracker :=
  let start :=
    match start_time self with
    | Some s => s
    | None => first_clock
    end in
  let minute_mark := minute_of start now in
  {| request_counts :=
       <[minute_mark := count_of (request_counts self) minute_mark + 1]>
         (request_counts self);
     start_time := Some start;
     last_logged_minute := last_logged_minute self;
     csv_rows := csv_rows self |}.

(** [range(a, b)]. *)
Definition py_range_between (a b : Z) : list Z :=
  map (fun i => a + Z.of_nat i) (seq 0 (Z.to_nat (b - a))).

(** The body of the loop of [log_minute_data]: reading the count of a
    minute that has none stores a 0 for it. *)
Definition log_minute (start : Q) (self : RequestTracker)
    (minute_to_log : Z) : RequestTracker :=
  let requests_this_minute := count_of (request_counts self) minute_to_log in
  {| request_counts :=
       <[minute_to_log := requests_this_minute]> (request_counts self);
     start_time := start_time self;
     last_logged_minute := minute_to_log;
     csv_rows :=
       csv_rows self
       ++ [((start + inject_Z (minute_to_log * 60))%Q,
            requests_this_minute)] |}.

Definition log_minute_data (self : RequestTracker) (now : Q)
  : RequestTracker :=
  match start_time self with
  | None => self
  | Some start =>
      fold_left (log_minute start)
        (py_range_between (last_logged_minute self + 1)
           (minute_of start now))
        self
  end.

(** The rows written for the minutes [minutes], with the counts of
    [counts]. *)
Definition rows_for (start : Q) (counts : gmap Z Z) (minutes : list Z)
  : list (Q * Z) :=
  map (fun m => ((start + inject_Z (m * 60))%Q, count_of counts m)) minutes.

(** A tracker that started at time 0 and saw two requests in minute 0 and
    one in minute 2. *)
Definition busy_tracker : RequestTracker :=
  record_request
    (record_request (record_request RequestTracker_init 0 10) 0 20) 0 130.
(** * The decision path on the interpreter's numbers *)

(** The definitions above compute with exact rationals and an unbounded
    clock, which is all that the properties on signs, bounds and control flow
    need.  [Machine] embeds the functions whose results depend on the
    numbers themselves once more, over the values CPython computes with:

    - a [float] is an IEEE 754 binary64 number ([SpecFloat], precision 53,
      rounding to nearest with ties to even), so a product, a quotient and a
      conversion from [int] are rounded as the interpreter rounds them;
    - a [datetime] is a number of microseconds since 0001-01-01 00:00:00 and
      ends with 9999-12-31 23:59:59.999999; a [timedelta] spans at most
      999999999 days; going beyond either raises [OverflowError];
    - [np.mean] belongs to NumPy, which picks the order of its additions:
      the validator takes it as an argument. *)
Module Machine.

Definition prec : Z := 53.
Definition emax : Z := 1024.

Definition float : Type := spec_float.

Definition fzero : float := S754_zero false.

(** The double nearest to an integer, as [int.__float__] and the mixed
    operations compute it; from [2**1024 - 2**970] on there is none and the
    conversion raises [OverflowError]. *)
Definition float_of_int (z : Z) : result float :=
  match binary_normalize prec emax z 0 false with
  | S754_infinity _ => Raise OverflowError
  | f => Ok f
  end.

(** The double that a decimal literal denotes, the literal being the
    fraction [n / d] of two integers below [2**53]: [0.28] is
    [decimal 28 100]. *)
Definition decimal (n d : Z) : float :=
  SFdiv prec emax (binary_normalize prec emax n 0 false)
    (binary_normalize prec emax d 0 false).

(** [x < y] and [x > y]: every comparison with [nan] is false. *)
Definition flt (x y : float) : bool := SFltb x y.

Definition fgt (x y : float) : bool := SFltb y x.

Definition fmul (x y : float) : float := SFmul prec emax x y.

Definition fadd (x y : float) : float := SFadd prec emax x y.

(** [x / y] on floats: a zero divisor raises [ZeroDivisionError]. *)
Definition fdiv (x y : float) : result float :=
  match y with
  | S754_zero _ => Raise ZeroDivisionError
  | _ => Ok (SFdiv prec emax x y)
  end.

(** The integer [m] or [-m]. *)
Definition signed (negative : bool) (m : positive) : Z :=
  if negative then Zneg m else Zpos m.

(** [math.ceil]: exact on a finite float, [ValueError] on [nan],
    [OverflowError] on an infinity. *)
Definition math_ceil (x : float) : result Z :=
  match x with
  | S754_zero _ => Ok 0
  | S754_finite s m e =>
      Ok (if e <? 0 then - ((- signed s m) / 2 ^ (- e))
          else signed s m * 2 ^ e)
  | S754_infinity _ => Raise OverflowError
  | S754_nan => Raise ValueError
  end.

(** [int(x)]: truncation toward zero. *)
Definition int_of_float (x : float) : result Z :=
  match x with
  | S754_zero _ => Ok 0
  | S754_finite s m e =>
      Ok (if e <? 0 then Z.quot (signed s m) (2 ^ (- e))
          else signed s m * 2 ^ e)
  | S754_infinity _ => Raise OverflowError
  | S754_nan => Raise ValueError
  end.

(** *** datetime *)

(** [datetime.max], 9999-12-31 23:59:59.999999. *)
Definition datetime_max : Z := 315537897599999999.

(** [timedelta(seconds=s)], in microseconds: its days, [s // 86400], must
    not exceed 999999999 in magnitude. *)
Definition timedelta (seconds : Z) : result Z :=
  if Z.abs (seconds / 86400) >? 999999999 then Raise OverflowError
  else Ok (microseconds seconds).

(** [d + delta] on a datetime: the sum must be a datetime. *)
Definition datetime_add (d delta : Z) : result Z :=
  let sum := d + delta in
  if (0 <=? sum) && (sum <=? datetime_max) then Ok sum
  else Raise OverflowError.

(** [delta.total_seconds()]: the microseconds divided by [10**6], a true
    division of two integers, rounded once. *)
Definition total_seconds (delta : Z) : float :=
  match delta with
  | Z0 => S754_zero false
  | Zpos m =>
      SFdiv prec emax (S754_finite false m 0) (S754_finite false 1000000 0)
  | Zneg m =>
      SFdiv prec emax (S754_finite true m 0) (S754_finite false 1000000 0)
  end.

(** *** scaling_algoirthm.py *)

(** What the policy holds in [resource_removal_strategy]: a float, an
    integer (a YAML [1]), or a text (the loader's default ['gradual']). *)
Inductive rrs_value : Type :=
| RrsNumber (f : float)
| RrsInt (z : Z)
| RrsText (s : string).

Record ScalingConfig : Type := {
  min_replicas : Z;
  max_replicas : Z;
  workload_per_pod : Z;
  resource_removal_strategy : rrs_value;
  cooldown_period : Z;
}.

Record ScalingDecision : Type := {
  action : Action;
  target_replicas : Z;
  current_replicas : Z;
  predicted_workload : float;
  reason : option Reason;
  pods_surplus : option Z;
}.

(** [now] is the value of [datetime.now()] inside the call. *)
Definition execute_scaling_decision (self : ScalingAlgorithm)
    (deployment_name : string) (decision : ScalingDecision) (now : Z)
  : bool * ScalingAlgorithm :=
  if is_scaling_action (action decision)
  then (true,
        {| last_scaling_time :=
             <[deployment_name := now]> (last_scaling_time self) |})
  else (false, self).

Definition _calculate_required_pods (predicted_workload : float)
    (workload_per_pod : Z) : result Z :=
  if workload_per_pod <=? 0 then Ok 1
  else
    divisor ← float_of_int workload_per_pod;
    ratio ← fdiv predicted_workload divisor;
    required_pods ← math_ceil ratio;
    Ok (Z.max 1 required_pods).

Definition _is_in_cooldown (self : ScalingAlgorithm) (deployment_name : string)
    (cooldown_period : Z) (now : Z) : result bool :=
  match last_scaling_time self !! deployment_name with
  | None => Ok false
  | Some last_scaling =>
      delta ← timedelta cooldown_period;
      cooldown_end ← datetime_add last_scaling delta;
      Ok (now <? cooldown_end)
  end.

Definition _get_cooldown_remaining (self : ScalingAlgorithm)
    (deployment_name : string) (cooldown_period : Z) (now : Z) : result Z :=
  match last_scaling_time self !! deployment_name with
  | None => Ok 0
  | Some last_scaling =>
      delta ← timedelta cooldown_period;
      cooldown_end ← datetime_add last_scaling delta;
      let remaining := cooldown_end - now in
      seconds ← int_of_float (total_seconds remaining);
      Ok (Z.max 0 seconds)
  end.

(** [math.ceil((current_replicas - pods_adjusted) *
    config.resource_removal_strategy)]: an [int] times a [float] is the
    rounded product of two floats, an [int] times an [int] is exact and is
    its own ceiling, an [int] times a [str] is a [str], on which
    [math.ceil] raises [TypeError]. *)
Definition ceil_of_share (pool : Z) (rrs : rrs_value) : result Z :=
  match rrs with
  | RrsNumber f => p ← float_of_int pool; math_ceil (fmul p f)
  | RrsInt z => Ok (pool * z)
  | RrsText _ => Raise TypeError
  end.

(** The [try] block of [calculate_scaling_decision].  [now] is the clock
    read by [_is_in_cooldown], [now_remaining] the later one read by
    [_get_cooldown_remaining]. *)
Definition calculate_scaling_decision_body (self : ScalingAlgorithm)
    (now now_remaining : Z) (deployment_name : string)
    (predicted_workload : float) (current_replicas : Z)
    (config : ScalingConfig) : result ScalingDecision :=
  in_cooldown ← _is_in_cooldown self deployment_name (cooldown_period config)
                   now;
  if in_cooldown : bool
  then
    cooldown_remaining ←
      _get_cooldown_remaining self deployment_name (cooldown_period config)
        now_remaining;
    Ok {| action := no_action;
          target_replicas := current_replicas;
          current_replicas := current_replicas;
          predicted_workload := predicted_workload;
          reason := Some (InCooldown cooldown_remaining);
          pods_surplus := None |}
  else
    required ← _calculate_required_pods predicted_workload
                  (workload_per_pod config);
    let pods_required := Z.max required (min_replicas config) in
    if pods_required >? current_replicas then
      let target_replicas := Z.min pods_required (max_replicas config) in
      Ok {| action := scale_out;
            target_replicas := target_replicas;
            current_replicas := current_replicas;
            predicted_workload := predicted_workload;
            reason := Some (ScalingOut pods_required target_replicas);
            pods_surplus := None |}
    else if pods_required <? current_replicas then
      let pods_adjusted := Z.max pods_required (min_replicas config) in
      pods_surplus ← ceil_of_share (current_replicas - pods_adjusted)
                        (resource_removal_strategy config);
      let target_replicas := current_replicas - pods_surplus in
      let target_replicas := Z.max target_replicas (min_replicas config) in
      Ok {| action := scale_in;
            target_replicas := target_replicas;
            current_replicas := current_replicas;
            predicted_workload := predicted_workload;
            reason := Some (RemovingSurplus pods_required pods_surplus
                              (current_replicas - pods_adjusted));
            pods_surplus := Some pods_surplus |}
    else
      Ok {| action := no_action;
            target_replicas := current_replicas;
            current_replicas := current_replicas;
            predicted_workload := predicted_workload;
            reason := None;
            pods_surplus := None |}.

Definition calculate_scaling_decision (self : ScalingAlgorithm)
    (now now_remaining : Z) (deployment_name : string)
    (predicted_workload : float) (current_replicas : Z)
    (config : ScalingConfig) : result ScalingDecision :=
  try_except
    (calculate_scaling_decision_body self now now_remaining deployment_name
       predicted_workload current_replicas config)
    (fun e =>
       Ok {| action := no_action;
             target_replicas := current_replicas;
             current_replicas := current_replicas;
             predicted_workload := predicted_workload;
             reason := Some (ErrorInCalculation e);
             pods_surplus := None |}).

(** *** model_handler.py: the forecast validator *)

Record ValidationThresholds : Type := {
  max_spike_multiplier : float;
  max_historical_multiplier : float;
}.

(** [np_mean] is what [np.mean] answers on the history. *)
Definition _validate_prediction
    (np_mean : list (list float) -> result float) (prediction : float)
    (historical_data : list (list float))
    (thresholds : ValidationThresholds) : result bool :=
  if flt prediction fzero then Ok false
  else
    match historical_data with
    | [] => Ok true
    | _ =>
        last_row ← py_last historical_data;
        current_load ← py_first last_row;
        historical_avg ← np_mean historical_data;
        if fgt current_load fzero
           && fgt prediction
                (fmul current_load (max_spike_multiplier thresholds))
        then Ok false
        else if fgt historical_avg fzero
                && fgt prediction
                     (fmul historical_avg
                        (max_historical_multiplier thresholds))
        then Ok false
        else Ok true
    end.

(** *** main.py: the cycle of one deployment *)

Inductive window_entry : Type :=
| Row (l : list float)
| Bare (f : float).

Record deployment_entry : Type := {
  crd_name : string;
  thresholds : ValidationThresholds;
  query_config : QueryConfig;
  scaling_config : ScalingConfig;
  last_processed : option Z;
  error_count : Z;
}.

(** What the collaborators answer during one cycle of one deployment, and
    the successive readings of the clock. *)
Record cycle_env : Type := {
  env_replicas : option Z;
  env_history : option (list window_entry);
  env_prediction : option float;
  env_patch_ok : bool;
  env_now_check : Z;
  env_now_remaining : Z;
  env_now_executed : Z;
  env_now_processed : Z;
}.

Record cycle_result : Type := {
  res_entry : deployment_entry;
  res_algorithm : ScalingAlgorithm;
  res_patch : option Z;
  res_decision : option ScalingDecision;
  res_report : cycle_report;
}.

Definition set_error_count (config : deployment_entry) (n : Z)
  : deployment_entry :=
  {| crd_name := crd_name config;
     thresholds := thresholds config;
     query_config := query_config config;
     scaling_config := scaling_config config;
     last_processed := last_processed config;
     error_count := n |}.

Definition set_last_processed (config : deployment_entry) (t : Z)
  : deployment_entry :=
  {| crd_name := crd_name config;
     thresholds := thresholds config;
     query_config := query_config config;
     scaling_config := scaling_config config;
     last_processed := Some t;
     error_count := error_count config |}.

Definition increment_errors (config : deployment_entry) : deployment_entry :=
  set_error_count config (error_count config + 1).

(** [_get_historical_metrics]: [if not metrics: return None]. *)
Definition _get_historical_metrics (metrics : option (list window_entry))
  : option (list window_entry) :=
  match metrics with
  | None | Some [] => None
  | Some l => Some l
  end.

(** [0.0] and [-0.0] are the floats that are false. *)
Definition is_zero (f : float) : bool :=
  match f with
  | S754_zero _ => true
  | _ => false
  end.

(** Truth value of a window entry: a non-empty list, a non-zero float. *)
Definition truthy (e : window_entry) : bool :=
  match e with
  | Row [] => false
  | Row (_ :: _) => true
  | Bare f => negb (is_zero f)
  end.

(** [e[0]]: a float is not subscriptable. *)
Definition subscript0 (e : window_entry) : result float :=
  match e with
  | Row l => py_first l
  | Bare _ => Raise TypeError
  end.

(** [current_request[0] if current_request else None]. *)
Definition current_request_value (current_request : window_entry)
  : result (option float) :=
  if truthy current_request
  then v ← subscript0 current_request; Ok (Some v)
  else Ok None.

Definition failed (alg : ScalingAlgorithm) (config : deployment_entry)
    (report : cycle_report) : cycle_result :=
  {| res_entry := increment_errors config;
     res_algorithm := alg;
     res_patch := None;
     res_decision := None;
     res_report := report |}.

(** The [try] block of [_process_deployment]. *)
Definition _process_deployment_body (alg : ScalingAlgorithm)
    (deployment_name : string) (config : deployment_entry) (env : cycle_env)
  : result cycle_result :=
  match env_replicas env with
  | None => Ok (failed alg config ReplicaReadFailed)
  | Some current_replicas =>
      match _get_historical_metrics (env_history env) with
      | None => Ok (failed alg config NoHistoricalData)
      | Some historical_data =>
          current_request ← py_last historical_data;
          _ ← current_request_value current_request;
          match env_prediction env with
          | None => Ok (failed alg config PredictionFailed)
          | Some predicted_workload =>
              scaling_decision ←
                calculate_scaling_decision alg (env_now_check env)
                  (env_now_remaining env) deployment_name predicted_workload
                  current_replicas (scaling_config config);
              if is_scaling_action (action scaling_decision) then
                if env_patch_ok env then
                  Ok {| res_entry :=
                          set_last_processed (set_error_count config 0)
                            (env_now_processed env);
                        res_algorithm :=
                          snd (execute_scaling_decision alg deployment_name
                                 scaling_decision (env_now_executed env));
                        res_patch := Some (target_replicas scaling_decision);
                        res_decision := Some scaling_decision;
                        res_report := ScalingApplied |}
                else
                  Ok {| res_entry :=
                          set_last_processed (increment_errors config)
                            (env_now_processed env);
                        res_algorithm := alg;
                        res_patch := Some (target_replicas scaling_decision);
                        res_decision := Some scaling_decision;
                        res_report := ScalingFailed |}
              else
                Ok {| res_entry :=
                        set_last_processed (set_error_count config 0)
                          (env_now_processed env);
                      res_algorithm := alg;
                      res_patch := None;
                      res_decision := Some scaling_decision;
                      res_report := NoScalingNeeded |}
          end
      end
  end.

(** [_process_deployment]: every exception of the block is raised before the
    block has changed anything, so the handler increments the counter of the
    entry it was given. *)
Definition _process_deployment (alg : ScalingAlgorithm)
    (deployment_name : string) (config : deployment_entry) (env : cycle_env)
  : cycle_result :=
  match _process_deployment_body alg deployment_name config env with
  | Ok r => r
  | Raise e => failed alg config (ProcessingError e)
  end.

(** *** Vocabulary of the statements *)


(** The validator's three grounds for rejection in the words of the
    specification, [current] being the last value of the history and
    [mean] the history mean. *)
Definition rejects_by_spec (forecast current mean : float)
    (thresholds : ValidationThresholds) : bool :=
  flt forecast fzero
  || (fgt current fzero
      && fgt forecast (fmul current (max_spike_multiplier thresholds)))
  || (fgt mean fzero
      && fgt forecast (fmul mean (max_historical_multiplier thresholds))).

(** A mean that adds the samples from left to right and divides the sum by
    their number. *)
Definition mean_in_order (rows : list (list float)) : result float :=
  match concat rows with
  | [] => Ok S754_nan
  | flat =>
      count ← float_of_int (Z.of_nat (length flat));
      Ok (SFdiv prec emax (fold_left fadd flat fzero) count)
  end.

(** A history window as the validator receives it: one row [[v]] per
    value. *)
Definition window_rows (values : list float) : list (list float) :=
  map (fun v => [v]) values.

(** The floats of the examples. *)
Definition of_integer (z : Z) : float :=
  binary_normalize prec emax z 0 false.

Definition half : float := decimal 1 2.

(** The policy of the scale-in example: at most 20 pods of 100 requests
    each, half of the surplus removed at a time. *)
Definition sample_config : ScalingConfig :=
  {| min_replicas := 1;
     max_replicas := 20;
     workload_per_pod := 100;
     resource_removal_strategy := RrsNumber half;
     cooldown_period := 300 |}.


(** A policy whose cooldown of [10**12] seconds ends after the year 9999. *)
Definition endless_cooldown : ScalingConfig :=
  {| min_replicas := 1;
     max_replicas := 5;
     workload_per_pod := 100;
     resource_removal_strategy := RrsNumber half;
     cooldown_period := 1000000000000 |}.

(** 2024-01-01 00:00:00, in microseconds. *)
Definition new_year_2024 : Z := 63839664000000000.

Definition scaled_at (name : string) (t : Z) : ScalingAlgorithm :=
  {| last_scaling_time := {[ name := t ]} |}.

Definition sample_scale_out : ScalingDecision :=
  {| action := scale_out;
     target_replicas := 5;
     current_replicas := 2;
     predicted_workload := of_integer 1000;
     reason := Some (ScalingOut 10 5);
     pods_surplus := None |}.

Definition default_thresholds : ValidationThresholds :=
  {| max_spike_multiplier := of_integer 3;
     max_historical_multiplier := of_integer 2 |}.

(** A window whose last value is 10 and whose mean is 1. *)
Definition quiet_then_ten : list float :=
  repeat (of_integer 0) 9 ++ [of_integer 10].

Definition sample_entry : deployment_entry :=
  {| crd_name := "web-policy";
     thresholds := default_thresholds;
     query_config := {| service_name := "web";
                        window_minutes := 10;
                        query_template := None |};
     scaling_config := sample_config;
     last_processed := None;
     error_count := 0 |}.

(** The cycle got a history it can read its last value from. *)
Definition history_readable (env : cycle_env) : Prop :=
  exists history current_request v,
    _get_historical_metrics (env_history env) = Some history
    /\ py_last history = Ok current_request
    /\ current_request_value current_request = Ok v.

(** A cycle with 2 replicas running and a forecast of 1000 requests. *)
Definition high_load (patch_ok : bool) : cycle_env :=
  {| env_replicas := Some 2;
     env_history := Some (repeat (Row [of_integer 900]) 10);
     env_prediction := Some (of_integer 1000);
     env_patch_ok := patch_ok;
     env_now_check := new_year_2024;
     env_now_remaining := new_year_2024;
     env_now_executed := new_year_2024 + 1000000;
     env_now_processed := new_year_2024 + 2000000 |}.

End Machine.
(** * Properties *)

(** ** Arithmetic of the float model *)

Lemma Qltb_lt (a b : Q) : Qltb a b = true <-> (a < b)%Q.
Proof.
  unfold Qltb. rewrite Qlt_alt.
  destruct (a ?= b)%Q; split; intros H; congruence.
Qed.

Lemma Qceiling_nonneg (x : Q) : (0 <= x)%Q -> 0 <= Qceiling x.
Proof.
  intros H. apply Qceiling_resp_le in H.
  change (Qceiling 0) with 0 in H. exact H.
Qed.

Lemma Qceiling_of_zero (x : Q) : (x == 0)%Q -> Qceiling x = 0.
Proof. intros H. rewrite H. reflexivity. Qed.

Lemma inject_Z_nonneg (z : Z) : 0 <= z -> (0 <= inject_Z z)%Q.
Proof.
  intros H. change 0%Q with (inject_Z 0). rewrite <- Zle_Qle. exact H.
Qed.

(** ** The scaling decision *)

Ltac unfold_result :=
  unfold mbind, result_bind, mret, result_ret in *.

Section Decision.

Variables (self : ScalingAlgorithm) (now now_remaining : Z).
Variables (deployment_name : string) (forecast : pyfloat).
Variables (current : Z) (config : ScalingConfig).

Abbreviation decision :=
  (calculate_scaling_decision self now now_remaining deployment_name forecast
     current config).

Abbreviation body :=
  (calculate_scaling_decision_body self now now_remaining deployment_name
     forecast current config).

Lemma calculate_total : exists d, decision = Ok d.
Proof.
  unfold calculate_scaling_decision, try_except.
  destruct (calculate_scaling_decision_body _ _ _ _ _ _ _); eauto.
Qed.

Lemma calculate_on_error (e : exn) :
  body = Raise e ->
  decision =
    Ok (no_action_decision current forecast (Some (ErrorInCalculation e))).
Proof.
  unfold calculate_scaling_decision, try_except.
  intros ->. reflexivity.
Qed.

Lemma calculate_on_success (d : ScalingDecision) :
  body = Ok d -> decision = Ok d.
Proof.
  unfold calculate_scaling_decision, try_except.
  intros ->. reflexivity.
Qed.

Lemma calculate_in_cooldown :
  _is_in_cooldown self deployment_name (cooldown_period config) now = true ->
  decision =
    Ok (no_action_decision current forecast
          (Some (InCooldown
                   (_get_cooldown_remaining self deployment_name
                      (cooldown_period config) now_remaining)))).
Proof.
  intros H. apply calculate_on_success.
  unfold calculate_scaling_decision_body. rewrite H. reflexivity.
Qed.

(** Outside cooldown, once the required pods are known, the three branches
    of the comparison with the current replicas. *)
Lemma body_outside_cooldown (required : Z) :
  _is_in_cooldown self deployment_name (cooldown_period config) now = false ->
  _calculate_required_pods forecast (workload_per_pod config) = Ok required ->
  let pods_required := Z.max required (min_replicas config) in
  body =
    if pods_required >? current then
      Ok {| action := scale_out;
            target_replicas := Z.min pods_required (max_replicas config);
            current_replicas := current;
            predicted_workload := forecast;
            reason := Some (ScalingOut pods_required
                              (Z.min pods_required (max_replicas config)));
            pods_surplus := None |}
    else if pods_required <? current then
      match ceil_of_share (current - pods_required)
              (resource_removal_strategy config) with
      | Ok surplus =>
          Ok {| action := scale_in;
                target_replicas :=
                  Z.max (current - surplus) (min_replicas config);
                current_replicas := current;
                predicted_workload := forecast;
                reason := Some (RemovingSurplus pods_required surplus
                                  (current - pods_required));
                pods_surplus := Some surplus |}
      | Raise e => Raise e
      end
    else Ok (no_action_decision current forecast None).
Proof.
  intros Hcool Hreq pods_required.
  unfold calculate_scaling_decision_body. rewrite Hcool, Hreq.
  unfold_result. fold pods_required.
  replace (Z.max pods_required (min_replicas config)) with pods_required
    by (subst pods_required; lia).
  reflexivity.
Qed.

End Decision.

Lemma ceil_of_share_nonneg (pool : Z) (rrs : rrs_value) (surplus : Z) :
  0 <= pool ->
  (forall q, rrs = RrsNumber (FFinite q) -> (0 <= q)%Q) ->
  ceil_of_share pool rrs = Ok surplus ->
  0 <= surplus.
Proof.
  intros Hpool Hrrs. destruct rrs as [[q| | |]|s]; simpl; try discriminate.
  - intros [= <-]. apply Qceiling_nonneg.
    apply Qmult_le_0_compat; [apply inject_Z_nonneg; lia|].
    apply Hrrs; reflexivity.
  - unfold inf_times. destruct (inject_Z pool ?= 0)%Q; discriminate.
  - unfold inf_times. destruct (inject_Z pool ?= 0)%Q; discriminate.
Qed.

(** C1, as the code has it: with [0 < min_replicas <= max_replicas] and a
    removal fraction that is not negative, [calculate_scaling_decision]
    always returns a decision; a [scale_out] decision has its target within
    [[min_replicas, max_replicas]] whatever the current replica count is, and
    every decision has it there when the current replica count itself lies
    within these bounds. *)
Theorem target_within_bounds_when_current_is
    (self : ScalingAlgorithm) (now now_remaining : Z) (name : string)
    (forecast : pyfloat) (current : Z) (config : ScalingConfig) :
  0 < min_replicas config <= max_replicas config ->
  removal_not_negative config ->
  exists d,
    calculate_scaling_decision self now now_remaining name forecast current
      config = Ok d
    /\ (action d = scale_out ->
        min_replicas config <= target_replicas d <= max_replicas config)
    /\ (min_replicas config <= current <= max_replicas config ->
        min_replicas config <= target_replicas d <= max_replicas config).
Proof.
  intros Hcfg Hrrs.
  destruct (_is_in_cooldown self name (cooldown_period config) now) eqn:Hcool.
  { eexists. split; [apply calculate_in_cooldown; exact Hcool|].
    simpl. split; [discriminate | tauto]. }
  destruct (_calculate_required_pods forecast (workload_per_pod config))
    as [required|e] eqn:Hreq.
  2:{ eexists. split.
      - apply calculate_on_error. unfold calculate_scaling_decision_body.
        rewrite Hcool, Hreq. reflexivity.
      - simpl. split; [discriminate | tauto]. }
  pose proof (body_outside_cooldown self now now_remaining name forecast
                current config required Hcool Hreq) as Hbody.
  cbv zeta in Hbody.
  set (pods_required := Z.max required (min_replicas config)) in *.
  destruct (pods_required >? current) eqn:Hout.
  { eexists. split; [apply calculate_on_success; exact Hbody|].
    simpl. subst pods_required. split; intros; lia. }
  destruct (pods_required <? current) eqn:Hin.
  2:{ eexists. split; [apply calculate_on_success; exact Hbody|].
      simpl. split; [discriminate | tauto]. }
  destruct (ceil_of_share (current - pods_required)
              (resource_removal_strategy config)) as [surplus|e] eqn:Hshare.
  2:{ eexists. split; [apply calculate_on_error; exact Hbody|].
      simpl. split; [discriminate | tauto]. }
  eexists. split; [apply calculate_on_success; exact Hbody|].
  simpl. split; [discriminate|].
  assert (0 <= surplus).
  { eapply ceil_of_share_nonneg; [| exact Hrrs | exact Hshare]. lia. }
  lia.
Qed.

Lemma target_within_bounds_witness :
  exists d,
    calculate_scaling_decision ScalingAlgorithm_init 0 0 "web"
      (FFinite 1000) 2 sample_config = Ok d
    /\ (action d = scale_out -> 1 <= target_replicas d <= 5)
    /\ (1 <= 2 <= 5 -> 1 <= target_replicas d <= 5).
Proof.
  apply (target_within_bounds_when_current_is ScalingAlgorithm_init 0 0 "web"
           (FFinite 1000) 2 sample_config).
  - simpl. lia.
  - intros q [= <-]. discriminate.
Defined.

(** C1 as stated fails: during cooldown the decision keeps the current
    replica count, here 20 for the bounds [[1, 5]]. *)
Lemma target_outside_bounds_in_cooldown :
  0 < min_replicas sample_config <= max_replicas sample_config
  /\ exists d,
       calculate_scaling_decision scaled_at_1000 2000 2000 "web"
         (FFinite 100) 20 sample_config = Ok d
       /\ ~ (min_replicas sample_config <= target_replicas d
             <= max_replicas sample_config).
Proof.
  simpl. split; [lia|]. eexists. split; [vm_compute; reflexivity|].
  simpl. lia.
Qed.

Lemma pods_required_of_inv (forecast : pyfloat) (config : ScalingConfig)
    (pods : Z) :
  pods_required_of forecast config = Ok pods ->
  exists required,
    _calculate_required_pods forecast (workload_per_pod config) = Ok required
    /\ pods = Z.max required (min_replicas config).
Proof.
  unfold pods_required_of. unfold_result.
  destruct (_calculate_required_pods _ _) as [required|e]; [|discriminate].
  intros [= <-]. eauto.
Qed.

(** Outside cooldown, with fewer pods required than running and a finite
    removal fraction, the decision is a [scale_in] that removes the ceiling
    of the fraction of the surplus. *)
Lemma scale_in_decision (self : ScalingAlgorithm) (now now_remaining : Z)
    (name : string) (forecast : pyfloat) (current : Z)
    (config : ScalingConfig) (pods : Z) (r : Q) :
  _is_in_cooldown self name (cooldown_period config) now = false ->
  pods_required_of forecast config = Ok pods ->
  resource_removal_strategy config = RrsNumber (FFinite r) ->
  pods < current ->
  let surplus := Qceiling (inject_Z (current - pods) * r) in
  calculate_scaling_decision self now now_remaining name forecast current
    config =
  Ok {| action := scale_in;
        target_replicas := Z.max (current - surplus) (min_replicas config);
        current_replicas := current;
        predicted_workload := forecast;
        reason := Some (RemovingSurplus pods surplus (current - pods));
        pods_surplus := Some surplus |}.
Proof.
  intros Hcool Hpods Hrrs Hlt surplus.
  apply pods_required_of_inv in Hpods as (required & Hreq & Heq).
  apply calculate_on_success.
  rewrite (body_outside_cooldown _ _ _ _ _ _ _ required Hcool Hreq).
  cbv zeta. rewrite <- Heq.
  replace (pods >? current) with false by lia.
  replace (pods <? current) with true by lia.
  rewrite Hrrs. simpl. reflexivity.
Qed.

Lemma required_pods_of_nan (workload : Z) :
  0 < workload ->
  _calculate_required_pods FNaN workload = Raise ValueError.
Proof.
  intros H. unfold _calculate_required_pods.
  replace (workload <=? 0) with false by lia.
  unfold fdiv, float_of_int.
  assert (Hcmp : (inject_Z workload ?= 0)%Q = Gt).
  { rewrite <- Qgt_alt. change 0%Q with (inject_Z 0).
    rewrite <- Zlt_Qlt. exact H. }
  rewrite Hcmp. reflexivity.
Qed.

(** C8: [calculate_scaling_decision] returns a decision on every input; when
    its [try] block raises [e], the decision is [no_action] with
    [target_replicas = current_replicas] and a reason that reports [e]; a
    [nan] forecast outside cooldown with a positive [workload_per_pod] makes
    [math.ceil] raise [ValueError] and ends that way. *)
Theorem calculate_scaling_decision_never_raises
    (self : ScalingAlgorithm) (now now_remaining : Z) (name : string)
    (forecast : pyfloat) (current : Z) (config : ScalingConfig) :
  exists d,
    calculate_scaling_decision self now now_remaining name forecast current
      config = Ok d
    /\ (forall e,
          calculate_scaling_decision_body self now now_remaining name
            forecast current config = Raise e ->
          action d = no_action
          /\ target_replicas d = current
          /\ current_replicas d = current
          /\ reason d = Some (ErrorInCalculation e))
    /\ (forecast = FNaN ->
        _is_in_cooldown self name (cooldown_period config) now = false ->
        0 < workload_per_pod config ->
        d = no_action_decision current FNaN
              (Some (ErrorInCalculation ValueError))).
Proof.
  destruct (calculate_total self now now_remaining name forecast current
              config) as [d Hd].
  exists d. split; [exact Hd|]. split.
  - intros e He. apply calculate_on_error in He.
    rewrite Hd in He. injection He as ->. simpl. auto.
  - intros -> Hcool Hpos.
    assert (Hbody : calculate_scaling_decision_body self now now_remaining
                      name FNaN current config = Raise ValueError).
    { unfold calculate_scaling_decision_body.
      rewrite Hcool, (required_pods_of_nan _ Hpos). reflexivity. }
    apply calculate_on_error in Hbody. rewrite Hd in Hbody.
    injection Hbody as ->. reflexivity.
Qed.

Lemma calculate_scaling_decision_never_raises_witness :
  calculate_scaling_decision ScalingAlgorithm_init 0 0 "web" FNaN 7
    sample_config =
  Ok (no_action_decision 7 FNaN (Some (ErrorInCalculation ValueError))).
Proof.
  destruct (calculate_scaling_decision_never_raises ScalingAlgorithm_init 0 0
              "web" FNaN 7 sample_config) as (d & Hd & _ & Hnan).
  rewrite Hd. f_equal. apply Hnan.
  - reflexivity.
  - reflexivity.
  - simpl. lia.
Defined.

(** ** The cycle of one deployment *)

Lemma process_deployment_ends (alg : ScalingAlgorithm) (name : string)
    (config : deployment_entry) (env : cycle_env) :
  cycle_ends alg name config env (_process_deployment alg name config env).
Proof.
  unfold _process_deployment, _process_deployment_body.
  destruct (env_replicas env) as [current|] eqn:Hrep;
    [|apply ends_early; [reflexivity | discriminate]].
  destruct (_get_historical_metrics (env_history env)) as [history|];
    [|apply ends_early; [reflexivity | discriminate]].
  unfold_result.
  destruct (py_last history) as [current_request|e];
    [|apply ends_early; [reflexivity | discriminate]].
  destruct (current_request_value current_request) as [v|e];
    [|apply ends_early; [reflexivity | discriminate]].
  destruct (env_prediction env) as [forecast|] eqn:Hpred;
    [|apply ends_early; [reflexivity | discriminate]].
  destruct (calculate_total alg (env_now_check env) (env_now_remaining env)
              name forecast current (scaling_config config)) as [d Hd].
  rewrite Hd.
  destruct (is_scaling_action (action d)) eqn:Hact.
  - destruct (env_patch_ok env) eqn:Hpatch.
    + unfold execute_scaling_decision. rewrite Hact. simpl.
      eapply ends_applied; eassumption.
    + eapply ends_patch_failed; eassumption.
  - eapply ends_no_action; eassumption.
Qed.

(** The counter after a cycle: one more after a failure, zero after a
    success. *)
Lemma error_count_after_cycle (alg : ScalingAlgorithm) (name : string)
    (config : deployment_entry) (env : cycle_env) :
  let r := _process_deployment alg name config env in
  error_count (res_entry r) =
    if is_failure (res_report r) then error_count config + 1 else 0.
Proof.
  destruct (process_deployment_ends alg name config env) as
    [report Hfail _| | |]; simpl; try reflexivity.
  rewrite Hfail. reflexivity.
Qed.

(** The cooldown state after a cycle: written for the processed deployment
    when a scaling decision was applied, untouched otherwise. *)
Lemma algorithm_after_cycle (alg : ScalingAlgorithm) (name : string)
    (config : deployment_entry) (env : cycle_env) :
  let r := _process_deployment alg name config env in
  res_algorithm r =
    match res_report r with
    | ScalingApplied =>
        {| last_scaling_time :=
             <[name := env_now_executed env]> (last_scaling_time alg) |}
    | _ => alg
    end.
Proof.
  destruct (process_deployment_ends alg name config env) as
    [report Hfail Hne| | |]; simpl; try reflexivity.
  destruct report; try reflexivity; discriminate.
Qed.

(** ** Cooldown *)

Lemma in_cooldown_after (alg : ScalingAlgorithm) (name : string)
    (t now cooldown : Z) :
  last_scaling_time alg !! name = Some t ->
  now < t + microseconds cooldown ->
  _is_in_cooldown alg name cooldown now = true.
Proof.
  intros Hlast Hnow. unfold _is_in_cooldown. rewrite Hlast. lia.
Qed.

(** ** Error counter and eviction *)

Lemma run_deployment_monitored (self : operator) (name : string)
    (config : deployment_entry) (env : cycle_env) :
  monitored_deployments self !! name = Some config ->
  let r := _process_deployment (scaling_algorithm self) name config env in
  monitored_deployments (run_deployment self name env) !! name =
    (if error_count (res_entry r) >? 10 then None else Some (res_entry r))
  /\ scaling_algorithm (run_deployment self name env) = res_algorithm r.
Proof.
  intros Hcfg r. unfold run_deployment. rewrite Hcfg. fold r. simpl.
  split; [|reflexivity].
  destruct (error_count (res_entry r) >? 10).
  - apply lookup_delete_eq.
  - apply lookup_insert_eq.
Qed.

(** Processing a deployment leaves the registry entry and the cooldown entry
    of every other deployment as they were. *)
Lemma run_deployment_frame (self : operator) (name other : string)
    (env : cycle_env) :
  other <> name ->
  monitored_deployments (run_deployment self name env) !! other =
    monitored_deployments self !! other
  /\ last_scaling_time (scaling_algorithm (run_deployment self name env))
       !! other =
     last_scaling_time (scaling_algorithm self) !! other.
Proof.
  intros Hne. unfold run_deployment.
  destruct (monitored_deployments self !! name) as [config|] eqn:Hcfg;
    [|split; reflexivity].
  simpl. split.
  - destruct (_ >? 10).
    + rewrite lookup_delete_ne by congruence.
      apply lookup_insert_ne. congruence.
    + apply lookup_insert_ne. congruence.
  - rewrite algorithm_after_cycle.
    destruct (res_report _); try reflexivity.
    simpl. apply lookup_insert_ne. congruence.
Qed.

(** A decision reads the cooldown state of its own deployment only. *)
Lemma decision_reads_own_entry (a1 a2 : ScalingAlgorithm) (name : string)
    (now now_remaining : Z) (forecast : pyfloat) (current : Z)
    (config : ScalingConfig) :
  last_scaling_time a1 !! name = last_scaling_time a2 !! name ->
  calculate_scaling_decision a1 now now_remaining name forecast current
    config =
  calculate_scaling_decision a2 now now_remaining name forecast current
    config.
Proof.
  intros H. unfold calculate_scaling_decision,
    calculate_scaling_decision_body, _is_in_cooldown,
    _get_cooldown_remaining.
  rewrite H. reflexivity.
Qed.

Lemma run_cycles_cons (self : operator) (name : string) (env : cycle_env)
    (rest : list cycle_env) :
  run_cycles self name (env :: rest) =
    run_cycles (run_deployment self name env) name rest.
Proof. reflexivity. Qed.

Lemma consecutive_failures (name : string) (envs : list cycle_env) :
  forall (self : operator) (config : deployment_entry),
    monitored_deployments self !! name = Some config ->
    error_count config <= 10 ->
    all_fail self name envs ->
    (error_count config + Z.of_nat (length envs) <= 10 ->
     exists after,
       monitored_deployments (run_cycles self name envs) !! name = Some after
       /\ error_count after = error_count config + Z.of_nat (length envs))
    /\ (error_count config + Z.of_nat (length envs) = 11 ->
        monitored_deployments (run_cycles self name envs) !! name = None).
Proof.
  induction envs as [|env rest IH]; intros self config Hcfg Hle Hfail.
  - simpl. split.
    + intros _. exists config. split; [exact Hcfg | lia].
    + lia.
  - destruct Hfail as [(config' & Hcfg' & Hrep) Hrest].
    rewrite Hcfg in Hcfg'. injection Hcfg' as <-.
    rewrite run_cycles_cons.
    destruct (run_deployment_monitored self name config env Hcfg)
      as [Hmon _].
    pose proof (error_count_after_cycle (scaling_algorithm self) name config
                  env) as Hcount.
    cbv zeta in Hmon, Hcount. rewrite Hrep in Hcount.
    set (r := _process_deployment (scaling_algorithm self) name config env)
      in *.
    change (length (env :: rest)) with (S (length rest)).
    destruct (error_count (res_entry r) >? 10) eqn:Hover.
    + split; [lia|]. intros Hlen.
      destruct rest as [|env' rest']; [exact Hmon | simpl in Hlen; lia].
    + destruct (IH (run_deployment self name env) (res_entry r) Hmon
                  ltac:(lia) Hrest) as [IHle IHeq].
      split; intros Hlen.
      * destruct IHle as (after & Hafter & Hn); [lia|].
        exists after. split; [exact Hafter | lia].
      * apply IHeq. lia.
Qed.

(** Cycles whose metrics fetch fails all end on a failure, as long as the
    deployment is still monitored when they start. *)
Lemma fetch_failures_all_fail (name : string) (envs : list cycle_env) :
  forall (self : operator) (config : deployment_entry),
    monitored_deployments self !! name = Some config ->
    Forall metrics_fetch_fails envs ->
    error_count config + Z.of_nat (length envs) <= 11 ->
    all_fail self name envs.
Proof.
  induction envs as [|env rest IH]; intros self config Hcfg Hall Hlen;
    [exact I|].
  inversion Hall as [|? ? [[current Hrep] Hmet] Hrest]; subst.
  assert (Hr : _process_deployment (scaling_algorithm self) name config env =
               failed (scaling_algorithm self) config NoHistoricalData).
  { unfold _process_deployment, _process_deployment_body.
    rewrite Hrep, Hmet. reflexivity. }
  simpl. split.
  - exists config. split; [exact Hcfg|]. rewrite Hr. reflexivity.
  - destruct rest as [|env' rest']; [exact I|].
    destruct (run_deployment_monitored self name config env Hcfg)
      as [Hmon _]. cbv zeta in Hmon. rewrite Hr in Hmon.
    change (error_count (res_entry (failed (scaling_algorithm self) config
                                      NoHistoricalData)))
      with (error_count config + 1) in Hmon.
    change (length (env :: env' :: rest'))
      with (S (S (length rest'))) in Hlen.
    replace (error_count config + 1 >? 10) with false in Hmon by lia.
    eapply IH; [exact Hmon | exact Hrest |].
    change (error_count (res_entry (failed (scaling_algorithm self) config
                                      NoHistoricalData)))
      with (error_count config + 1).
    change (length (env' :: rest')) with (S (length rest')). lia.
Qed.

(** C4: a cycle adds exactly one to the error counter of its deployment when
    the replica count cannot be read, when the metrics fetch brings nothing,
    when no forecast comes back (failed or rejected), when the patch of a
    [scale_out] or [scale_in] decision fails, and when the cycle raises an
    exception; it resets the counter to 0 when the cycle goes through, with
    a decision that needs no scaling ([no_action] included) or with a patch
    that succeeds.  After the cycle the deployment is dropped from the
    registry exactly when its counter exceeds 10; the registry entry, the
    cooldown entry and so the decisions of any other deployment are
    untouched; and from a counter at 0, consecutive cycles that fail (for
    one, cycles whose metrics fetch fails) leave the deployment monitored up
    to the tenth, with the counter equal to their number, and the eleventh
    removes it. *)
Theorem error_counter_and_eviction
    (self : operator) (name other : string) (config : deployment_entry)
    (env : cycle_env) (envs : list cycle_env) :
  monitored_deployments self !! name = Some config ->
  let alg := scaling_algorithm self in
  let r := _process_deployment alg name config env in
  let self' := run_deployment self name env in
  (env_replicas env = None ->
   error_count (res_entry r) = error_count config + 1)
  /\ (_get_historical_metrics (env_history env) = None ->
      error_count (res_entry r) = error_count config + 1)
  /\ (env_prediction env = None ->
      error_count (res_entry r) = error_count config + 1)
  /\ (forall history e,
        _get_historical_metrics (env_history env) = Some history ->
        (current_request ← py_last history;
         current_request_value current_request) = Raise e ->
        error_count (res_entry r) = error_count config + 1)
  /\ (forall current forecast d,
        env_replicas env = Some current ->
        env_prediction env = Some forecast ->
        calculate_scaling_decision alg (env_now_check env)
          (env_now_remaining env) name forecast current
          (scaling_config config) = Ok d ->
        (is_scaling_action (action d) = true ->
         env_patch_ok env = false ->
         error_count (res_entry r) = error_count config + 1)
        /\ (history_readable env ->
            is_scaling_action (action d) = true ->
            env_patch_ok env = true ->
            error_count (res_entry r) = 0)
        /\ (history_readable env ->
            action d = no_action ->
            error_count (res_entry r) = 0))
  /\ error_count (res_entry r) =
       (if is_failure (res_report r) then error_count config + 1 else 0)
  /\ (monitored_deployments self' !! name = None <->
      error_count (res_entry r) > 10)
  /\ (error_count (res_entry r) <= 10 ->
      monitored_deployments self' !! name = Some (res_entry r))
  /\ (other <> name ->
      monitored_deployments self' !! other =
        monitored_deployments self !! other
      /\ last_scaling_time (scaling_algorithm self') !! other =
           last_scaling_time (scaling_algorithm self) !! other
      /\ forall now now_remaining forecast current policy,
           calculate_scaling_decision (scaling_algorithm self') now
             now_remaining other forecast current policy =
           calculate_scaling_decision (scaling_algorithm self) now
             now_remaining other forecast current policy)
  /\ (error_count config = 0 ->
      all_fail self name envs \/ Forall metrics_fetch_fails envs ->
      ((length envs <= 10)%nat ->
       exists after,
         monitored_deployments (run_cycles self name envs) !! name
           = Some after
         /\ error_count after = Z.of_nat (length envs))
      /\ (length envs = 11%nat ->
          monitored_deployments (run_cycles self name envs) !! name = None)).
Proof.
  intros Hcfg alg r self'.
  pose proof (error_count_after_cycle alg name config env) as Hcount.
  destruct (run_deployment_monitored self name config env Hcfg) as [Hmon _].
  cbv zeta in Hcount, Hmon. fold alg in Hmon. fold r in Hcount, Hmon.
  fold self' in Hmon.
  split.
  { intros Hrep. subst r.
    unfold _process_deployment, _process_deployment_body.
    rewrite Hrep. reflexivity. }
  split.
  { intros Hmet. subst r.
    unfold _process_deployment, _process_deployment_body. rewrite Hmet.
    destruct (env_replicas env); reflexivity. }
  split.
  { intros Hpred. subst r.
    unfold _process_deployment, _process_deployment_body. rewrite Hpred.
    destruct (env_replicas env); [|reflexivity].
    destruct (_get_historical_metrics (env_history env)) as [history|];
      [|reflexivity].
    unfold_result.
    destruct (py_last history) as [current_request|e]; [|reflexivity].
    destruct (current_request_value current_request); reflexivity. }
  split.
  { intros history e Hmet Hraise. subst r.
    unfold _process_deployment, _process_deployment_body. rewrite Hmet.
    destruct (env_replicas env); [|reflexivity].
    revert Hraise. unfold_result.
    destruct (py_last history) as [current_request|e']; [|reflexivity].
    destruct (current_request_value current_request); [discriminate|].
    reflexivity. }
  split.
  { intros current forecast d Hrep Hpred Hd.
    split; [|split].
    - intros Hact Hpatch. subst r.
      unfold _process_deployment, _process_deployment_body.
      rewrite Hrep, Hpred.
      destruct (_get_historical_metrics (env_history env)) as [history|];
        [|reflexivity].
      unfold_result.
      destruct (py_last history) as [current_request|e]; [|reflexivity].
      destruct (current_request_value current_request); [|reflexivity].
      fold alg. rewrite Hd, Hact, Hpatch. reflexivity.
    - intros (history & current_request & v & Hmet & Hlast & Hval)
        Hact Hpatch. subst r.
      unfold _process_deployment, _process_deployment_body.
      rewrite Hrep, Hpred, Hmet. unfold_result. rewrite Hlast, Hval.
      fold alg. rewrite Hd, Hact, Hpatch. reflexivity.
    - intros (history & current_request & v & Hmet & Hlast & Hval) Hact.
      subst r.
      unfold _process_deployment, _process_deployment_body.
      rewrite Hrep, Hpred, Hmet. unfold_result. rewrite Hlast, Hval.
      fold alg. rewrite Hd, Hact. reflexivity. }
  split; [exact Hcount|].
  split.
  { rewrite Hmon. destruct (error_count (res_entry r) >? 10) eqn:Hover.
    - split; [lia | reflexivity].
    - split; [discriminate | lia]. }
  split.
  { intros Hle. rewrite Hmon.
    replace (error_count (res_entry r) >? 10) with false by lia.
    reflexivity. }
  split.
  { intros Hne.
    destruct (run_deployment_frame self name other env Hne) as [Hreg Hcool].
    split; [exact Hreg|]. split; [exact Hcool|].
    intros. apply decision_reads_own_entry. exact Hcool. }
  intros Hzero Hfail.
  assert (Hlen : (length envs <= 10)%nat \/ length envs = 11%nat ->
                 all_fail self name envs).
  { intros Hlen. destruct Hfail as [Hfail|Hfetch]; [exact Hfail|].
    eapply fetch_failures_all_fail; [exact Hcfg | exact Hfetch | lia]. }
  split.
  - intros Hle.
    destruct (consecutive_failures name envs self config Hcfg ltac:(lia)
                (Hlen (or_introl Hle))) as [Hkeep _].
    rewrite Hzero in Hkeep.
    destruct Hkeep as (after & Hafter & Hn); [lia|].
    exists after. split; [exact Hafter | lia].
  - intros Heq.
    destruct (consecutive_failures name envs self config Hcfg ltac:(lia)
                (Hlen (or_intror Heq))) as [_ Hgone].
    apply Hgone. lia.
Qed.

Lemma metrics_down_fails (self : operator) (name : string)
    (config : deployment_entry) :
  is_failure
    (res_report
       (_process_deployment (scaling_algorithm self) name config
          metrics_down)) = true.
Proof. reflexivity. Qed.

Lemma all_fail_metrics_down (n : nat) :
  forall self : operator,
    (forall config, monitored_deployments self !! "web"%string = Some config ->
                    error_count config + Z.of_nat n <= 11) ->
    is_Some (monitored_deployments self !! "web"%string) ->
    all_fail self "web" (repeat metrics_down n).
Proof.
  induction n as [|n IH]; intros self Hbound [config Hcfg]; [exact I|].
  simpl. split.
  - exists config. split; [exact Hcfg | reflexivity].
  - destruct (run_deployment_monitored self "web" config metrics_down Hcfg)
      as [Hmon _]. cbv zeta in Hmon.
    assert (Hcount : error_count
                       (res_entry
                          (_process_deployment (scaling_algorithm self) "web"
                             config metrics_down)) = error_count config + 1)
      by reflexivity.
    rewrite Hcount in Hmon.
    destruct n as [|n]; [exact I|].
    specialize (Hbound config Hcfg).
    replace (error_count config + 1 >? 10) with false in Hmon by lia.
    apply IH.
    + intros c Hc. rewrite Hmon in Hc. injection Hc as <-.
      change (error_count (increment_errors config))
        with (error_count config + 1). lia.
    + rewrite Hmon. eauto.
Qed.

Lemma error_counter_and_eviction_witness :
  monitored_deployments
    (run_cycles sample_operator "web" (repeat metrics_down 11))
    !! "web"%string = None
  /\ error_count
       (res_entry
          (_process_deployment ScalingAlgorithm_init "web"
             (set_error_count sample_entry 7) metrics_down)) = 8
  /\ error_count
       (res_entry
          (_process_deployment ScalingAlgorithm_init "web"
             (set_error_count never_remove_entry 7) steady_load)) = 0.
Proof.
  split; [|split].
  - destruct (error_counter_and_eviction sample_operator "web" "api"
                sample_entry metrics_down (repeat metrics_down 11))
      as (_ & _ & _ & _ & _ & _ & _ & _ & _ & Hrun).
    + reflexivity.
    + destruct Hrun as [_ Hgone].
      * reflexivity.
      * right. simpl.
        repeat (constructor; [split; [eexists|]; reflexivity|]).
        constructor.
      * apply Hgone. reflexivity.
  - destruct (error_counter_and_eviction
                {| monitored_deployments :=
                     {[ "web"%string := set_error_count sample_entry 7 ]};
                   scaling_algorithm := ScalingAlgorithm_init |}
                "web" "api" (set_error_count sample_entry 7) metrics_down [])
      as (_ & Hmet & _).
    + reflexivity.
    + apply Hmet. reflexivity.
  - destruct (error_counter_and_eviction
                {| monitored_deployments :=
                     {[ "web"%string :=
                          set_error_count never_remove_entry 7 ]};
                   scaling_algorithm := ScalingAlgorithm_init |}
                "web" "api" (set_error_count never_remove_entry 7)
                steady_load [])
      as (_ & _ & _ & _ & Hdec & _).
    + reflexivity.
    + destruct (Hdec 1 (FFinite 50)
                  {| action := no_action;
                     target_replicas := 1;
                     current_replicas := 1;
                     predicted_workload := FFinite 50;
                     reason := None;
                     pods_surplus := None |}
                  eq_refl eq_refl eq_refl)
        as (_ & _ & Hno).
      apply Hno; [|reflexivity].
      exists (repeat (Row [FFinite 50]) 10), (Row [FFinite 50]),
        (Some (FFinite 50)).
      repeat split; reflexivity.
Defined.

(** ** Policy reload *)

Lemma process_crd_valid (self : operator) (c : crd) (name : string) :
  targetDeployment c = Some name ->
  name <> EmptyString ->
  missing (prometheusService c) = false ->
  _process_crd_configuration self c =
    Ok {| monitored_deployments :=
            <[name := entry_of_crd c]> (monitored_deployments self);
          scaling_algorithm := scaling_algorithm self |}.
Proof.
  intros Htarget Hname Hservice.
  unfold _process_crd_configuration, _process_crd_configuration_body.
  rewrite Htarget, Hservice. simpl.
  destruct (String.eqb_spec name EmptyString) as [->|_]; [congruence|].
  reflexivity.
Qed.

(** C5, as the code has it: a reload that re-emits a policy for a monitored
    deployment replaces its registry entry by the entry built from the
    policy alone, so its error counter is 0 and its last processing time is
    absent again, also when the policy has not changed; the cooldown state,
    which the [ScalingAlgorithm] object holds and not the registry, is left
    as it was. *)
Theorem reload_resets_entry_and_keeps_cooldown
    (self : operator) (c : crd) (name : string) :
  targetDeployment c = Some name ->
  name <> EmptyString ->
  missing (prometheusService c) = false ->
  exists after,
    _process_crd_configuration self c = Ok after
    /\ load_items self [c] = after
    /\ monitored_deployments after =
         <[name := entry_of_crd c]> (monitored_deployments self)
    /\ monitored_deployments after !! name = Some (entry_of_crd c)
    /\ error_count (entry_of_crd c) = 0
    /\ last_processed (entry_of_crd c) = None
    /\ scaling_algorithm after = scaling_algorithm self.
Proof.
  intros Htarget Hname Hservice.
  pose proof (process_crd_valid self c name Htarget Hname Hservice) as H.
  eexists. split; [exact H|].
  split; [simpl; rewrite H; reflexivity|].
  simpl. repeat split. apply lookup_insert_eq.
Qed.

Lemma reload_resets_entry_witness :
  exists after,
    _process_crd_configuration operator_before_reload sample_crd = Ok after
    /\ monitored_deployments after !! "web"%string
       = Some (entry_of_crd sample_crd)
    /\ scaling_algorithm after = scaling_algorithm operator_before_reload.
Proof.
  destruct (reload_resets_entry_and_keeps_cooldown operator_before_reload
              sample_crd "web")
    as (after & Hafter & _ & _ & Hentry & _ & _ & Halg).
  - reflexivity.
  - discriminate.
  - reflexivity.
  - exists after. repeat split; assumption.
Defined.

(** C5 as stated fails on the cooldown: after the reload of an unchanged
    policy the time of the last scaling of ["web"] is still recorded, where
    a fresh [ScalingAlgorithm] has none, and a call inside the window is
    still answered [no_action]. *)
Lemma reload_does_not_reset_cooldown :
  monitored_deployments operator_before_reload !! "web"%string
  = Some (set_error_count (entry_of_crd sample_crd) 3)
  /\ exists after,
       _process_crd_configuration operator_before_reload sample_crd = Ok after
       /\ last_scaling_time (scaling_algorithm after) !! "web"%string
          = Some 1000
       /\ last_scaling_time ScalingAlgorithm_init !! "web"%string = None
       /\ calculate_scaling_decision (scaling_algorithm after) 2000 2000 "web"
            (FFinite 1000) 2 (scaling_config (entry_of_crd sample_crd))
          = Ok (no_action_decision 2 (FFinite 1000) (Some (InCooldown 299)))
       /\ calculate_scaling_decision ScalingAlgorithm_init 2000 2000 "web"
            (FFinite 1000) 2 (scaling_config (entry_of_crd sample_crd))
          = Ok {| action := scale_out;
                  target_replicas := 5;
                  current_replicas := 2;
                  predicted_workload := FFinite 1000;
                  reason := Some (ScalingOut 10 5);
                  pods_surplus := None |}.
Proof.
  split; [reflexivity|].
  eexists. split; [reflexivity|].
  repeat split; reflexivity.
Qed.

(** ** The forecast validator *)

Lemma last_window_rows (values : list pyfloat) :
  last (window_rows values) =
    match last values with
    | Some v => Some [v]
    | None => None
    end.
Proof.
  induction values as [|v [|w rest] IH]; try reflexivity.
  exact IH.
Qed.

Lemma concat_window_rows (values : list pyfloat) :
  concat (window_rows values) = values.
Proof.
  induction values as [|v rest IH]; [reflexivity|].
  simpl. f_equal. exact IH.
Qed.

Lemma window_rows_rectangular (values : list pyfloat) (first : list pyfloat) :
  length first = 1%nat ->
  forallb (fun r => Nat.eqb (length r) (length first)) (window_rows values)
  = true.
Proof.
  intros ->. induction values as [|v rest IH]; [reflexivity|exact IH].
Qed.

Lemma fdiv_by_count (x : pyfloat) (n : nat) :
  exists m, fdiv x (float_of_int (Z.of_nat (S n))) = Ok m.
Proof.
  unfold fdiv, float_of_int.
  assert (Hcmp : (inject_Z (Z.of_nat (S n)) ?= 0)%Q = Gt).
  { rewrite <- Qgt_alt. change 0%Q with (inject_Z 0).
    rewrite <- Zlt_Qlt. lia. }
  rewrite Hcmp. destruct x; eauto.
Qed.

Lemma np_mean_window_rows (v : pyfloat) (rest : list pyfloat) :
  np_mean (window_rows (v :: rest)) = Ok (fmean (v :: rest)).
Proof.
  unfold np_mean, fmean.
  change (window_rows (v :: rest)) with ([v] :: window_rows rest).
  cbv beta iota.
  rewrite (window_rows_rectangular rest [v]) by reflexivity.
  change (concat ([v] :: window_rows rest))
    with (v :: concat (window_rows rest)).
  rewrite concat_window_rows.
  destruct (fdiv_by_count (fsum (v :: rest)) (length rest)) as [m Hm].
  change (length (v :: rest)) with (S (length rest)).
  rewrite Hm. reflexivity.
Qed.

(** On a well-shaped window the validator rejects exactly what the three
    rules of the specification reject. *)
Lemma validate_prediction_spec (forecast : pyfloat) (values : list pyfloat)
    (thresholds : ValidationThresholds) :
  _validate_prediction forecast (window_rows values) thresholds =
    Ok (negb (rejects_by_spec forecast values thresholds)).
Proof.
  unfold _validate_prediction, rejects_by_spec.
  change (float_of_int 0) with fzero.
  destruct (flt forecast fzero); [reflexivity|]. cbn [orb].
  destruct values as [|v rest]; [reflexivity|].
  unfold py_last, spike_rejects, mean_rejects.
  rewrite last_window_rows.
  destruct (last (v :: rest)) as [current|] eqn:Hlast.
  2:{ exfalso. revert Hlast. clear. revert v.
      induction rest as [|w rest IH]; intros v; [discriminate|].
      exact (IH w). }
  rewrite np_mean_window_rows.
  change (window_rows (v :: rest)) with ([v] :: window_rows rest).
  unfold_result. cbn [py_first].
  destruct (fgt current fzero
            && fgt forecast (fmul current (max_spike_multiplier thresholds)));
    [reflexivity|].
  cbn [orb].
  destruct (fgt (fmean (v :: rest)) fzero
            && fgt forecast
                 (fmul (fmean (v :: rest))
                    (max_historical_multiplier thresholds)));
    reflexivity.
Qed.


(** ** The history window *)

Lemma insert_by_time_perm (x : sample) (l : list sample) :
  Permutation (insert_by_time x l) (x :: l).
Proof.
  induction l as [|y rest IH]; simpl; [reflexivity|].
  destruct (fst x <=? fst y); [reflexivity|].
  rewrite IH. apply perm_swap.
Qed.

Lemma sort_by_time_perm (l : list sample) : Permutation (sort_by_time l) l.
Proof.
  induction l as [|x rest IH]; simpl; [reflexivity|].
  rewrite insert_by_time_perm. constructor. exact IH.
Qed.

Lemma closest_inv_init (slot : Z) : closest_inv slot [] (fzero, None).
Proof. split; [reflexivity | intros p []]. Qed.

Lemma closest_step_inv (slot : Z) (seen : list sample)
    (acc : pyfloat * option Z) (point : sample) :
  closest_inv slot seen acc ->
  closest_inv slot (seen ++ [point]) (closest_step slot acc point).
Proof.
  destruct acc as [v [d|]]; destruct point as [ts w];
    unfold closest_inv, closest_step, closer, distance; simpl.
  - intros (Hd & (ts0 & Hin & Hdist) & Hmin).
    destruct (Z.abs (ts - slot) <? d) eqn:Hlt;
      destruct (Z.abs (ts - slot) <=? tolerance) eqn:Htol; simpl.
    + split; [lia|]. split.
      * exists ts. split; [apply in_or_app; right; left; reflexivity|lia].
      * intros p [Hp|[<-|[]]]%in_app_or; [specialize (Hmin p Hp)|simpl]; lia.
    + lia.
    + split; [lia|]. split.
      * exists ts0. split; [apply in_or_app; left; exact Hin | exact Hdist].
      * intros p [Hp|[<-|[]]]%in_app_or; [apply Hmin; exact Hp|simpl; lia].
    + split; [lia|]. split.
      * exists ts0. split; [apply in_or_app; left; exact Hin | exact Hdist].
      * intros p [Hp|[<-|[]]]%in_app_or; [apply Hmin; exact Hp|simpl; lia].
  - intros (Hv & Hfar).
    destruct (Z.abs (ts - slot) <=? tolerance) eqn:Htol; simpl.
    + split; [lia|]. split.
      * exists ts. split; [apply in_or_app; right; left; reflexivity|lia].
      * intros p [Hp|[<-|[]]]%in_app_or; [specialize (Hfar p Hp)|simpl]; lia.
    + split; [exact Hv|].
      intros p [Hp|[<-|[]]]%in_app_or; [apply Hfar; exact Hp|simpl; lia].
Qed.

Lemma closest_fold_inv (slot : Z) (rest : list sample) :
  forall (seen : list sample) (acc : pyfloat * option Z),
    closest_inv slot seen acc ->
    closest_inv slot (seen ++ rest)
      (fold_left (closest_step slot) rest acc).
Proof.
  induction rest as [|point rest IH]; intros seen acc Hinv.
  - rewrite app_nil_r. exact Hinv.
  - simpl. replace (seen ++ point :: rest) with ((seen ++ [point]) ++ rest)
      by (rewrite <- app_assoc; reflexivity).
    apply IH. apply closest_step_inv. exact Hinv.
Qed.

(** The inner loop computes the value the specification asks for. *)
Lemma closest_value_holds (slot : Z) (parsed : list sample) :
  slot_holds parsed slot (closest_value slot parsed).
Proof.
  pose proof (closest_fold_inv slot parsed [] (fzero, None)
                (closest_inv_init slot)) as Hinv.
  unfold closest_value. simpl app in Hinv.
  destruct (fold_left (closest_step slot) parsed (fzero, None)) as [v [d|]];
    unfold closest_inv in Hinv; simpl in *.
  - destruct Hinv as (Hd & (ts & Hin & Hdist) & Hmin).
    left. exists ts. split; [exact Hin|]. split; [lia|].
    intros p Hp. specialize (Hmin p Hp). lia.
  - destruct Hinv as (-> & Hfar). right. split; [reflexivity | exact Hfar].
Qed.

Lemma expected_timestamps_length (end_time n : Z) :
  length (expected_timestamps end_time n) = Z.to_nat n.
Proof.
  unfold expected_timestamps, py_range.
  rewrite !List.length_map. apply List.length_seq.
Qed.

Lemma expected_timestamps_nth (end_time n : Z) (i : nat) :
  (i < Z.to_nat n)%nat ->
  nth_error (expected_timestamps end_time n) i =
    Some (end_time - minutes (n - 1 - Z.of_nat i)).
Proof.
  intros Hi. unfold expected_timestamps, py_range.
  rewrite !List.nth_error_map, List.nth_error_seq.
  replace (i <? Z.to_nat n)%nat with true
    by (symmetry; apply Nat.ltb_lt; exact Hi).
  reflexivity.
Qed.

Lemma window_when_nothing_parsed (end_time : Z) (qc : QueryConfig)
    (data : response) :
  _parse_query_result data = [] ->
  get_historical_workload end_time qc (Some data) =
    Some (repeat (Bare fzero) (Z.to_nat (window_minutes qc))).
Proof. intros H. unfold get_historical_workload. rewrite H. reflexivity. Qed.

Lemma window_when_parsed (end_time : Z) (qc : QueryConfig)
    (data : response) :
  _parse_query_result data <> [] ->
  get_historical_workload end_time qc (Some data) =
    Some (map (fun slot => Row [closest_value slot (_parse_query_result data)])
            (expected_timestamps end_time (window_minutes qc))).
Proof.
  intros H. unfold get_historical_workload.
  destruct (_parse_query_result data); [congruence | reflexivity].
Qed.

Lemma nothing_parsed_of_no_series (data : response) :
  result_data data = [] -> _parse_query_result data = [].
Proof. intros H. unfold _parse_query_result. rewrite H. reflexivity. Qed.

Lemma slot_holds_zero_of_nil (slot : Z) : slot_holds [] slot fzero.
Proof. right. split; [reflexivity | intros p []]. Qed.

Lemma closest_value_far (slot : Z) (a b : pyfloat) :
  closest_value slot
    [(slot - microseconds 95, a); (slot - microseconds 40, b)] = fzero.
Proof.
  destruct (closest_value_holds slot
              [(slot - microseconds 95, a); (slot - microseconds 40, b)])
    as [(ts & Hin & Hnear & _) | [Hzero _]]; [|exact Hzero].
  exfalso. unfold distance, tolerance, microseconds in Hnear.
  destruct Hin as [[= <- _] | [[= <- _] | []]];
    unfold microseconds in Hnear; lia.
Qed.

(** C7: after a successful ranged query, with a window length that is not
    negative, [get_historical_workload] returns a window of exactly
    [window_minutes] entries; the entry of index [i] stands for the slot
    [end_time - (window_minutes - 1 - i)] minutes, so the most recent minute
    is last; it carries the value of a parsed sample within 30 seconds of
    the slot than which none is closer, and 0.0 when no parsed sample is
    within 30 seconds, the parsed samples being those of the response,
    rearranged; samples 95 and 40 seconds before a slot give it 0.0; and a
    response without series gives [window_minutes] zeros, not a failure. *)
Theorem window_is_aligned
    (end_time : Z) (qc : QueryConfig) (data : response) (a b : pyfloat) :
  0 <= window_minutes qc ->
  exists window,
    get_historical_workload end_time qc (Some data) = Some window
    /\ Z.of_nat (length window) = window_minutes qc
    /\ (forall i : nat,
          (i < length window)%nat ->
          exists e v,
            nth_error window i = Some e
            /\ entry_value e = Some v
            /\ slot_holds (_parse_query_result data)
                 (end_time - minutes (window_minutes qc - 1 - Z.of_nat i)) v)
    /\ (forall samples,
          parse_all (result_data data) = Ok samples ->
          Permutation (_parse_query_result data) samples)
    /\ (result_data data = [] ->
        window = repeat (Bare fzero) (Z.to_nat (window_minutes qc)))
    /\ closest_value end_time
         [(end_time - microseconds 95, a); (end_time - microseconds 40, b)]
       = fzero
    /\ get_historical_workload (minutes 100) (window_of 2)
         (Some (two_samples (minutes 100)))
       = Some [Row [FFinite 7]; Row [fzero]].
Proof.
  intros Hn.
  assert (Hexamples :
    closest_value end_time
      [(end_time - microseconds 95, a); (end_time - microseconds 40, b)]
    = fzero
    /\ get_historical_workload (minutes 100) (window_of 2)
         (Some (two_samples (minutes 100)))
       = Some [Row [FFinite 7]; Row [fzero]]).
  { split; [apply closest_value_far | vm_compute; reflexivity]. }
  assert (Hperm : forall samples,
            parse_all (result_data data) = Ok samples ->
            Permutation (_parse_query_result data) samples).
  { intros samples Hsamples. unfold _parse_query_result.
    rewrite Hsamples. apply sort_by_time_perm. }
  destruct (_parse_query_result data) as [|p parsed] eqn:Hparsed.
  - exists (repeat (Bare fzero) (Z.to_nat (window_minutes qc))).
    split; [apply window_when_nothing_parsed; exact Hparsed|].
    rewrite List.repeat_length.
    split; [lia|].
    split; [|split; [exact Hperm | split; [reflexivity | exact Hexamples]]].
    intros i Hi. exists (Bare fzero), fzero.
    split; [apply List.nth_error_repeat; exact Hi|].
    split; [reflexivity | apply slot_holds_zero_of_nil].
  - eexists. split.
    { apply window_when_parsed. rewrite Hparsed. discriminate. }
    rewrite Hparsed, List.length_map, expected_timestamps_length.
    split; [lia|]. split; [|split; [exact Hperm | split; [|exact Hexamples]]].
    + intros i Hi.
      exists (Row [closest_value
                     (end_time - minutes (window_minutes qc - 1 - Z.of_nat i))
                     (p :: parsed)]).
      eexists. split; [|split; [reflexivity | apply closest_value_holds]].
      rewrite List.nth_error_map, expected_timestamps_nth by exact Hi.
      reflexivity.
    + intros Hnone. apply nothing_parsed_of_no_series in Hnone.
      congruence.
Qed.

Lemma window_is_aligned_witness :
  exists window,
    get_historical_workload (minutes 100) (window_of 2)
      (Some (two_samples (minutes 100))) = Some window
    /\ Z.of_nat (length window) = 2.
Proof.
  destruct (window_is_aligned (minutes 100) (window_of 2)
              (two_samples (minutes 100)) (FFinite 5) (FFinite 7))
    as (window & Hwindow & Hlen & _).
  - simpl. lia.
  - exists window. split; assumption.
Defined.

(** C10: a successful query returns windows of two shapes.  When at least
    one sample is parsed, each of the [window_minutes] entries is a
    one-element list [[value]]; when none is parsed, each entry is the bare
    float 0.0, which is not a one-element list. *)
Theorem window_has_two_shapes
    (end_time : Z) (qc : QueryConfig) (data : response) :
  (_parse_query_result data <> [] ->
   exists window,
     get_historical_workload end_time qc (Some data) = Some window
     /\ length window = Z.to_nat (window_minutes qc)
     /\ Forall is_row window)
  /\ (_parse_query_result data = [] ->
      exists window,
        get_historical_workload end_time qc (Some data) = Some window
        /\ length window = Z.to_nat (window_minutes qc)
        /\ Forall (fun e => e = Bare fzero /\ ~ is_row e) window).
Proof.
  split; intros Hparsed.
  - eexists. split; [apply window_when_parsed; exact Hparsed|].
    rewrite List.length_map, expected_timestamps_length.
    split; [reflexivity|].
    apply List.Forall_map, List.Forall_forall.
    intros slot _. eexists. reflexivity.
  - eexists. split; [apply window_when_nothing_parsed; exact Hparsed|].
    rewrite List.repeat_length. split; [reflexivity|].
    apply List.Forall_forall. intros e He.
    apply List.repeat_spec in He. subst e.
    split; [reflexivity|]. intros [v Hv]. discriminate.
Qed.

Lemma window_has_two_shapes_witness :
  (exists window,
     get_historical_workload (minutes 100) (window_of 2)
       (Some (two_samples (minutes 100))) = Some window
     /\ Forall is_row window)
  /\ (exists window,
        get_historical_workload (minutes 100) (window_of 2)
          (Some {| result_data := [] |}) = Some window
        /\ Forall (fun e => e = Bare fzero /\ ~ is_row e) window).
Proof.
  split.
  - destruct (proj1 (window_has_two_shapes (minutes 100) (window_of 2)
                       (two_samples (minutes 100))))
      as (window & Hwindow & _ & Hrows).
    + vm_compute. discriminate.
    + exists window. split; assumption.
  - destruct (proj2 (window_has_two_shapes (minutes 100) (window_of 2)
                       {| result_data := [] |}))
      as (window & Hwindow & _ & Hbare).
    + reflexivity.
    + exists window. split; assumption.
Defined.

(** ** A removal fraction of zero *)

Lemma process_deployment_decides (alg : ScalingAlgorithm) (name : string)
    (config : deployment_entry) (env : cycle_env) (current : Z)
    (forecast : pyfloat) (d : ScalingDecision) :
  env_replicas env = Some current ->
  history_readable env ->
  env_prediction env = Some forecast ->
  calculate_scaling_decision alg (env_now_check env) (env_now_remaining env)
    name forecast current (scaling_config config) = Ok d ->
  is_scaling_action (action d) = true ->
  let r := _process_deployment alg name config env in
  res_decision r = Some d
  /\ res_patch r = Some (target_replicas d)
  /\ (env_patch_ok env = true ->
      res_report r = ScalingApplied
      /\ res_algorithm r =
           {| last_scaling_time :=
                <[name := env_now_executed env]> (last_scaling_time alg) |})
  /\ (env_patch_ok env = false ->
      res_report r = ScalingFailed /\ res_algorithm r = alg).
Proof.
  intros Hrep (history & request & v & Hhist & Hlast & Hvalue) Hpred Hd Hact.
  unfold _process_deployment, _process_deployment_body.
  rewrite Hrep, Hhist, Hlast. unfold_result. rewrite Hvalue, Hpred, Hd, Hact.
  unfold execute_scaling_decision. rewrite Hact.
  destruct (env_patch_ok env); simpl;
    repeat split; try reflexivity; discriminate.
Qed.

(** C9: outside cooldown, with a removal fraction equal to 0 and fewer pods
    required than running, the decision is [scale_in] with
    [pods_surplus = 0] and [target_replicas = current_replicas]; the cycle
    treats it as a scaling action all the same: it patches the deployment to
    the replica count it already has and, the patch accepted, records the
    time, from which the deployment is in cooldown for [cooldown_period]
    seconds. *)
Theorem zero_fraction_scale_in_changes_nothing_but_cools_down
    (alg : ScalingAlgorithm) (name : string) (config : deployment_entry)
    (env : cycle_env) (current required : Z) (forecast : pyfloat) (q : Q) :
  env_replicas env = Some current ->
  history_readable env ->
  env_prediction env = Some forecast ->
  _is_in_cooldown alg name (cooldown_period (scaling_config config))
    (env_now_check env) = false ->
  resource_removal_strategy (scaling_config config) = RrsNumber (FFinite q) ->
  (q == 0)%Q ->
  pods_required_of forecast (scaling_config config) = Ok required ->
  required < current ->
  let d := idle_scale_in current required forecast in
  let r := _process_deployment alg name config env in
  calculate_scaling_decision alg (env_now_check env) (env_now_remaining env)
    name forecast current (scaling_config config) = Ok d
  /\ res_decision r = Some d
  /\ res_patch r = Some current
  /\ (env_patch_ok env = true ->
      res_report r = ScalingApplied
      /\ last_scaling_time (res_algorithm r) !! name
         = Some (env_now_executed env)
      /\ forall later,
           later < env_now_executed env
                   + microseconds (cooldown_period (scaling_config config)) ->
           _is_in_cooldown (res_algorithm r) name
             (cooldown_period (scaling_config config)) later = true).
Proof.
  intros Hrep Hhist Hpred Hcool Hrrs Hq Hreq Hlt d r.
  assert (Hd : calculate_scaling_decision alg (env_now_check env)
                 (env_now_remaining env) name forecast current
                 (scaling_config config) = Ok d).
  { rewrite (scale_in_decision _ _ _ _ _ _ _ required q Hcool Hreq Hrrs Hlt).
    cbv zeta.
    assert (Hzero : Qceiling (inject_Z (current - required) * q) = 0).
    { apply Qceiling_of_zero. rewrite Hq. apply Qmult_0_r. }
    rewrite Hzero.
    apply pods_required_of_inv in Hreq as (x & _ & Hmax).
    subst d. unfold idle_scale_in. do 2 f_equal. lia. }
  destruct (process_deployment_decides alg name config env current forecast d
              Hrep Hhist Hpred Hd eq_refl) as (Hdec & Hpatch & Hok & _).
  fold r in Hdec, Hpatch, Hok.
  split; [exact Hd|]. split; [exact Hdec|]. split; [exact Hpatch|].
  intros Hpatched. destruct (Hok Hpatched) as [Hreport Halg].
  split; [exact Hreport|].
  assert (Hlast : last_scaling_time (res_algorithm r) !! name
                  = Some (env_now_executed env)).
  { rewrite Halg. simpl. apply lookup_insert_eq. }
  split; [exact Hlast|].
  intros later Hlater. eapply in_cooldown_after; eassumption.
Qed.

Lemma zero_fraction_scale_in_witness :
  res_decision low_load_cycle = Some (idle_scale_in 4 1 (FFinite 50))
  /\ res_patch low_load_cycle = Some 4
  /\ res_report low_load_cycle = ScalingApplied
  /\ last_scaling_time (res_algorithm low_load_cycle) !! "web"%string
     = Some 2000.
Proof.
  destruct (zero_fraction_scale_in_changes_nothing_but_cools_down
              ScalingAlgorithm_init "web" never_remove_entry low_load 4 1
              (FFinite 50) 0)
    as (_ & Hdec & Hpatch & Hok).
  - reflexivity.
  - exists (repeat (Row [FFinite 50]) 10), (Row [FFinite 50]),
      (Some (FFinite 50)).
    repeat split; reflexivity.
  - reflexivity.
  - reflexivity.
  - reflexivity.
  - reflexivity.
  - reflexivity.
  - lia.
  - destruct (Hok eq_refl) as (Hreport & Hlast & _).
    repeat split; assumption.
Defined.

(** ** The decision on the interpreter's numbers *)

Section MachineProperties.
Import Machine.


Lemma machine_decision_of_error (self : ScalingAlgorithm)
    (now now_remaining : Z) (name : string) (forecast : float) (current : Z)
    (config : ScalingConfig) (e : exn) :
  calculate_scaling_decision_body self now now_remaining name forecast
    current config = Raise e ->
  calculate_scaling_decision self now now_remaining name forecast current
    config =
  Ok {| action := no_action;
        target_replicas := current;
        current_replicas := current;
        predicted_workload := forecast;
        reason := Some (ErrorInCalculation e);
        pods_surplus := None |}.
Proof.
  intros H. unfold calculate_scaling_decision. rewrite H. reflexivity.
Qed.

Lemma machine_decision_total (self : ScalingAlgorithm)
    (now now_remaining : Z) (name : string) (forecast : float) (current : Z)
    (config : ScalingConfig) :
  exists d,
    calculate_scaling_decision self now now_remaining name forecast current
      config = Ok d.
Proof.
  unfold calculate_scaling_decision.
  destruct (calculate_scaling_decision_body _ _ _ _ _ _ _); simpl; eauto.
Qed.





(** ** Quotients of binary64 that stay finite *)

Lemma digits2_pos_size (p : positive) : digits2_pos p = Pos.size p.
Proof. induction p; simpl; congruence. Qed.

Lemma Zdigits2_log2 (z : Z) : 0 < z -> Zdigits2 z = Z.log2 z + 1.
Proof.
  destruct z as [|p|p]; try lia. intros _. simpl.
  rewrite digits2_pos_size. destruct p; simpl; lia.
Qed.

Lemma Zdigits2_nonneg (a : Z) : 0 <= Zdigits2 a.
Proof. destruct a; simpl; lia. Qed.

Lemma Zdigits2_bound (a k : Z) :
  0 <= k -> 0 <= a < 2 ^ k -> Zdigits2 a <= k.
Proof.
  intros Hk [Ha Hlt]. destruct (Z.eq_dec a 0) as [->|Hne]; [simpl; lia|].
  rewrite Zdigits2_log2 by lia.
  assert (Z.log2 a < k) by (apply Z.log2_lt_pow2; lia). lia.
Qed.

(** Shifting a mantissa to the right keeps it between 0 and itself. *)
Lemma shr_1_m (mrs : shr_record) :
  0 <= shr_m mrs -> 0 <= shr_m (shr_1 mrs) <= shr_m mrs.
Proof.
  destruct mrs as [m r s]. simpl. intros Hm.
  destruct m as [|p|p]; simpl; try lia.
  destruct p; simpl; lia.
Qed.

Lemma iter_shr_1_m (p : positive) :
  forall mrs,
    0 <= shr_m mrs -> 0 <= shr_m (SpecFloat.iter_pos shr_1 p mrs) <= shr_m mrs.
Proof.
  induction p as [p IH|p IH|]; intros mrs Hm; simpl.
  - pose proof (shr_1_m mrs Hm) as H1.
    pose proof (IH (shr_1 mrs) ltac:(lia)) as H2.
    pose proof (IH (SpecFloat.iter_pos shr_1 p (shr_1 mrs)) ltac:(lia)) as H3. lia.
  - pose proof (IH mrs Hm) as H2.
    pose proof (IH (SpecFloat.iter_pos shr_1 p mrs) ltac:(lia)) as H3. lia.
  - apply shr_1_m. exact Hm.
Qed.

Lemma shr_record_of_loc_m (m : Z) (l : location) :
  shr_m (shr_record_of_loc m l) = m.
Proof. destruct l as [|[]]; reflexivity. Qed.

Lemma fexp_binary64 (k : Z) : fexp prec emax k = Z.max (k - 53) (-1074).
Proof. reflexivity. Qed.

Lemma shr_fexp_m (m e : Z) (l : location) :
  0 <= m ->
  let '(mrs, e') := shr_fexp prec emax m e l in
  0 <= shr_m mrs <= m
  /\ (e' = e \/ e' = fexp prec emax (Zdigits2 m + e)).
Proof.
  intros Hm. unfold shr_fexp, shr.
  destruct (fexp prec emax (Zdigits2 m + e) - e) as [|n|n] eqn:Hn.
  - rewrite shr_record_of_loc_m. split; [lia | left; reflexivity].
  - split.
    + pose proof (iter_shr_1_m n (shr_record_of_loc m l)) as H.
      rewrite shr_record_of_loc_m in H. apply H. exact Hm.
    + right. lia.
  - rewrite shr_record_of_loc_m. split; [lia | left; reflexivity].
Qed.

Lemma round_nearest_even_m (m : Z) (l : location) :
  0 <= m -> 0 <= round_nearest_even m l <= m + 1.
Proof.
  intros Hm. unfold round_nearest_even.
  destruct l as [|[]]; try lia. destruct (Z.even m); lia.
Qed.

(** Rounding a mantissa below [2 ^ 500] with an exponent that is not
    positive gives a zero or a finite double. *)
Lemma binary_round_aux_ordinary (sx : bool) (mx ex : Z) (lx : location) :
  0 <= mx < 2 ^ 500 ->
  ex <= 0 ->
  match binary_round_aux prec emax sx mx ex lx with
  | S754_nan | S754_infinity _ => False
  | _ => True
  end.
Proof.
  intros [Hm Hlt] Hex. unfold binary_round_aux.
  pose proof (shr_fexp_m mx ex lx Hm) as H1.
  destruct (shr_fexp prec emax mx ex lx) as [mrs' e'].
  destruct H1 as [Hm' He'].
  pose proof (round_nearest_even_m (shr_m mrs') (loc_of_shr_record mrs')
                ltac:(lia)) as Hr.
  set (m2 := round_nearest_even (shr_m mrs') (loc_of_shr_record mrs')) in *.
  pose proof (shr_fexp_m m2 e' loc_Exact ltac:(lia)) as H2.
  destruct (shr_fexp prec emax m2 e' loc_Exact) as [mrs'' e''].
  destruct H2 as [Hm'' He''].
  assert (Hd1 : 0 <= Zdigits2 mx <= 500).
  { split; [apply Zdigits2_nonneg | apply Zdigits2_bound; lia]. }
  assert (Hd2 : 0 <= Zdigits2 m2 <= 501).
  { split; [apply Zdigits2_nonneg|]. apply Zdigits2_bound; [lia|].
    replace (2 ^ 501) with (2 * 2 ^ 500)
      by (rewrite <- Z.pow_succ_r; [reflexivity | lia]).
    lia. }
  rewrite !fexp_binary64 in *.
  assert (Hb : e'' <= 971) by lia.
  destruct (shr_m mrs'') as [|p|p]; [exact I | | lia].
  replace (e'' <=? emax - prec) with true by (unfold emax, prec; lia).
  exact I.
Qed.

Lemma SFdiv_by_million_ordinary (s : bool) (m : positive) :
  Zpos m < 2 ^ 62 ->
  match SFdiv prec emax (S754_finite s m 0) (S754_finite false 1000000 0)
  with
  | S754_nan | S754_infinity _ => False
  | _ => True
  end.
Proof.
  intros Hm. unfold SFdiv, SFdiv_core_binary.
  set (d1 := Zdigits2 (Zpos m)).
  assert (Hd1 : 1 <= d1 <= 62).
  { subst d1. split.
    - rewrite Zdigits2_log2 by lia.
      pose proof (Z.log2_nonneg (Zpos m)). lia.
    - apply Zdigits2_bound; lia. }
  change (Zdigits2 1000000) with 20.
  set (e' := Z.min (fexp prec emax (d1 + 0 - (20 + 0))) (0 - 0)).
  assert (He' : -72 <= e' <= 0).
  { subst e'. rewrite fexp_binary64. lia. }
  set (m' := match 0 - 0 - e' with
             | 0 => Zpos m
             | Zpos _ => Z.shiftl (Zpos m) (0 - 0 - e')
             | Zneg _ => 0
             end).
  assert (Hm' : 0 <= m' < 2 ^ 134).
  { subst m'. destruct (0 - 0 - e') as [|n|n] eqn:Hs.
    - split; [lia|]. apply Z.lt_trans with (2 ^ 62); [exact Hm|].
      apply Z.pow_lt_mono_r; lia.
    - rewrite Z.shiftl_mul_pow2 by lia. split; [lia|].
      apply Z.lt_le_trans with (2 ^ 62 * 2 ^ Zpos n).
      + apply Z.mul_lt_mono_pos_r; lia.
      + rewrite <- Z.pow_add_r by lia. apply Z.pow_le_mono_r; lia.
    - lia. }
  pose proof (Z_div_mod m' 1000000 ltac:(lia)) as Hdiv.
  destruct (Z.div_eucl m' 1000000) as [q r].
  destruct Hdiv as [Hq Hr].
  apply binary_round_aux_ordinary; [|lia].
  split; [nia|].
  apply Z.le_lt_trans with m'; [nia|].
  apply Z.lt_trans with (2 ^ 134); [lia|]. apply Z.pow_lt_mono_r; lia.
Qed.

(** [int(delta.total_seconds())] returns for every difference of two
    datetimes. *)
Lemma int_of_total_seconds (delta : Z) :
  - datetime_max <= delta <= datetime_max ->
  exists seconds, int_of_float (total_seconds delta) = Ok seconds.
Proof.
  intros Hdelta. unfold datetime_max in Hdelta.
  assert (Hpow : 315537897599999999 < 2 ^ 62) by reflexivity.
  destruct delta as [|m|m]; unfold total_seconds.
  - simpl. eauto.
  - pose proof (SFdiv_by_million_ordinary false m ltac:(lia)) as H.
    revert H.
    destruct (SFdiv prec emax _ _); simpl; intros H; eauto; contradiction.
  - pose proof (SFdiv_by_million_ordinary true m ltac:(lia)) as H.
    revert H.
    destruct (SFdiv prec emax _ _); simpl; intros H; eauto; contradiction.
Qed.

(** ** Cooldown on the interpreter's clock *)

(** The end of a cooldown that is a datetime is computed without an
    error. *)
Lemma machine_cooldown_end (t cooldown : Z) :
  0 <= t <= datetime_max ->
  0 <= t + microseconds cooldown <= datetime_max ->
  (delta ← timedelta cooldown; datetime_add t delta) =
  Ok (t + microseconds cooldown).
Proof.
  intros Ht Hend. unfold timedelta, datetime_add, datetime_max, microseconds
    in *.
  assert (Hdays : -999999999 <= cooldown / 86400 <= 999999999).
  { split; [apply Z.div_le_lower_bound | apply Z.div_le_upper_bound]; lia. }
  replace (Z.abs (cooldown / 86400) >? 999999999) with false by lia.
  unfold_result.
  replace ((0 <=? t + cooldown * 1000000)
           && (t + cooldown * 1000000 <=? 315537897599999999))
    with true by lia.
  reflexivity.
Qed.

(** The end of a cooldown that lies after [datetime.max] is not: building
    the [timedelta] or adding it raises [OverflowError]. *)
Lemma machine_cooldown_overflow (t cooldown : Z) :
  datetime_max < t + microseconds cooldown ->
  (delta ← timedelta cooldown; datetime_add t delta) = Raise OverflowError.
Proof.
  intros Hend. unfold timedelta, datetime_add.
  destruct (Z.abs (cooldown / 86400) >? 999999999); [reflexivity|].
  unfold_result.
  replace ((0 <=? t + microseconds cooldown)
           && (t + microseconds cooldown <=? datetime_max))
    with false by lia.
  reflexivity.
Qed.

(** The decision within the cooldown that follows a recorded scaling
    time. *)
Lemma machine_decision_in_cooldown (alg : ScalingAlgorithm) (name : string)
    (t now now_remaining : Z) (forecast : float) (current : Z)
    (config : ScalingConfig) :
  last_scaling_time alg !! name = Some t ->
  0 <= t <= datetime_max ->
  0 <= now ->
  now < t + microseconds (cooldown_period config) ->
  (t + microseconds (cooldown_period config) <= datetime_max ->
   calculate_scaling_decision alg now now_remaining name forecast current
     config =
   Ok {| action := no_action;
         target_replicas := current;
         current_replicas := current;
         predicted_workload := forecast;
         reason :=
           Some
             match int_of_float
                     (total_seconds
                        (t + microseconds (cooldown_period config)
                         - now_remaining)) with
             | Ok seconds => InCooldown (Z.max 0 seconds)
             | Raise e => ErrorInCalculation e
             end;
         pods_surplus := None |})
  /\ (datetime_max < t + microseconds (cooldown_period config) ->
      calculate_scaling_decision alg now now_remaining name forecast current
        config =
      Ok {| action := no_action;
            target_replicas := current;
            current_replicas := current;
            predicted_workload := forecast;
            reason := Some (ErrorInCalculation OverflowError);
            pods_surplus := None |}).
Proof.
  intros Hlast Ht Hnow Hin. split; intros Hend.
  - pose proof (machine_cooldown_end t (cooldown_period config) Ht
                  ltac:(lia)) as Hcd.
    unfold calculate_scaling_decision, calculate_scaling_decision_body,
      _is_in_cooldown, _get_cooldown_remaining.
    rewrite Hlast. revert Hcd. unfold_result.
    destruct (timedelta (cooldown_period config)) as [delta|e];
      [|discriminate].
    intros ->.
    replace (now <? t + microseconds (cooldown_period config)) with true
      by lia.
    destruct (int_of_float _); reflexivity.
  - pose proof (machine_cooldown_overflow t (cooldown_period config) Hend)
      as Hcd.
    unfold calculate_scaling_decision, calculate_scaling_decision_body,
      _is_in_cooldown.
    rewrite Hlast. revert Hcd. unfold_result.
    destruct (timedelta (cooldown_period config)) as [delta|e].
    + intros ->. reflexivity.
    + intros [= ->]. reflexivity.
Qed.

(** The cooldown state after a cycle, by what the cycle was given. *)
Lemma machine_algorithm_after_cycle (alg : ScalingAlgorithm) (name : string)
    (config : deployment_entry) (env : cycle_env) :
  let r := _process_deployment alg name config env in
  res_algorithm r = alg
  \/ (env_patch_ok env = true
      /\ exists current forecast d,
           env_replicas env = Some current
           /\ env_prediction env = Some forecast
           /\ calculate_scaling_decision alg (env_now_check env)
                (env_now_remaining env) name forecast current
                (scaling_config config) = Ok d
           /\ is_scaling_action (action d) = true
           /\ res_patch r = Some (target_replicas d)
           /\ res_algorithm r =
                {| last_scaling_time :=
                     <[name := env_now_executed env]>
                       (last_scaling_time alg) |}).
Proof.
  unfold _process_deployment, _process_deployment_body.
  destruct (env_replicas env) as [current|]; [|left; reflexivity].
  destruct (_get_historical_metrics (env_history env)) as [history|];
    [|left; reflexivity].
  unfold_result.
  destruct (py_last history) as [current_request|e]; [|left; reflexivity].
  destruct (current_request_value current_request) as [v|e];
    [|left; reflexivity].
  destruct (env_prediction env) as [forecast|]; [|left; reflexivity].
  destruct (machine_decision_total alg (env_now_check env)
              (env_now_remaining env) name forecast current
              (scaling_config config)) as [d Hd].
  rewrite Hd.
  destruct (is_scaling_action (action d)) eqn:Hact; [|left; reflexivity].
  destruct (env_patch_ok env) eqn:Hpatch; [|left; reflexivity].
  right. split; [reflexivity|]. exists current, forecast, d.
  repeat split; try reflexivity; try assumption.
  simpl. unfold execute_scaling_decision. rewrite Hact. reflexivity.
Qed.

Lemma machine_algorithm_of_decision (alg : ScalingAlgorithm) (name : string)
    (config : deployment_entry) (env : cycle_env) (current : Z)
    (forecast : float) (d : ScalingDecision) :
  env_replicas env = Some current ->
  history_readable env ->
  env_prediction env = Some forecast ->
  calculate_scaling_decision alg (env_now_check env) (env_now_remaining env)
    name forecast current (scaling_config config) = Ok d ->
  res_algorithm (_process_deployment alg name config env) =
    if is_scaling_action (action d) && env_patch_ok env
    then {| last_scaling_time :=
              <[name := env_now_executed env]> (last_scaling_time alg) |}
    else alg.
Proof.
  intros Hrep (history & current_request & v & Hmet & Hlast & Hval) Hpred Hd.
  unfold _process_deployment, _process_deployment_body.
  rewrite Hrep, Hmet, Hpred. unfold_result. rewrite Hlast, Hval, Hd.
  destruct (is_scaling_action (action d)) eqn:Hact; [|reflexivity].
  destruct (env_patch_ok env); [|reflexivity].
  simpl. unfold execute_scaling_decision. rewrite Hact. reflexivity.
Qed.

(** C3, as the code has it: once a scale action of a target has been applied
    at the datetime [t], and more generally whenever [t] is the recorded
    time of its last scaling, every call made before [t + cooldown_period]
    returns [no_action] with [target_replicas = current_replicas], whatever
    the forecast.  Its reason cites the remaining seconds,
    [max(0, int(remaining.total_seconds()))], which the call always
    obtains, when the end of the cooldown is a datetime; when that end lies
    after year 9999 the reason is the [OverflowError] of the addition.  A decision that is not a scale action
    records nothing, and a cycle leaves [last_scaling_time] as it was unless
    it computed a [scale_out] or [scale_in] decision and its patch
    succeeded, in which case the entry of that target, and no other, is set
    to the time of the execution. *)
Theorem cooldown_holds_and_moves_on_applied_scaling_only
    (alg : ScalingAlgorithm) (name : string) (t now now_remaining : Z)
    (forecast : float) (current : Z) (policy : ScalingConfig)
    (applied : ScalingDecision) (config : deployment_entry)
    (env : cycle_env) :
  0 <= t <= datetime_max ->
  0 <= now ->
  now < t + microseconds (cooldown_period policy) ->
  let cooldown_end := t + microseconds (cooldown_period policy) in
  let within_cooldown (self : ScalingAlgorithm) :=
    exists d,
      calculate_scaling_decision self now now_remaining name forecast
        current policy = Ok d
      /\ action d = no_action
      /\ target_replicas d = current
      /\ current_replicas d = current
      /\ predicted_workload d = forecast
      /\ pods_surplus d = None
      /\ (cooldown_end <= datetime_max ->
          0 <= now_remaining <= datetime_max ->
          exists seconds,
            int_of_float (total_seconds (cooldown_end - now_remaining))
              = Ok seconds
            /\ reason d = Some (InCooldown (Z.max 0 seconds)))
      /\ (datetime_max < cooldown_end ->
          reason d = Some (ErrorInCalculation OverflowError)) in
  (is_scaling_action (action applied) = true ->
   within_cooldown (snd (execute_scaling_decision alg name applied t)))
  /\ (last_scaling_time alg !! name = Some t -> within_cooldown alg)
  /\ (is_scaling_action (action applied) = false ->
      snd (execute_scaling_decision alg name applied t) = alg)
  /\ (let r := _process_deployment alg name config env in
      (res_algorithm r = alg
       \/ (env_patch_ok env = true
           /\ exists current' forecast' d,
                env_replicas env = Some current'
                /\ env_prediction env = Some forecast'
                /\ calculate_scaling_decision alg (env_now_check env)
                     (env_now_remaining env) name forecast' current'
                     (scaling_config config) = Ok d
                /\ is_scaling_action (action d) = true
                /\ res_patch r = Some (target_replicas d)
                /\ res_algorithm r =
                     {| last_scaling_time :=
                          <[name := env_now_executed env]>
                            (last_scaling_time alg) |}))
      /\ (forall current' forecast' d,
            env_replicas env = Some current' ->
            history_readable env ->
            env_prediction env = Some forecast' ->
            calculate_scaling_decision alg (env_now_check env)
              (env_now_remaining env) name forecast' current'
              (scaling_config config) = Ok d ->
            res_algorithm r =
              if is_scaling_action (action d) && env_patch_ok env
              then {| last_scaling_time :=
                        <[name := env_now_executed env]>
                          (last_scaling_time alg) |}
              else alg)).
Proof.
  intros Ht Hnow Hin cooldown_end within_cooldown.
  assert (Hwithin : forall self,
             last_scaling_time self !! name = Some t ->
             within_cooldown self).
  { intros self Hlast.
    destruct (machine_decision_in_cooldown self name t now now_remaining
                forecast current policy Hlast Ht Hnow Hin)
      as [Hinside Hbeyond].
    fold cooldown_end in Hinside, Hbeyond.
    destruct (Z_le_gt_dec cooldown_end datetime_max) as [Hle|Hgt].
    - eexists. split; [apply Hinside; exact Hle|].
      simpl. repeat split; [|lia].
      intros _ Hremaining.
      destruct (int_of_total_seconds (cooldown_end - now_remaining))
        as [seconds Hseconds]; [subst cooldown_end; lia|].
      exists seconds. fold cooldown_end. rewrite Hseconds.
      split; reflexivity.
    - eexists. split; [apply Hbeyond; lia|].
      simpl. repeat split. lia. }
  split; [|split; [|split; [|split]]].
  - intros Hact. apply Hwithin.
    unfold execute_scaling_decision. rewrite Hact. simpl.
    apply lookup_insert_eq.
  - apply Hwithin.
  - intros Hact. unfold execute_scaling_decision. rewrite Hact.
    reflexivity.
  - apply machine_algorithm_after_cycle.
  - intros current' forecast' d. apply machine_algorithm_of_decision.
Qed.

Lemma cooldown_holds_and_moves_witness :
  calculate_scaling_decision
    (snd (execute_scaling_decision ScalingAlgorithm_init "web"
            sample_scale_out new_year_2024))
    (new_year_2024 + 60000000) (new_year_2024 + 60500000) "web"
    (of_integer 100000) 5 sample_config =
  Ok {| action := no_action;
        target_replicas := 5;
        current_replicas := 5;
        predicted_workload := of_integer 100000;
        reason := Some (InCooldown 239);
        pods_surplus := None |}
  /\ last_scaling_time
       (res_algorithm
          (_process_deployment ScalingAlgorithm_init "web" sample_entry
             (high_load true))) !! "web"%string
     = Some (new_year_2024 + 1000000)
  /\ res_algorithm
       (_process_deployment ScalingAlgorithm_init "web" sample_entry
          (high_load false)) = ScalingAlgorithm_init.
Proof.
  assert (Ht : 0 <= new_year_2024 <= datetime_max)
    by (unfold new_year_2024, datetime_max; lia).
  assert (Hnow : 0 <= new_year_2024 + 60000000)
    by (unfold new_year_2024; lia).
  assert (Hin : new_year_2024 + 60000000
                < new_year_2024 + microseconds (cooldown_period sample_config))
    by (unfold microseconds; simpl; lia).
  assert (Hread : forall patch_ok, history_readable (high_load patch_ok)).
  { intros patch_ok.
    exists (repeat (Row [of_integer 900]) 10), (Row [of_integer 900]),
      (Some (of_integer 900)).
    repeat split; reflexivity. }
  split; [|split].
  - destruct (cooldown_holds_and_moves_on_applied_scaling_only
                ScalingAlgorithm_init "web" new_year_2024
                (new_year_2024 + 60000000) (new_year_2024 + 60500000)
                (of_integer 100000) 5 sample_config sample_scale_out
                sample_entry (high_load true) Ht Hnow Hin)
      as (Hafter & _).
    destruct (Hafter eq_refl)
      as (d & -> & Hact & Htgt & Hcur & Hfor & Hsur & Hreason & _).
    destruct d as [a tr cr pw why ps]. simpl in *.
    destruct Hreason as (seconds & Hseconds & ->);
      [vm_compute; discriminate
      | unfold new_year_2024, datetime_max; lia |].
    vm_compute in Hseconds. injection Hseconds as <-.
    subst. reflexivity.
  - destruct (cooldown_holds_and_moves_on_applied_scaling_only
                ScalingAlgorithm_init "web" new_year_2024
                (new_year_2024 + 60000000) (new_year_2024 + 60500000)
                (of_integer 100000) 5 sample_config sample_scale_out
                sample_entry (high_load true) Ht Hnow Hin)
      as (_ & _ & _ & _ & Hcycle).
    rewrite (Hcycle 2 (of_integer 1000)
               {| action := scale_out;
                  target_replicas := 10;
                  current_replicas := 2;
                  predicted_workload := of_integer 1000;
                  reason := Some (ScalingOut 10 10);
                  pods_surplus := None |}
               eq_refl (Hread true) eq_refl eq_refl).
    simpl. apply lookup_insert_eq.
  - destruct (cooldown_holds_and_moves_on_applied_scaling_only
                ScalingAlgorithm_init "web" new_year_2024
                (new_year_2024 + 60000000) (new_year_2024 + 60500000)
                (of_integer 100000) 5 sample_config sample_scale_out
                sample_entry (high_load false) Ht Hnow Hin)
      as (_ & _ & _ & _ & Hcycle).
    rewrite (Hcycle 2 (of_integer 1000)
               {| action := scale_out;
                  target_replicas := 10;
                  current_replicas := 2;
                  predicted_workload := of_integer 1000;
                  reason := Some (ScalingOut 10 10);
                  pods_surplus := None |}
               eq_refl (Hread false) eq_refl eq_refl).
    reflexivity.
Defined.

(** A call made one minute after an applied scale action, under a cooldown
    of [10**12] seconds: the decision is [no_action] at the current
    replicas, but its reason is the [OverflowError] of
    [last_scaling + timedelta(seconds=cooldown_period)], not the remaining
    seconds. *)
Lemma endless_cooldown_reports_an_overflow :
  new_year_2024 + 60000000
    < new_year_2024 + microseconds (cooldown_period endless_cooldown)
  /\ calculate_scaling_decision
       (snd (execute_scaling_decision ScalingAlgorithm_init "web"
               sample_scale_out new_year_2024))
       (new_year_2024 + 60000000) (new_year_2024 + 60000000) "web"
       (of_integer 1000) 2 endless_cooldown =
     Ok {| action := no_action;
           target_replicas := 2;
           current_replicas := 2;
           predicted_workload := of_integer 1000;
           reason := Some (ErrorInCalculation OverflowError);
           pods_surplus := None |}.
Proof. split; [reflexivity | vm_compute; reflexivity]. Qed.

(** ** The forecast validator on the interpreter's numbers *)

(** The validator on a history whose last row starts with [current] and
    whose mean NumPy gives as [mean]. *)
Lemma machine_validate_prediction
    (np_mean : list (list float) -> result float) (forecast : float)
    (history : list (list float)) (thresholds : ValidationThresholds)
    (last_row : list float) (current mean : float) :
  py_last history = Ok last_row ->
  py_first last_row = Ok current ->
  np_mean history = Ok mean ->
  _validate_prediction np_mean forecast history thresholds =
    Ok (negb (rejects_by_spec forecast current mean thresholds)).
Proof.
  intros Hlast Hfirst Hmean. unfold _validate_prediction, rejects_by_spec.
  destruct (flt forecast fzero); [reflexivity|].
  destruct history as [|row rest]; [discriminate|].
  rewrite Hlast. unfold_result. rewrite Hfirst, Hmean. simpl.
  destruct (fgt current fzero
            && fgt forecast (fmul current (max_spike_multiplier thresholds)));
    [reflexivity|].
  destruct (fgt mean fzero
            && fgt forecast
                 (fmul mean (max_historical_multiplier thresholds)));
    reflexivity.
Qed.

Lemma py_last_snoc {A : Type} (l : list A) (x : A) : py_last (l ++ [x]) = Ok x.
Proof. unfold py_last. rewrite last_snoc. reflexivity. Qed.

(** C6, as the code has it: on a history whose last value is [current] and
    whose mean, as NumPy returns it, is [mean], the validator returns false
    exactly when the forecast is below 0, or [current > 0] and
    [forecast > current * max_spike_multiplier], or [mean > 0] and
    [forecast > mean * max_historical_multiplier], the products being
    rounded products of doubles; on an empty history it returns false
    exactly when the forecast is below 0.  A forecast of -1 is always
    rejected; with a last value of 10 and a spike multiplier of 3 a forecast
    of 1000 is rejected, and a forecast of 20 passes the spike rule and is
    accepted exactly when the rule on the mean does not reject it, as for a
    mean of 10 under a historical multiplier of 2. *)
Theorem validator_rejects_exactly_on_three_grounds
    (np_mean : list (list float) -> result float) (forecast : float)
    (history : list (list float)) (thresholds : ValidationThresholds) :
  (forall last_row current mean,
     py_last history = Ok last_row ->
     py_first last_row = Ok current ->
     np_mean history = Ok mean ->
     _validate_prediction np_mean forecast history thresholds =
       Ok (negb
             (flt forecast fzero
              || (fgt current fzero
                  && fgt forecast
                       (fmul current (max_spike_multiplier thresholds)))
              || (fgt mean fzero
                  && fgt forecast
                       (fmul mean (max_historical_multiplier thresholds))))))
  /\ _validate_prediction np_mean forecast [] thresholds =
       Ok (negb (flt forecast fzero))
  /\ (forecast = of_integer (-1) ->
      _validate_prediction np_mean forecast history thresholds = Ok false)
  /\ (forall rows mean,
        history = rows ++ [[of_integer 10]] ->
        np_mean history = Ok mean ->
        max_spike_multiplier thresholds = of_integer 3 ->
        (forecast = of_integer 1000 ->
         _validate_prediction np_mean forecast history thresholds = Ok false)
        /\ (forecast = of_integer 20 ->
            _validate_prediction np_mean forecast history thresholds =
              Ok (negb
                    (fgt mean fzero
                     && fgt forecast
                          (fmul mean
                             (max_historical_multiplier thresholds)))))
        /\ (forecast = of_integer 20 ->
            mean = of_integer 10 ->
            max_historical_multiplier thresholds = of_integer 2 ->
            _validate_prediction np_mean forecast history thresholds =
              Ok true)).
Proof.
  split; [|split; [|split]].
  - intros last_row current mean Hlast Hfirst Hmean.
    apply (machine_validate_prediction _ _ _ _ last_row); assumption.
  - unfold _validate_prediction. destruct (flt forecast fzero); reflexivity.
  - intros ->. reflexivity.
  - intros rows mean Hhist Hmean Hspike.
    assert (Hrule : _validate_prediction np_mean forecast history thresholds
                    = Ok (negb (rejects_by_spec forecast (of_integer 10) mean
                                  thresholds))).
    { apply (machine_validate_prediction _ _ _ _ [of_integer 10]);
        [rewrite Hhist; apply py_last_snoc | reflexivity | exact Hmean]. }
    rewrite Hrule. unfold rejects_by_spec. rewrite Hspike.
    split; [|split].
    + intros ->. reflexivity.
    + intros ->. reflexivity.
    + intros -> -> ->. reflexivity.
Qed.

Lemma validator_rejects_exactly_witness :
  _validate_prediction mean_in_order (of_integer 20)
    (window_rows (repeat (of_integer 10) 10)) default_thresholds = Ok true
  /\ _validate_prediction mean_in_order (of_integer 1000)
       (window_rows (repeat (of_integer 10) 10)) default_thresholds
     = Ok false
  /\ _validate_prediction mean_in_order (decimal 24 10)
       (window_rows (repeat (decimal 12 10) 10)) default_thresholds
     = Ok false.
Proof.
  split; [|split].
  - destruct (validator_rejects_exactly_on_three_grounds mean_in_order
                (of_integer 20) (window_rows (repeat (of_integer 10) 10))
                default_thresholds) as (_ & _ & _ & Hten).
    destruct (Hten (window_rows (repeat (of_integer 10) 9)) (of_integer 10))
      as (_ & _ & Haccepted); [reflexivity | vm_compute; reflexivity
                              | reflexivity |].
    apply Haccepted; reflexivity.
  - destruct (validator_rejects_exactly_on_three_grounds mean_in_order
                (of_integer 1000) (window_rows (repeat (of_integer 10) 10))
                default_thresholds) as (_ & _ & _ & Hten).
    destruct (Hten (window_rows (repeat (of_integer 10) 9)) (of_integer 10))
      as (Hrejected & _); [reflexivity | vm_compute; reflexivity
                          | reflexivity |].
    apply Hrejected; reflexivity.
  - destruct (validator_rejects_exactly_on_three_grounds mean_in_order
                (decimal 24 10) (window_rows (repeat (decimal 12 10) 10))
                default_thresholds) as (Hrule & _).
    rewrite (Hrule [decimal 12 10] (decimal 12 10)
               (S754_finite false 5404319552844594 (-52)));
      vm_compute; reflexivity.
Defined.

(** A forecast of 20 on a history that ends with 10, under a spike
    multiplier of 3: the history was quiet before, its mean is 1, and with
    the historical multiplier 2 the forecast is rejected. *)
Lemma forecast_20_rejected_after_a_quiet_history :
  py_last (window_rows quiet_then_ten) = Ok [of_integer 10]
  /\ max_spike_multiplier default_thresholds = of_integer 3
  /\ mean_in_order (window_rows quiet_then_ten) = Ok (of_integer 1)
  /\ _validate_prediction mean_in_order (of_integer 20)
       (window_rows quiet_then_ten) default_thresholds = Ok false.
Proof. repeat split; vm_compute; reflexivity. Qed.

End MachineProperties.
(** * Further properties *)

(** ** More on the scaling decision *)

Lemma pods_required_of_floor (forecast : pyfloat) (config : ScalingConfig)
    (pods : Z) :
  pods_required_of forecast config = Ok pods ->
  1 <= pods /\ min_replicas config <= pods.
Proof.
  intros H. apply pods_required_of_inv in H as (required & Hreq & ->).
  unfold _calculate_required_pods in Hreq. unfold_result.
  destruct (workload_per_pod config <=? 0).
  - injection Hreq as <-. lia.
  - destruct (fdiv forecast _) as [ratio|e]; [|discriminate].
    destruct (math_ceil ratio) as [c|e]; [|discriminate].
    injection Hreq as <-. lia.
Qed.

Lemma scale_out_decision (self : ScalingAlgorithm) (now now_remaining : Z)
    (name : string) (forecast : pyfloat) (current : Z)
    (config : ScalingConfig) (pods : Z) :
  _is_in_cooldown self name (cooldown_period config) now = false ->
  pods_required_of forecast config = Ok pods ->
  current < pods ->
  calculate_scaling_decision self now now_remaining name forecast current
    config =
  Ok {| action := scale_out;
        target_replicas := Z.min pods (max_replicas config);
        current_replicas := current;
        predicted_workload := forecast;
        reason := Some (ScalingOut pods (Z.min pods (max_replicas config)));
        pods_surplus := None |}.
Proof.
  intros Hcool Hpods Hlt.
  apply pods_required_of_inv in Hpods as (required & Hreq & Heq).
  apply calculate_on_success.
  rewrite (body_outside_cooldown _ _ _ _ _ _ _ required Hcool Hreq).
  cbv zeta. rewrite <- Heq.
  replace (pods >? current) with true by lia. reflexivity.
Qed.

Lemma steady_decision (self : ScalingAlgorithm) (now now_remaining : Z)
    (name : string) (forecast : pyfloat) (current : Z)
    (config : ScalingConfig) :
  _is_in_cooldown self name (cooldown_period config) now = false ->
  pods_required_of forecast config = Ok current ->
  calculate_scaling_decision self now now_remaining name forecast current
    config = Ok (no_action_decision current forecast None).
Proof.
  intros Hcool Hpods.
  apply pods_required_of_inv in Hpods as (required & Hreq & Heq).
  apply calculate_on_success.
  rewrite (body_outside_cooldown _ _ _ _ _ _ _ required Hcool Hreq).
  cbv zeta. rewrite <- Heq.
  replace (current >? current) with false by lia.
  replace (current <? current) with false by lia.
  reflexivity.
Qed.

(** X1: Outside cooldown, when more pods are required than run, the decision is
    [scale_out] to the required count capped at [max_replicas].  The cap is
    applied whatever the current count is: the decision adds pods when the
    deployment runs fewer than [max_replicas], and when it already runs
    [max_replicas] or more the [scale_out] keeps or lowers the count. *)
Theorem scale_out_is_capped_at_max
    (self : ScalingAlgorithm) (now now_remaining : Z) (name : string)
    (forecast : pyfloat) (current : Z) (config : ScalingConfig) (pods : Z) :
  _is_in_cooldown self name (cooldown_period config) now = false ->
  pods_required_of forecast config = Ok pods ->
  current < pods ->
  let target := Z.min pods (max_replicas config) in
  calculate_scaling_decision self now now_remaining name forecast current
    config =
  Ok {| action := scale_out;
        target_replicas := target;
        current_replicas := current;
        predicted_workload := forecast;
        reason := Some (ScalingOut pods target);
        pods_surplus := None |}
  /\ target <= max_replicas config
  /\ (current < max_replicas config -> current < target)
  /\ (max_replicas config <= current -> target <= current).
Proof.
  intros Hcool Hpods Hlt target. split.
  - apply scale_out_decision; assumption.
  - subst target. lia.
Qed.

Lemma scale_out_is_capped_at_max_witness :
  calculate_scaling_decision ScalingAlgorithm_init 0 0 "web" (FFinite 1000) 8
    sample_config =
  Ok {| action := scale_out;
        target_replicas := 5;
        current_replicas := 8;
        predicted_workload := FFinite 1000;
        reason := Some (ScalingOut 10 5);
        pods_surplus := None |}.
Proof.
  destruct (scale_out_is_capped_at_max ScalingAlgorithm_init 0 0 "web"
              (FFinite 1000) 8 sample_config 10) as [H _].
  - reflexivity.
  - reflexivity.
  - lia.
  - exact H.
Defined.

(** X2: A removal strategy that is a text, as the loader stores when the policy
    names none, makes every scale-in fail inside the decision: the outcome is
    never [scale_in], and where pods would be removed it is [no_action] with
    a [TypeError] as reason.  Such a deployment is never scaled in. *)
Theorem text_strategy_never_scales_in
    (self : ScalingAlgorithm) (now now_remaining : Z) (name : string)
    (forecast : pyfloat) (current : Z) (c : crd) :
  resourceRemovalStrategy c = None ->
  let config := scaling_config (entry_of_crd c) in
  exists d,
    calculate_scaling_decision self now now_remaining name forecast current
      config = Ok d
    /\ action d <> scale_in
    /\ (forall pods,
          _is_in_cooldown self name (cooldown_period config) now = false ->
          pods_required_of forecast config = Ok pods ->
          pods < current ->
          d = no_action_decision current forecast
                (Some (ErrorInCalculation TypeError))).
Proof.
  intros Hnone config.
  assert (Hrrs : resource_removal_strategy config = RrsText "gradual").
  { subst config. simpl. rewrite Hnone. reflexivity. }
  destruct (_is_in_cooldown self name (cooldown_period config) now) eqn:Hcool.
  { eexists. split; [apply calculate_in_cooldown; exact Hcool|].
    split; [discriminate | intros; discriminate]. }
  destruct (_calculate_required_pods forecast (workload_per_pod config))
    as [required|e] eqn:Hreq.
  2:{ eexists. split.
      - apply calculate_on_error. unfold calculate_scaling_decision_body.
        rewrite Hcool, Hreq. reflexivity.
      - split; [discriminate|]. intros pods _ Hpods.
        unfold pods_required_of in Hpods. rewrite Hreq in Hpods.
        discriminate. }
  pose proof (body_outside_cooldown self now now_remaining name forecast
                current config required Hcool Hreq) as Hbody.
  cbv zeta in Hbody. rewrite Hrrs in Hbody. simpl ceil_of_share in Hbody.
  assert (Hpods : pods_required_of forecast config
                  = Ok (Z.max required (min_replicas config))).
  { unfold pods_required_of. rewrite Hreq. reflexivity. }
  set (p := Z.max required (min_replicas config)) in *.
  destruct (p >? current) eqn:Hout.
  { eexists. split; [apply calculate_on_success; exact Hbody|].
    split; [discriminate|]. intros pods _ Hp. rewrite Hpods in Hp.
    injection Hp as <-. lia. }
  destruct (p <? current) eqn:Hin.
  - eexists. split; [apply calculate_on_error; exact Hbody|].
    split; [discriminate | reflexivity].
  - eexists. split; [apply calculate_on_success; exact Hbody|].
    split; [discriminate|]. intros pods _ Hp. rewrite Hpods in Hp.
    injection Hp as <-. lia.
Qed.

Lemma text_strategy_never_scales_in_witness :
  calculate_scaling_decision ScalingAlgorithm_init 0 0 "web" (FFinite 150) 9
    (scaling_config (entry_of_crd bare_crd)) =
  Ok (no_action_decision 9 (FFinite 150)
        (Some (ErrorInCalculation TypeError))).
Proof.
  destruct (text_strategy_never_scales_in ScalingAlgorithm_init 0 0 "web"
              (FFinite 150) 9 bare_crd) as (d & Hd & _ & Hno).
  - reflexivity.
  - rewrite Hd. f_equal. apply (Hno 2).
    + reflexivity.
    + reflexivity.
    + lia.
Defined.

Lemma Qceiling_pos (x : Q) : (0 < x)%Q -> 0 < Qceiling x.
Proof.
  intros H. rewrite Zlt_Qlt. change (inject_Z 0) with 0%Q.
  eapply Qlt_le_trans; [exact H | apply Qle_ceiling].
Qed.

Lemma Qceiling_share (pool : Z) (r : Q) :
  0 <= pool -> (0 <= r)%Q -> (r <= 1)%Q ->
  0 <= Qceiling (inject_Z pool * r) <= pool.
Proof.
  intros Hpool H0 H1. split.
  - apply Qceiling_nonneg.
    apply Qmult_le_0_compat; [apply inject_Z_nonneg; exact Hpool | exact H0].
  - rewrite <- (Qceiling_Z pool) at 2. apply Qceiling_resp_le.
    rewrite <- (Qmult_1_r (inject_Z pool)) at 2.
    rewrite (Qmult_comm (inject_Z pool) r), (Qmult_comm (inject_Z pool) 1).
    apply Qmult_le_compat_r; [exact H1 | apply inject_Z_nonneg; exact Hpool].
Qed.

Lemma surplus_of_share (pool : Z) (r : Q) :
  0 < pool -> (0 <= r)%Q -> (r <= 1)%Q ->
  0 <= Qceiling (inject_Z pool * r) <= pool
  /\ ((0 < r)%Q -> 1 <= Qceiling (inject_Z pool * r))
  /\ ((r == 1)%Q -> Qceiling (inject_Z pool * r) = pool).
Proof.
  intros Hpool H0 H1.
  split; [apply Qceiling_share; [lia | exact H0 | exact H1]|]. split.
  - intros Hpos.
    assert (0 < Qceiling (inject_Z pool * r)); [|lia].
    apply Qceiling_pos. apply Qmult_lt_0_compat; [|exact Hpos].
    change 0%Q with (inject_Z 0). rewrite <- Zlt_Qlt. exact Hpool.
  - intros Hone. rewrite Hone, Qmult_1_r. apply Qceiling_Z.
Qed.

(** X3: With a removal fraction between 0 and 1 a scale-in never goes below the
    required pod count and never above the current one; a positive fraction
    removes at least one pod, and the fraction 1 lands on the required
    count. *)
Theorem scale_in_stays_between_required_and_current
    (self : ScalingAlgorithm) (now now_remaining : Z) (name : string)
    (forecast : pyfloat) (current : Z) (config : ScalingConfig)
    (pods : Z) (r : Q) :
  _is_in_cooldown self name (cooldown_period config) now = false ->
  pods_required_of forecast config = Ok pods ->
  resource_removal_strategy config = RrsNumber (FFinite r) ->
  (0 <= r)%Q -> (r <= 1)%Q ->
  pods < current ->
  exists d,
    calculate_scaling_decision self now now_remaining name forecast current
      config = Ok d
    /\ action d = scale_in
    /\ pods <= target_replicas d <= current
    /\ ((0 < r)%Q -> target_replicas d < current)
    /\ ((r == 1)%Q -> target_replicas d = pods).
Proof.
  intros Hcool Hpods Hrrs H0 H1 Hlt.
  destruct (pods_required_of_floor _ _ _ Hpods) as [_ Hmin].
  destruct (surplus_of_share (current - pods) r ltac:(lia) H0 H1)
    as (Hshare & Hprogress & Hall).
  eexists. split.
  { apply (scale_in_decision _ _ _ _ _ _ _ pods r); assumption. }
  simpl. split; [reflexivity|]. split; [lia|]. split.
  - intros Hpos. specialize (Hprogress Hpos). lia.
  - intros Hone. rewrite (Hall Hone). lia.
Qed.

Lemma scale_in_stays_between_witness :
  exists d,
    calculate_scaling_decision ScalingAlgorithm_init 0 0 "web" (FFinite 150)
      10 sample_config = Ok d
    /\ 2 <= target_replicas d < 10.
Proof.
  destruct (scale_in_stays_between_required_and_current ScalingAlgorithm_init
              0 0 "web" (FFinite 150) 10 sample_config 2 (1 # 2))
    as (d & Hd & _ & Hbounds & Hless & _).
  - reflexivity.
  - reflexivity.
  - reflexivity.
  - discriminate.
  - discriminate.
  - lia.
  - exists d. split; [exact Hd|]. split; [lia|]. apply Hless. reflexivity.
Defined.

(** ** More on cooldown *)



(** ** Repeated decisions under a steady forecast *)

Section Steady.

Variables (name : string) (config : ScalingConfig) (forecast : pyfloat).
Variables (pods : Z) (r : Q).
Hypothesis Hpods : pods_required_of forecast config = Ok pods.
Hypothesis Hrrs : resource_removal_strategy config = RrsNumber (FFinite r).
Hypothesis Hpos : (0 < r)%Q.
Hypothesis Hone : (r <= 1)%Q.
Hypothesis Hmax : pods <= max_replicas config.

Lemma fresh_not_in_cooldown (now : Z) :
  _is_in_cooldown ScalingAlgorithm_init name (cooldown_period config) now
  = false.
Proof. unfold _is_in_cooldown. simpl. rewrite lookup_empty. reflexivity. Qed.

Lemma replicas_after_below (current : Z) :
  current < pods -> replicas_after name config forecast current = pods.
Proof.
  intros Hlt. unfold replicas_after.
  rewrite (scale_out_decision ScalingAlgorithm_init 0 0 name forecast current
             config pods (fresh_not_in_cooldown 0) Hpods Hlt).
  simpl. lia.
Qed.

Lemma replicas_after_at :
  replicas_after name config forecast pods = pods.
Proof.
  unfold replicas_after.
  rewrite (steady_decision ScalingAlgorithm_init 0 0 name forecast pods config
             (fresh_not_in_cooldown 0) Hpods).
  reflexivity.
Qed.

Lemma replicas_after_above (current : Z) :
  pods < current ->
  pods <= replicas_after name config forecast current < current.
Proof.
  intros Hlt. unfold replicas_after.
  rewrite (scale_in_decision ScalingAlgorithm_init 0 0 name forecast current
             config pods r (fresh_not_in_cooldown 0) Hpods Hrrs Hlt).
  destruct (pods_required_of_floor _ _ _ Hpods) as [_ Hmin].
  destruct (surplus_of_share (current - pods) r ltac:(lia)
              (Qlt_le_weak _ _ Hpos) Hone) as (Hshare & Hprogress & _).
  specialize (Hprogress Hpos). simpl. lia.
Qed.

Lemma replicas_settled (n : nat) :
  replicas_after_cycles n name config forecast pods = pods.
Proof.
  induction n as [|n IH]; [reflexivity|].
  simpl. rewrite replicas_after_at. exact IH.
Qed.

End Steady.

(** X6: Under a steady forecast whose required pod count fits under
    [max_replicas], with a removal fraction in (0, 1], cycles that fall
    outside cooldown bring the deployment to exactly the required count
    within [max(1, current - required)] cycles, and keep it there. *)
Theorem replicas_settle_on_required
    (name : string) (config : ScalingConfig) (forecast : pyfloat)
    (pods : Z) (r : Q) (current : Z) (n : nat) :
  pods_required_of forecast config = Ok pods ->
  resource_removal_strategy config = RrsNumber (FFinite r) ->
  (0 < r)%Q -> (r <= 1)%Q ->
  pods <= max_replicas config ->
  (Z.to_nat (Z.max 1 (current - pods)) <= n)%nat ->
  replicas_after_cycles n name config forecast current = pods.
Proof.
  intros Hpods Hrrs Hpos Hone Hmax. revert current.
  induction n as [|n IH]; intros current Hn; [lia|].
  simpl.
  destruct (Z.compare_spec current pods) as [->|Hlt|Hgt].
  - rewrite (replicas_after_at name config forecast pods Hpods).
    apply (replicas_settled name config forecast pods Hpods).
  - rewrite (replicas_after_below name config forecast pods Hpods Hmax)
      by exact Hlt.
    apply (replicas_settled name config forecast pods Hpods).
  - pose proof (replicas_after_above name config forecast pods r Hpods Hrrs
                  Hpos Hone current Hgt) as Hstep.
    destruct (Z.eq_dec (replicas_after name config forecast current) pods)
      as [Heq|Hne].
    + rewrite Heq. apply (replicas_settled name config forecast pods Hpods).
    + apply IH. lia.
Qed.

Lemma replicas_settle_on_required_witness :
  replicas_after_cycles 8 "web" sample_config (FFinite 150) 10 = 2.
Proof.
  apply (replicas_settle_on_required "web" sample_config (FFinite 150) 2
           (1 # 2) 10 8).
  - reflexivity.
  - reflexivity.
  - reflexivity.
  - discriminate.
  - simpl. lia.
  - simpl. lia.
Defined.

(** ** More on the cycle *)

(** What a decision that asks for scaling looks like. *)
Lemma scaling_decision_inv (self : ScalingAlgorithm) (now now_remaining : Z)
    (name : string) (forecast : pyfloat) (current : Z)
    (config : ScalingConfig) (d : ScalingDecision) :
  calculate_scaling_decision self now now_remaining name forecast current
    config = Ok d ->
  is_scaling_action (action d) = true ->
  _is_in_cooldown self name (cooldown_period config) now = false
  /\ exists pods,
       pods_required_of forecast config = Ok pods
       /\ ((current < pods
            /\ target_replicas d = Z.min pods (max_replicas config))
           \/ (pods < current
               /\ exists surplus,
                    ceil_of_share (current - pods)
                      (resource_removal_strategy config) = Ok surplus
                    /\ target_replicas d =
                         Z.max (current - surplus) (min_replicas config))).
Proof.
  intros Hd Hact.
  destruct (_is_in_cooldown self name (cooldown_period config) now) eqn:Hcool.
  { rewrite calculate_in_cooldown in Hd by exact Hcool.
    injection Hd as <-. discriminate. }
  split; [reflexivity|].
  destruct (_calculate_required_pods forecast (workload_per_pod config))
    as [required|e] eqn:Hreq.
  2:{ rewrite (calculate_on_error _ _ _ _ _ _ _ e) in Hd.
      - injection Hd as <-. discriminate.
      - unfold calculate_scaling_decision_body. rewrite Hcool, Hreq.
        reflexivity. }
  pose proof (body_outside_cooldown self now now_remaining name forecast
                current config required Hcool Hreq) as Hbody.
  cbv zeta in Hbody.
  exists (Z.max required (min_replicas config)). split.
  { unfold pods_required_of. rewrite Hreq. reflexivity. }
  set (p := Z.max required (min_replicas config)) in *.
  destruct (p >? current) eqn:Hout.
  { rewrite (calculate_on_success _ _ _ _ _ _ _ _ Hbody) in Hd.
    injection Hd as <-. left. split; [lia | reflexivity]. }
  destruct (p <? current) eqn:Hin.
  2:{ rewrite (calculate_on_success _ _ _ _ _ _ _ _ Hbody) in Hd.
      injection Hd as <-. discriminate. }
  destruct (ceil_of_share (current - p) (resource_removal_strategy config))
    as [surplus|e] eqn:Hshare.
  - rewrite (calculate_on_success _ _ _ _ _ _ _ _ Hbody) in Hd.
    injection Hd as <-. right. split; [lia|].
    exists surplus. split; reflexivity.
  - rewrite (calculate_on_error _ _ _ _ _ _ _ _ Hbody) in Hd.
    injection Hd as <-. discriminate.
Qed.

(** X7: A cycle asks Kubernetes for a replica count only when its decision is
    [scale_out] or [scale_in], hence never during cooldown; and with
    [min_replicas <= max_replicas] the count it asks for is at least
    [min_replicas], so never 0 under a positive minimum, and, the removal
    fraction not being negative, at most the larger of [max_replicas] and
    the count it found running. *)
Theorem cycle_patches_within_limits
    (alg : ScalingAlgorithm) (name : string) (config : deployment_entry)
    (env : cycle_env) (n : Z) :
  res_patch (_process_deployment alg name config env) = Some n ->
  let policy := scaling_config config in
  _is_in_cooldown alg name (cooldown_period policy) (env_now_check env)
  = false
  /\ exists current d,
       env_replicas env = Some current
       /\ res_decision (_process_deployment alg name config env) = Some d
       /\ is_scaling_action (action d) = true
       /\ n = target_replicas d
       /\ (min_replicas policy <= max_replicas policy ->
           min_replicas policy <= n)
       /\ (min_replicas policy <= max_replicas policy ->
           removal_not_negative policy ->
           n <= Z.max current (max_replicas policy)).
Proof.
  intros Hpatch policy.
  destruct (process_deployment_ends alg name config env) as
    [report Hfail Hne
    | current f d Hrep Hpred Hd Hact Hok
    | current f d Hrep Hpred Hd Hact Hok
    | current f d Hrep Hpred Hd Hact];
    simpl in Hpatch; try discriminate; injection Hpatch as <-.
  all: destruct (scaling_decision_inv _ _ _ _ _ _ _ _ Hd Hact)
         as (Hcool & pods & Hpods & Hcase).
  all: split; [exact Hcool|].
  all: exists current, d; split; [exact Hrep|]; split; [reflexivity|].
  all: split; [exact Hact|]; split; [reflexivity|].
  all: destruct (pods_required_of_floor _ _ _ Hpods) as [_ Hfloor].
  all: fold policy in Hfloor, Hcase.
  all: destruct Hcase as [[Hlt ->] | (Hlt & surplus & Hshare & ->)].
  all: split; [intros; lia|]; intros Hminmax Hrrs; try lia.
  all: assert (0 <= surplus)
         by (eapply ceil_of_share_nonneg; [|exact Hrrs|exact Hshare]; lia).
  all: lia.
Qed.

Lemma cycle_patches_within_limits_witness :
  res_patch low_load_cycle = Some 4 /\ 1 <= 4.
Proof.
  destruct (cycle_patches_within_limits ScalingAlgorithm_init "web"
              never_remove_entry low_load 4)
    as (_ & current & d & _ & _ & _ & _ & Hmin & _).
  - reflexivity.
  - split; [reflexivity|]. apply Hmin. simpl. lia.
Defined.

(** ** The pass over the deployments *)

Lemma lookup_keep_or_drop (name k : string) (entry : deployment_entry)
    (registry : gmap string deployment_entry) :
  keep_or_drop name entry registry !! k =
    if decide (name = k)
    then (if error_count entry >? 10 then None else Some entry)
    else registry !! k.
Proof.
  unfold keep_or_drop.
  destruct (error_count entry >? 10).
  - rewrite lookup_delete, lookup_insert. destruct (decide (name = k));
      reflexivity.
  - apply lookup_insert.
Qed.

Lemma keep_or_drop_commute (n1 n2 : string) (e1 e2 : deployment_entry)
    (registry : gmap string deployment_entry) :
  n1 <> n2 ->
  keep_or_drop n2 e2 (keep_or_drop n1 e1 registry) =
  keep_or_drop n1 e1 (keep_or_drop n2 e2 registry).
Proof.
  intros Hne. apply map_eq. intros k.
  rewrite !lookup_keep_or_drop.
  destruct (decide (n2 = k)), (decide (n1 = k)); congruence.
Qed.

Lemma record_scaling_commute (n1 n2 : string) (r1 r2 : cycle_report)
    (t1 t2 : Z) (alg : ScalingAlgorithm) :
  n1 <> n2 ->
  record_scaling n2 r2 t2 (record_scaling n1 r1 t1 alg) =
  record_scaling n1 r1 t1 (record_scaling n2 r2 t2 alg).
Proof.
  intros Hne. destruct r1, r2; try reflexivity.
  simpl. f_equal. apply insert_insert_ne. congruence.
Qed.

Lemma lookup_record_scaling_ne (name other : string) (report : cycle_report)
    (t : Z) (alg : ScalingAlgorithm) :
  other <> name ->
  last_scaling_time (record_scaling name report t alg) !! other =
  last_scaling_time alg !! other.
Proof.
  intros Hne. destruct report; try reflexivity.
  simpl. apply lookup_insert_ne. congruence.
Qed.

(** A cycle reads the cooldown record of its own deployment only: two
    algorithms that agree on it give the same entry and the same report. *)
Lemma process_reads_own_record (a1 a2 : ScalingAlgorithm) (name : string)
    (config : deployment_entry) (env : cycle_env) :
  last_scaling_time a1 !! name = last_scaling_time a2 !! name ->
  res_entry (_process_deployment a1 name config env) =
    res_entry (_process_deployment a2 name config env)
  /\ res_report (_process_deployment a1 name config env) =
       res_report (_process_deployment a2 name config env).
Proof.
  intros Hsame. unfold _process_deployment, _process_deployment_body.
  destruct (env_replicas env) as [current|]; [|split; reflexivity].
  destruct (_get_historical_metrics (env_history env)) as [history|];
    [|split; reflexivity].
  unfold_result.
  destruct (py_last history) as [request|e]; [|split; reflexivity].
  destruct (current_request_value request) as [v|e]; [|split; reflexivity].
  destruct (env_prediction env) as [forecast|]; [|split; reflexivity].
  rewrite (decision_reads_own_entry a1 a2 name _ _ _ _ _ Hsame).
  destruct (calculate_scaling_decision a2 _ _ _ _ _ _) as [d|e];
    [|split; reflexivity].
  destruct (is_scaling_action (action d)); [|split; reflexivity].
  destruct (env_patch_ok env); split; reflexivity.
Qed.

Lemma run_deployment_unfold (self : operator) (name : string)
    (config : deployment_entry) (env : cycle_env) :
  monitored_deployments self !! name = Some config ->
  let r := _process_deployment (scaling_algorithm self) name config env in
  run_deployment self name env =
    {| monitored_deployments :=
         keep_or_drop name (res_entry r) (monitored_deployments self);
       scaling_algorithm :=
         record_scaling name (res_report r) (env_now_executed env)
           (scaling_algorithm self) |}.
Proof.
  intros Hcfg r. unfold run_deployment. rewrite Hcfg. fold r.
  unfold keep_or_drop. f_equal.
  subst r. rewrite algorithm_after_cycle. reflexivity.
Qed.

Lemma run_deployment_skip (self : operator) (name : string)
    (env : cycle_env) :
  monitored_deployments self !! name = None ->
  run_deployment self name env = self.
Proof. intros H. unfold run_deployment. rewrite H. reflexivity. Qed.

Lemma run_deployment_commute (self : operator) (n1 n2 : string)
    (e1 e2 : cycle_env) :
  n1 <> n2 ->
  run_deployment (run_deployment self n1 e1) n2 e2 =
  run_deployment (run_deployment self n2 e2) n1 e1.
Proof.
  intros Hne.
  destruct (monitored_deployments self !! n1) as [c1|] eqn:H1;
    destruct (monitored_deployments self !! n2) as [c2|] eqn:H2.
  - rewrite (run_deployment_unfold self n1 c1 e1 H1).
    rewrite (run_deployment_unfold self n2 c2 e2 H2). cbv zeta.
    set (a := scaling_algorithm self).
    set (r1 := _process_deployment a n1 c1 e1).
    set (r2 := _process_deployment a n2 c2 e2).
    erewrite (run_deployment_unfold _ n2 c2 e2);
      [|simpl; rewrite lookup_keep_or_drop;
        destruct (decide (n1 = n2)); [congruence | exact H2]].
    erewrite (run_deployment_unfold _ n1 c1 e1);
      [|simpl; rewrite lookup_keep_or_drop;
        destruct (decide (n2 = n1)); [congruence | exact H1]].
    cbv zeta. simpl.
    destruct (process_reads_own_record
                (record_scaling n1 (res_report r1) (env_now_executed e1) a)
                a n2 c2 e2) as [He2 Hr2].
    { apply lookup_record_scaling_ne. congruence. }
    destruct (process_reads_own_record
                (record_scaling n2 (res_report r2) (env_now_executed e2) a)
                a n1 c1 e1) as [He1 Hr1].
    { apply lookup_record_scaling_ne. congruence. }
    fold r1 in He1, Hr1. fold r2 in He2, Hr2.
    rewrite He1, He2, Hr1, Hr2. f_equal.
    + apply keep_or_drop_commute. exact Hne.
    + apply record_scaling_commute. exact Hne.
  - rewrite (run_deployment_skip self n2 e2 H2).
    apply run_deployment_skip.
    destruct (run_deployment_frame self n1 n2 e1) as [Hreg _]; [congruence|].
    rewrite Hreg. exact H2.
  - rewrite (run_deployment_skip self n1 e1 H1).
    symmetry. apply run_deployment_skip.
    destruct (run_deployment_frame self n2 n1 e2) as [Hreg _]; [congruence|].
    rewrite Hreg. exact H1.
  - rewrite (run_deployment_skip self n1 e1 H1).
    rewrite (run_deployment_skip self n2 e2 H2).
    rewrite (run_deployment_skip self n1 e1 H1). reflexivity.
Qed.

(** X8: The outcome of a pass does not depend on the order in which the
    snapshot lists the deployments. *)
Theorem pass_is_order_independent
    (names names' : list string) (envs : string -> cycle_env) :
  Permutation names names' ->
  forall self : operator,
    run_pass self names envs = run_pass self names' envs.
Proof.
  induction 1 as [|x l l' _ IH|x y l|l l' l'' _ IH1 _ IH2]; intros self.
  - reflexivity.
  - unfold run_pass in *. simpl. apply IH.
  - unfold run_pass. simpl.
    destruct (decide (y = x)) as [->|Hne]; [reflexivity|].
    rewrite (run_deployment_commute self y x) by exact Hne. reflexivity.
  - rewrite IH1. apply IH2.
Qed.

Lemma pass_is_order_independent_witness :
  run_pass sample_operator ["web"; "api"]%string (fun _ => metrics_down) =
  run_pass sample_operator ["api"; "web"]%string (fun _ => metrics_down).
Proof.
  apply (pass_is_order_independent ["web"; "api"]%string
           ["api"; "web"]%string (fun _ => metrics_down)).
  apply perm_swap.
Defined.

(** ** More on the policy reload *)

Lemma process_crd_inv (self after : operator) (c : crd) :
  _process_crd_configuration self c = Ok after ->
  exists name,
    targetDeployment c = Some name
    /\ after =
         {| monitored_deployments :=
              <[name := entry_of_crd c]> (monitored_deployments self);
            scaling_algorithm := scaling_algorithm self |}.
Proof.
  unfold _process_crd_configuration, _process_crd_configuration_body,
    try_except.
  destruct (targetDeployment c) as [name|] eqn:Htarget; simpl;
    [|discriminate].
  destruct (String.eqb name EmptyString); [discriminate|].
  destruct (missing (prometheusService c)); [discriminate|].
  intros [= <-]. exists name. split; reflexivity.
Qed.

Lemma load_items_cons (self : operator) (c : crd) (rest : list crd) :
  load_items self (c :: rest) =
    load_items
      (match _process_crd_configuration self c with
       | Ok after => after
       | Raise _ => self
       end) rest.
Proof. reflexivity. Qed.

Lemma load_items_frame (items : list crd) :
  forall self : operator,
    scaling_algorithm (load_items self items) = scaling_algorithm self
    /\ (forall name,
          is_Some (monitored_deployments self !! name) ->
          is_Some (monitored_deployments (load_items self items) !! name))
    /\ (forall name,
          (forall c, In c items -> targetDeployment c <> Some name) ->
          monitored_deployments (load_items self items) !! name =
            monitored_deployments self !! name).
Proof.
  induction items as [|c rest IH]; intros self.
  - repeat split; auto.
  - rewrite load_items_cons.
    destruct (_process_crd_configuration self c) as [after|e] eqn:Hc.
    + apply process_crd_inv in Hc as (target & Htarget & ->).
      destruct (IH {| monitored_deployments :=
                        <[target := entry_of_crd c]>
                          (monitored_deployments self);
                      scaling_algorithm := scaling_algorithm self |})
        as (Halg & Hkeep & Hframe).
      split; [exact Halg|]. split.
      * intros name Hsome. apply Hkeep. simpl.
        rewrite lookup_insert. destruct (decide (target = name)); eauto.
      * intros name Hother. rewrite Hframe.
        -- simpl. apply lookup_insert_ne. intros ->.
           apply (Hother c); [left; reflexivity | exact Htarget].
        -- intros c' Hin. apply Hother. right. exact Hin.
    + destruct (IH self) as (Halg & Hkeep & Hframe).
      split; [exact Halg|]. split; [exact Hkeep|].
      intros name Hother. apply Hframe.
      intros c' Hin. apply Hother. right. exact Hin.
Qed.

Lemma reload_cases (self : operator) (listing : result (list crd)) :
  _reload_crd_configurations self listing =
    match listing with
    | Ok items => load_items self items
    | Raise _ => self
    end.
Proof.
  unfold _reload_crd_configurations, _load_crd_configurations, try_except.
  unfold_result. destruct listing as [[|c rest]|e]; reflexivity.
Qed.

(** X9: A reload never drops a deployment from the registry, whatever the
    listing holds, and never touches the cooldown records; it leaves alone
    the entry of every deployment that no listed policy targets; and when the
    listing fails it changes nothing. *)
Theorem reload_only_adds_and_replaces
    (self : operator) (listing : result (list crd)) (name : string) :
  let after := _reload_crd_configurations self listing in
  scaling_algorithm after = scaling_algorithm self
  /\ (is_Some (monitored_deployments self !! name) ->
      is_Some (monitored_deployments after !! name))
  /\ ((forall items c,
         listing = Ok items -> In c items ->
         targetDeployment c <> Some name) ->
      monitored_deployments after !! name =
        monitored_deployments self !! name)
  /\ (forall e, listing = Raise e -> after = self).
Proof.
  intros after. subst after. rewrite reload_cases.
  destruct listing as [items|e].
  - destruct (load_items_frame items self) as (Halg & Hkeep & Hframe).
    split; [exact Halg|]. split; [apply Hkeep|].
    split; [|discriminate].
    intros Hother. apply Hframe. intros c Hin. eapply Hother; eauto.
  - repeat split; auto.
Qed.

Lemma reload_only_adds_and_replaces_witness :
  is_Some
    (monitored_deployments
       (_reload_crd_configurations operator_before_reload (Ok []))
       !! "web"%string).
Proof.
  destruct (reload_only_adds_and_replaces operator_before_reload (Ok []) "web")
    as (_ & Hkeep & _).
  apply Hkeep. eexists. reflexivity.
Defined.

Lemma failing_cycles_keep_records (name : string) (envs : list cycle_env) :
  forall self : operator,
    all_fail self name envs ->
    scaling_algorithm (run_cycles self name envs) = scaling_algorithm self.
Proof.
  induction envs as [|env rest IH]; intros self Hfail; [reflexivity|].
  destruct Hfail as [(config & Hcfg & Hrep) Hrest].
  rewrite run_cycles_cons, (IH _ Hrest).
  destruct (run_deployment_monitored self name config env Hcfg) as [_ Halg].
  cbv zeta in Halg. rewrite Halg, algorithm_after_cycle.
  destruct (res_report _); try reflexivity; discriminate.
Qed.

(** X10: A deployment evicted after eleven failing cycles comes back with the
    next reload that lists a policy for it: it is monitored again, its error
    counter is 0, and the cooldown record it had before is still in force. *)
Theorem evicted_deployment_returns_on_reload
    (self : operator) (name : string) (config : deployment_entry)
    (envs : list cycle_env) (c : crd) :
  monitored_deployments self !! name = Some config ->
  error_count config = 0 ->
  all_fail self name envs ->
  length envs = 11%nat ->
  targetDeployment c = Some name ->
  name <> EmptyString ->
  missing (prometheusService c) = false ->
  let evicted := run_cycles self name envs in
  let back := _reload_crd_configurations evicted (Ok [c]) in
  monitored_deployments evicted !! name = None
  /\ monitored_deployments back !! name = Some (entry_of_crd c)
  /\ error_count (entry_of_crd c) = 0
  /\ last_scaling_time (scaling_algorithm back) !! name =
       last_scaling_time (scaling_algorithm self) !! name.
Proof.
  intros Hcfg Hzero Hfail Hlen Htarget Hname Hservice evicted back.
  destruct (consecutive_failures name envs self config Hcfg ltac:(lia) Hfail)
    as [_ Hgone].
  split; [apply Hgone; lia|].
  subst back. rewrite reload_cases, load_items_cons.
  rewrite (process_crd_valid evicted c name Htarget Hname Hservice).
  simpl. split; [apply lookup_insert_eq|]. split; [reflexivity|].
  subst evicted. rewrite (failing_cycles_keep_records name envs self Hfail).
  reflexivity.
Qed.

Lemma evicted_deployment_returns_witness :
  monitored_deployments
    (_reload_crd_configurations
       (run_cycles sample_operator "web" (repeat metrics_down 11))
       (Ok [sample_crd]))
    !! "web"%string = Some (entry_of_crd sample_crd).
Proof.
  destruct (evicted_deployment_returns_on_reload sample_operator "web"
              sample_entry (repeat metrics_down 11) sample_crd)
    as (_ & Hback & _).
  - reflexivity.
  - reflexivity.
  - apply all_fail_metrics_down.
    + intros config Hcfg. simpl in Hcfg.
      rewrite lookup_singleton_eq in Hcfg. injection Hcfg as <-.
      simpl. lia.
    + eexists. reflexivity.
  - reflexivity.
  - reflexivity.
  - discriminate.
  - reflexivity.
  - exact Hback.
Defined.

(** X11: A window length that is not positive gives an empty window, which the
    cycle takes for missing data: whatever Prometheus answers, the cycle
    ends on "no historical data", counts an error and asks for no
    scaling. *)
Theorem empty_window_counts_as_failure
    (alg : ScalingAlgorithm) (name : string) (config : deployment_entry)
    (env : cycle_env) (current end_time : Z) (answer : option response) :
  window_minutes (query_config config) <= 0 ->
  env_replicas env = Some current ->
  env_history env =
    get_historical_workload end_time (query_config config) answer ->
  let r := _process_deployment alg name config env in
  res_report r = NoHistoricalData
  /\ error_count (res_entry r) = error_count config + 1
  /\ res_patch r = None
  /\ res_algorithm r = alg.
Proof.
  intros Hn Hrep Hhist r.
  assert (Hnone : _get_historical_metrics (env_history env) = None).
  { rewrite Hhist. unfold get_historical_workload.
    destruct answer as [data|]; [|reflexivity].
    replace (Z.to_nat (window_minutes (query_config config))) with 0%nat
      by lia.
    unfold expected_timestamps, py_range.
    replace (Z.to_nat (window_minutes (query_config config))) with 0%nat
      by lia.
    destruct (_parse_query_result data); reflexivity. }
  subst r. unfold _process_deployment, _process_deployment_body.
  rewrite Hrep, Hnone. repeat split; reflexivity.
Qed.

Lemma empty_window_counts_as_failure_witness :
  res_report
    (_process_deployment ScalingAlgorithm_init "web" zero_window_entry
       zero_window_cycle) = NoHistoricalData.
Proof.
  destruct (empty_window_counts_as_failure ScalingAlgorithm_init "web"
              zero_window_entry zero_window_cycle 3 (minutes 100)
              (Some (two_samples (minutes 100)))) as [H _].
  - simpl. lia.
  - reflexivity.
  - reflexivity.
  - exact H.
Defined.

(** ** More on the forecast validator *)

Lemma flt_nan_r (x : pyfloat) : flt x FNaN = false.
Proof. destruct x; reflexivity. Qed.

Lemma flt_trans (a b c : pyfloat) :
  flt a b = true -> flt b c = true -> flt a c = true.
Proof.
  destruct a as [qa| | |], b as [qb| | |], c as [qc| | |]; simpl;
    try discriminate; try reflexivity.
  rewrite !Qltb_lt. apply Qlt_trans.
Qed.

(** X12: A [nan] forecast passes the validator on every well-shaped window: none
    of its comparisons holds for [nan]. *)
Theorem validator_lets_nan_through
    (values : list pyfloat) (thresholds : ValidationThresholds) :
  _validate_prediction FNaN (window_rows values) thresholds = Ok true.
Proof.
  rewrite validate_prediction_spec.
  unfold rejects_by_spec, spike_rejects, mean_rejects, fgt.
  destruct (last values); destruct values;
    rewrite ?flt_nan_r, ?andb_false_r; reflexivity.
Qed.

(** X13: Acceptance is closed downwards: when a forecast is accepted on a
    window, every smaller forecast that is not below 0 is accepted on it
    too. *)
Theorem validator_accepts_smaller_forecasts
    (forecast smaller : pyfloat) (values : list pyfloat)
    (thresholds : ValidationThresholds) :
  _validate_prediction forecast (window_rows values) thresholds = Ok true ->
  flt smaller forecast = true ->
  flt smaller fzero = false ->
  _validate_prediction smaller (window_rows values) thresholds = Ok true.
Proof.
  rewrite !validate_prediction_spec. intros [= Hacc] Hlt Hpos.
  f_equal. apply negb_true_iff in Hacc. apply negb_true_iff.
  unfold rejects_by_spec in *. rewrite Hpos. simpl.
  apply orb_false_iff in Hacc as [Hacc Hmean].
  apply orb_false_iff in Hacc as [_ Hspike].
  apply orb_false_iff. split.
  - unfold spike_rejects in *.
    destruct (last values) as [current|]; [|reflexivity].
    destruct (fgt current fzero); [|reflexivity]. simpl in *.
    unfold fgt in *.
    destruct (flt (fmul current (max_spike_multiplier thresholds)) smaller)
      eqn:Hs; [|reflexivity].
    rewrite (flt_trans _ _ _ Hs Hlt) in Hspike. discriminate.
  - unfold mean_rejects in *. destruct values as [|v rest]; [reflexivity|].
    destruct (fgt (fmean (v :: rest)) fzero); [|reflexivity]. simpl in *.
    unfold fgt in *.
    destruct (flt (fmul (fmean (v :: rest))
                     (max_historical_multiplier thresholds)) smaller)
      eqn:Hs; [|reflexivity].
    rewrite (flt_trans _ _ _ Hs Hlt) in Hmean. discriminate.
Qed.

Lemma validator_accepts_smaller_forecasts_witness :
  _validate_prediction (FFinite 15) (window_rows (repeat (FFinite 10) 10))
    default_thresholds = Ok true.
Proof.
  apply (validator_accepts_smaller_forecasts (FFinite 20) (FFinite 15)
           (repeat (FFinite 10) 10) default_thresholds).
  - vm_compute. reflexivity.
  - reflexivity.
  - reflexivity.
Defined.

Lemma fold_fadd_no_load (values : list pyfloat) :
  forall q, (q <= 0)%Q ->
    Forall no_load values ->
    no_load (fold_left fadd values (FFinite q)).
Proof.
  induction values as [|v rest IH]; intros q Hq Hall.
  - exists q. split; [reflexivity | exact Hq].
  - inversion Hall as [|? ? (qv & -> & Hqv) Hrest]; subst. simpl.
    apply IH; [|exact Hrest].
    rewrite <- (Qplus_0_r 0). apply Qplus_le_compat; assumption.
Qed.

Lemma fmean_no_load (v : pyfloat) (rest : list pyfloat) :
  Forall no_load (v :: rest) -> no_load (fmean (v :: rest)).
Proof.
  intros Hall.
  destruct (fold_fadd_no_load (v :: rest) 0 ltac:(discriminate) Hall)
    as (q & Hsum & Hq).
  unfold fmean, fsum, fzero. rewrite Hsum.
  change (length (v :: rest)) with (S (length rest)).
  unfold fdiv, float_of_int.
  assert (Hn : (0 < inject_Z (Z.of_nat (S (length rest))))%Q).
  { change 0%Q with (inject_Z 0). rewrite <- Zlt_Qlt. lia. }
  assert (Hcmp : (inject_Z (Z.of_nat (S (length rest))) ?= 0)%Q = Gt)
    by (rewrite <- Qgt_alt; exact Hn).
  rewrite Hcmp. eexists. split; [reflexivity|].
  apply Qle_shift_div_r; [exact Hn|]. rewrite Qmult_0_l. exact Hq.
Qed.

Lemma no_load_not_positive (v : pyfloat) : no_load v -> fgt v fzero = false.
Proof.
  intros (q & -> & Hq). unfold fgt, fzero. simpl.
  destruct (Qltb 0 q) eqn:H; [|reflexivity].
  apply Qltb_lt in H. exfalso. apply (Qlt_not_le _ _ H Hq).
Qed.

Lemma last_Forall {A : Type} (P : A -> Prop) (l : list A) (x : A) :
  Forall P l -> last l = Some x -> P x.
Proof.
  induction l as [|y [|z rest] IH]; intros Hall Hlast.
  - discriminate.
  - injection Hlast as <-. inversion Hall; assumption.
  - apply IH; [inversion Hall; assumption | exact Hlast].
Qed.

(** X14: On a window that shows no load at all both sanity bounds are switched
    off: every forecast that is not below 0 is accepted, however large. *)
Theorem validator_has_no_bound_on_idle_history
    (forecast : pyfloat) (values : list pyfloat)
    (thresholds : ValidationThresholds) :
  Forall no_load values ->
  flt forecast fzero = false ->
  _validate_prediction forecast (window_rows values) thresholds = Ok true.
Proof.
  intros Hall Hpos. rewrite validate_prediction_spec.
  unfold rejects_by_spec. rewrite Hpos. simpl. f_equal.
  apply negb_true_iff, orb_false_iff. split.
  - unfold spike_rejects. destruct (last values) as [current|] eqn:Hlast;
      [|reflexivity].
    rewrite (no_load_not_positive current (last_Forall _ _ _ Hall Hlast)).
    reflexivity.
  - unfold mean_rejects. destruct values as [|v rest]; [reflexivity|].
    rewrite (no_load_not_positive _ (fmean_no_load v rest Hall)).
    reflexivity.
Qed.

Lemma validator_has_no_bound_witness :
  _validate_prediction FPosInf (window_rows (repeat fzero 10))
    default_thresholds = Ok true.
Proof.
  apply (validator_has_no_bound_on_idle_history FPosInf (repeat fzero 10)
           default_thresholds).
  - apply List.Forall_forall. intros v Hv. apply List.repeat_spec in Hv.
    subst v. exists 0%Q. split; [reflexivity | discriminate].
  - reflexivity.
Defined.

(** ** More on the history window *)

Lemma insert_by_time_ascending (x : sample) (l : list sample) :
  ascending l -> ascending (insert_by_time x l).
Proof.
  induction l as [|y rest IH]; intros Hl.
  - simpl. split; [intros y [] | exact I].
  - simpl. destruct (fst x <=? fst y) eqn:Hxy.
    + split; [|exact Hl].
      intros z [<-|Hz]; [lia|].
      destruct Hl as [Hy _]. specialize (Hy z Hz). lia.
    + destruct Hl as [Hy Hrest]. split; [|apply IH; exact Hrest].
      intros z Hz.
      apply (Permutation_in _ (insert_by_time_perm x rest)) in Hz.
      destruct Hz as [<-|Hz]; [lia | apply Hy; exact Hz].
Qed.

Lemma sort_by_time_ascending (l : list sample) : ascending (sort_by_time l).
Proof.
  induction l as [|x rest IH]; [exact I|].
  simpl. apply insert_by_time_ascending. exact IH.
Qed.

Lemma parse_samples_unreadable (l : list raw_sample) (p : raw_sample) :
  In p l -> unreadable p -> exists e, parse_samples l = Raise e.
Proof.
  induction l as [|x rest IH]; intros Hin Hbad; [destruct Hin|].
  simpl. unfold_result.
  destruct (parse_sample x) as [s|e] eqn:Hx; [|eauto].
  destruct Hin as [->|Hin].
  - exfalso. unfold parse_sample in Hx. unfold_result.
    destruct p as [t v]. destruct Hbad as [Ht|Hv]; simpl in *; subst.
    + discriminate.
    + destruct t; discriminate.
  - destruct (IH Hin Hbad) as [e ->]. eauto.
Qed.

Lemma parse_all_unreadable (ss : list series) (s : series) :
  In s ss -> (exists e, parse_series s = Raise e) ->
  exists e, parse_all ss = Raise e.
Proof.
  induction ss as [|x rest IH]; intros Hin Hbad; [destruct Hin|].
  simpl. unfold_result.
  destruct Hin as [->|Hin].
  - destruct Hbad as [e ->]. eauto.
  - destruct (parse_series x); [|eauto].
    destruct (IH Hin Hbad) as [e ->]. eauto.
Qed.

(** X15: The parsed samples come out in ascending order of time, whatever the
    order of the series and of their samples in the response. *)
Theorem parsed_samples_ascend (data : response) :
  ascending (_parse_query_result data).
Proof.
  unfold _parse_query_result.
  destruct (parse_all (result_data data)); [|exact I].
  apply sort_by_time_ascending.
Qed.

(** X16: One unreadable sample in a range series makes the parser give up the
    whole response: nothing is parsed, and the window is all zeros, the
    readable samples being lost with it. *)
Theorem one_unreadable_sample_empties_the_window
    (end_time : Z) (qc : QueryConfig) (data : response) (s : series)
    (l : list raw_sample) (p : raw_sample) :
  In s (result_data data) ->
  series_value s = None ->
  series_values s = Some l ->
  In p l ->
  unreadable p ->
  _parse_query_result data = []
  /\ get_historical_workload end_time qc (Some data) =
       Some (repeat (Bare fzero) (Z.to_nat (window_minutes qc))).
Proof.
  intros Hs Hvalue Hvalues Hp Hbad.
  assert (Hnone : _parse_query_result data = []).
  { unfold _parse_query_result.
    destruct (parse_all_unreadable (result_data data) s Hs) as [e ->];
      [|reflexivity].
    unfold parse_series. rewrite Hvalue, Hvalues.
    eapply parse_samples_unreadable; eassumption. }
  split; [exact Hnone|]. apply window_when_nothing_parsed. exact Hnone.
Qed.

Lemma one_unreadable_sample_witness :
  get_historical_workload (minutes 100) (window_of 2) (Some one_bad_sample)
  = Some [Bare fzero; Bare fzero].
Proof.
  destruct (one_unreadable_sample_empties_the_window (minutes 100)
              (window_of 2) one_bad_sample
              {| series_value := None;
                 series_values :=
                   Some [ (RawTime (minutes 99), RawFloat (FFinite 5));
                          (RawTime (minutes 100), RawInvalid) ] |}
              [ (RawTime (minutes 99), RawFloat (FFinite 5));
                (RawTime (minutes 100), RawInvalid) ]
              (RawTime (minutes 100), RawInvalid)) as [_ H].
  - left. reflexivity.
  - reflexivity.
  - reflexivity.
  - right. left. reflexivity.
  - right. reflexivity.
  - exact H.
Defined.

Lemma closest_fold_keeps (slot : Z) (v : pyfloat) (d : Z)
    (rest : list sample) :
  (forall p, In p rest -> d <= distance (fst p) slot) ->
  fold_left (closest_step slot) rest (v, Some d) = (v, Some d).
Proof.
  induction rest as [|p rest IH]; intros Hfar; [reflexivity|].
  simpl. unfold closest_step at 2. simpl.
  pose proof (Hfar p (or_introl eq_refl)) as Hp. unfold distance in Hp.
  replace (Z.abs (fst p - slot) <? d) with false by lia. simpl.
  apply IH. intros q Hq. apply Hfar. right. exact Hq.
Qed.

(** X17: The alignment takes, for a slot, the first of the parsed samples that
    are closest to it within 30 seconds: a sample wins when every sample
    listed before it is strictly farther from the slot and none listed after
    it is closer.  Parsed samples being in ascending order of time, of two
    samples equally close the earlier one gives its value. *)
Theorem first_closest_sample_wins
    (slot ts : Z) (v : pyfloat) (before after : list sample) :
  distance ts slot <= tolerance ->
  (forall p, In p before -> distance ts slot < distance (fst p) slot) ->
  (forall p, In p after -> distance ts slot <= distance (fst p) slot) ->
  closest_value slot (before ++ (ts, v) :: after) = v.
Proof.
  intros Hnear Hbefore Hafter. unfold closest_value.
  rewrite fold_left_app. simpl.
  pose proof (closest_fold_inv slot before [] (fzero, None)
                (closest_inv_init slot)) as Hinv.
  simpl app in Hinv.
  destruct (fold_left (closest_step slot) before (fzero, None))
    as [v0 [d0|]]; unfold closest_inv in Hinv; simpl in Hinv.
  - destruct Hinv as (_ & (ts0 & Hin & Hd0) & _).
    specialize (Hbefore _ Hin). simpl in Hbefore.
    unfold closest_step at 2. simpl. unfold distance in *.
    replace (Z.abs (ts - slot) <? d0) with true by lia.
    replace (Z.abs (ts - slot) <=? tolerance) with true by lia. simpl.
    rewrite closest_fold_keeps; [reflexivity | exact Hafter].
  - unfold closest_step at 2. simpl. unfold distance in *.
    replace (Z.abs (ts - slot) <=? tolerance) with true by lia. simpl.
    rewrite closest_fold_keeps; [reflexivity | exact Hafter].
Qed.

Lemma first_closest_sample_wins_witness :
  closest_value (minutes 100)
    [(minutes 100 - microseconds 10, FFinite 5);
     (minutes 100 + microseconds 10, FFinite 7)] = FFinite 5.
Proof.
  apply (first_closest_sample_wins (minutes 100)
           (minutes 100 - microseconds 10) (FFinite 5) []
           [(minutes 100 + microseconds 10, FFinite 7)]).
  - vm_compute. discriminate.
  - intros p [].
  - intros p [<-|[]]. vm_compute. discriminate.
Defined.

Lemma expected_timestamps_nth_inv (end_time n : Z) (i : nat) (slot : Z) :
  nth_error (expected_timestamps end_time n) i = Some slot ->
  slot = end_time - minutes (n - 1 - Z.of_nat i).
Proof.
  intros H.
  assert (Hi : (i < Z.to_nat n)%nat).
  { rewrite <- (expected_timestamps_length end_time n).
    apply List.nth_error_Some. rewrite H. discriminate. }
  rewrite (expected_timestamps_nth end_time n i Hi) in H.
  injection H as <-. reflexivity.
Qed.

(** X18: The slots of a window are a minute apart and the tolerance is half a
    minute: a sample strictly within 30 seconds of a slot is out of the
    tolerance of every other slot, so it gives its value to one slot at
    most. *)
Theorem sample_serves_one_slot
    (end_time n : Z) (i j : nat) (slot other ts : Z) :
  nth_error (expected_timestamps end_time n) i = Some slot ->
  nth_error (expected_timestamps end_time n) j = Some other ->
  i <> j ->
  distance ts slot < tolerance ->
  tolerance < distance ts other.
Proof.
  intros Hi Hj Hne.
  apply expected_timestamps_nth_inv in Hi, Hj. subst slot other.
  unfold distance, tolerance, minutes, microseconds. lia.
Qed.

Lemma sample_serves_one_slot_witness :
  tolerance < distance (minutes 100 - microseconds 20)
                (minutes 100 - minutes 1).
Proof.
  apply (sample_serves_one_slot (minutes 100) 10 9 8 (minutes 100)
           (minutes 100 - minutes 1) (minutes 100 - microseconds 20)).
  - reflexivity.
  - reflexivity.
  - lia.
  - vm_compute. reflexivity.
Defined.

(** ** The ranged query and its retries *)

Lemma attempts_transport_prefix (outcome : Z -> attempt_outcome)
    (clock : Z -> Z) (self : PrometheusClient) (k : nat) :
  forall (first more : nat) (slept : list Z),
    (forall i, (first <= i < first + k)%nat ->
               outcome (Z.of_nat i) = TransportFailed) ->
    Z.of_nat (first + k) <= max_retries self - 1 ->
    attempts outcome clock (attempts_from first (k + more)) self slept =
    attempts outcome clock (attempts_from (first + k) more) self
      (slept ++ map (Z.pow 2) (attempts_from first k)).
Proof.
  induction k as [|k IH]; intros first more slept Hall Hlimit.
  - simpl. rewrite Nat.add_0_r, app_nil_r. reflexivity.
  - change (attempts_from first (S k + more))
      with (Z.of_nat first :: attempts_from (S first) (k + more)).
    cbn [attempts]. rewrite (Hall first) by lia.
    replace (Z.of_nat first <? max_retries self - 1) with true by lia.
    rewrite (IH (S first) more).
    + replace (S first + k)%nat with (first + S k)%nat by lia.
      f_equal. rewrite <- app_assoc. reflexivity.
    + intros i Hi. apply Hall. lia.
    + lia.
Qed.

Lemma py_range_attempts (n : Z) : py_range n = attempts_from 0 (Z.to_nat n).
Proof. reflexivity. Qed.

Lemma attempts_from_cons (first count : nat) :
  attempts_from first (S count) =
    Z.of_nat first :: attempts_from (S first) count.
Proof. reflexivity. Qed.

Lemma total_sleep_backoff (k : nat) :
  total_sleep (map (Z.pow 2) (attempts_from 0 k)) = 2 ^ Z.of_nat k - 1.
Proof.
  induction k as [|k IH]; [reflexivity|].
  unfold attempts_from in *. rewrite seq_S, !map_app.
  unfold total_sleep in *. rewrite fold_right_app. simpl.
  assert (Hshift : forall (l : list Z) (a : Z),
            fold_right Z.add a l = fold_right Z.add 0 l + a).
  { induction l as [|x l IHl]; intros a; simpl; [lia|].
    rewrite IHl. lia. }
  rewrite Hshift, IH.
  rewrite Nat2Z.inj_succ, Z.pow_succ_r by lia. lia.
Qed.

(** X19: When every attempt meets a transport failure the query gives up after
    [max_retries] attempts: it returns nothing, has slept 1, 2, 4, ...
    seconds between the attempts and not after the last, in total
    [2^(max_retries - 1) - 1] seconds, and counts one failure. *)
Theorem query_gives_up_after_backoff
    (self : PrometheusClient) (outcome : Z -> attempt_outcome)
    (clock : Z -> Z) :
  0 < max_retries self ->
  (forall a, 0 <= a < max_retries self -> outcome a = TransportFailed) ->
  let r := _execute_range_query self outcome clock in
  run_answer r = None
  /\ run_client r = note_failure self
  /\ run_sleeps r =
       map (Z.pow 2) (py_range (max_retries self - 1))
  /\ total_sleep (run_sleeps r) = 2 ^ (max_retries self - 1) - 1.
Proof.
  intros Hpos Hall r. subst r. unfold _execute_range_query.
  rewrite py_range_attempts.
  remember (Z.to_nat (max_retries self)) as n eqn:Hn.
  assert (Hmax : max_retries self = Z.of_nat n) by lia. clear Hn.
  destruct n as [|k]; [lia|].
  assert (Hrun : attempts outcome clock (attempts_from 0 (S k)) self [] =
                 {| run_answer := None;
                    run_client := note_failure self;
                    run_sleeps := map (Z.pow 2) (attempts_from 0 k) |}).
  { replace (S k) with (k + 1)%nat by lia.
    rewrite (attempts_transport_prefix outcome clock self k 0 1 []).
    - simpl Nat.add. rewrite attempts_from_cons. cbn [attempts attempts_from].
      rewrite Hall by lia.
      replace (Z.of_nat k <? max_retries self - 1) with false by lia.
      reflexivity.
    - intros i Hi. apply Hall. lia.
    - lia. }
  rewrite Hrun. simpl.
  assert (Hk : Z.to_nat (max_retries self - 1) = k) by lia.
  split; [reflexivity|]. split; [reflexivity|]. split.
  - rewrite py_range_attempts, Hk. reflexivity.
  - rewrite total_sleep_backoff. f_equal. f_equal. lia.
Qed.

Lemma query_gives_up_after_backoff_witness :
  run_sleeps (_execute_range_query fresh_client (fun _ => TransportFailed)
                (fun _ => 0)) = [1; 2; 4; 8].
Proof.
  destruct (query_gives_up_after_backoff fresh_client
              (fun _ => TransportFailed) (fun _ => 0))
    as (_ & _ & Hsleeps & _).
  - reflexivity.
  - reflexivity.
  - rewrite Hsleeps. reflexivity.
Defined.

(** X20: The first attempt that does not meet a transport failure settles the
    query: an answer is returned and marks the client healthy with no failure
    counted; any other failure ends the query at once with one failure
    counted.  In both cases the query has slept 1, 2, 4, ... seconds, once
    for each earlier attempt, and later attempts are not made. *)
Theorem query_ends_at_first_settled_attempt
    (self : PrometheusClient) (outcome : Z -> attempt_outcome)
    (clock : Z -> Z) (k : nat) :
  Z.of_nat k < max_retries self ->
  (forall i, (i < k)%nat -> outcome (Z.of_nat i) = TransportFailed) ->
  let r := _execute_range_query self outcome clock in
  (forall data,
     outcome (Z.of_nat k) = Answered data ->
     r = {| run_answer := Some data;
            run_client := note_success self (clock (Z.of_nat k));
            run_sleeps := map (Z.pow 2) (attempts_from 0 k) |})
  /\ (outcome (Z.of_nat k) = OtherwiseFailed ->
      r = {| run_answer := None;
             run_client := note_failure self;
             run_sleeps := map (Z.pow 2) (attempts_from 0 k) |}).
Proof.
  intros Hk Hall r. subst r. unfold _execute_range_query.
  rewrite py_range_attempts.
  remember (Z.to_nat (max_retries self)) as n eqn:Hn.
  assert (Hmax : max_retries self = Z.of_nat n) by lia. clear Hn.
  replace n with (k + S (n - k - 1))%nat by lia.
  rewrite (attempts_transport_prefix outcome clock self k 0 (S (n - k - 1)) []).
  2:{ intros i Hi. apply Hall. lia. }
  2:{ lia. }
  simpl Nat.add. rewrite attempts_from_cons. cbn [attempts app].
  split.
  - intros data ->. reflexivity.
  - intros ->. reflexivity.
Qed.

Lemma query_ends_at_first_settled_attempt_witness :
  _execute_range_query fresh_client
    (fun a => if a <? 2 then TransportFailed else OtherwiseFailed)
    (fun _ => 0) =
  {| run_answer := None;
     run_client := note_failure fresh_client;
     run_sleeps := [1; 2] |}.
Proof.
  destruct (query_ends_at_first_settled_attempt fresh_client
              (fun a => if a <? 2 then TransportFailed else OtherwiseFailed)
              (fun _ => 0) 2) as [_ H].
  - simpl. lia.
  - intros i Hi. replace (Z.of_nat i <? 2) with true by lia. reflexivity.
  - apply H. reflexivity.
Defined.

Lemma attempts_count_one_failure (self : PrometheusClient)
    (outcome : Z -> attempt_outcome) (clock : Z -> Z) (count : nat) :
  forall (first : nat) (slept : list Z),
    Z.of_nat (first + count) = max_retries self ->
    (0 < count)%nat ->
    let r := attempts outcome clock (attempts_from first count) self slept in
    (exists data k,
       run_answer r = Some data
       /\ 0 <= k < max_retries self
       /\ outcome k = Answered data
       /\ run_client r = note_success self (clock k))
    \/ (run_answer r = None /\ run_client r = note_failure self).
Proof.
  induction count as [|count IH]; intros first slept Hsum Hcount; [lia|].
  rewrite attempts_from_cons. cbn [attempts].
  destruct (outcome (Z.of_nat first)) as [data| |] eqn:Hout.
  - left. exists data, (Z.of_nat first). simpl.
    repeat split; try lia. exact Hout.
  - destruct (Z.of_nat first <? max_retries self - 1) eqn:Hlast.
    + apply IH; lia.
    + assert (count = 0%nat) as -> by lia. right. split; reflexivity.
  - right. split; reflexivity.
Qed.

(** X21: A call of the ranged query counts at most one failure however many
    attempts it makes: either it returns the answer of one of its attempts
    and leaves the client healthy with the count at 0, or it returns nothing
    and leaves it unhealthy with the count one higher.  Only with
    [max_retries <= 0] it returns nothing without an attempt and without a
    trace. *)
Theorem query_counts_one_failure_per_call
    (self : PrometheusClient) (outcome : Z -> attempt_outcome)
    (clock : Z -> Z) :
  let r := _execute_range_query self outcome clock in
  (max_retries self <= 0 ->
   r = {| run_answer := None; run_client := self; run_sleeps := [] |})
  /\ (0 < max_retries self ->
      (exists data k,
         run_answer r = Some data
         /\ 0 <= k < max_retries self
         /\ outcome k = Answered data
         /\ run_client r = note_success self (clock k))
      \/ (run_answer r = None /\ run_client r = note_failure self)).
Proof.
  intros r. subst r. unfold _execute_range_query. split.
  - intros Hn. unfold py_range.
    replace (Z.to_nat (max_retries self)) with 0%nat by lia. reflexivity.
  - intros Hn. rewrite py_range_attempts.
    apply attempts_count_one_failure; lia.
Qed.

Lemma query_counts_one_failure_witness :
  failures_so_far
    (run_client (_execute_range_query fresh_client (fun _ => TransportFailed)
                   (fun _ => 0))) = 1.
Proof.
  destruct (query_counts_one_failure_per_call fresh_client
              (fun _ => TransportFailed) (fun _ => 0)) as [_ H].
  destruct H as [(data & k & Hsome & _) | [_ Hclient]].
  - reflexivity.
  - discriminate Hsome.
  - rewrite Hclient. reflexivity.
Defined.

(** ** The query template *)

Lemma fallback_template_lacks_a_key (service : string) :
  py_format fallback_query_template [("service"%string, service)] =
  MissingKey "service_name".
Proof. reflexivity. Qed.

Lemma append_empty_r (s : string) : (s ++ EmptyString)%string = s.
Proof.
  induction s as [|c s IH]; [reflexivity|].
  change (String c s ++ EmptyString)%string
    with (String c (s ++ EmptyString)%string).
  f_equal. exact IH.
Qed.

Lemma append_push (out : string) (c : Ascii.ascii) (rest : string) :
  (push out c ++ rest)%string = (out ++ String c rest)%string.
Proof.
  unfold push. induction out as [|x out IH]; [reflexivity|].
  change (String x out ++ String c EmptyString)%string
    with (String x (out ++ String c EmptyString)%string).
  change (String x (out ++ String c EmptyString) ++ rest)%string
    with (String x ((out ++ String c EmptyString) ++ rest)%string).
  change (String x out ++ String c rest)%string
    with (String x (out ++ String c rest)%string).
  f_equal. exact IH.
Qed.

Lemma format_brace_free (kwargs : list (string * string))
    (template : string) :
  forall out,
    brace_free template = true ->
    format_from kwargs template InText out =
      Formatted (out ++ template)%string.
Proof.
  induction template as [|c rest IH]; intros out Hfree.
  - simpl. rewrite append_empty_r. reflexivity.
  - simpl in Hfree.
    apply andb_true_iff in Hfree as [Hc Hrest].
    apply andb_true_iff in Hc as [Hopen Hclose].
    apply negb_true_iff in Hopen, Hclose.
    simpl. rewrite Hopen, Hclose, (IH _ Hrest), append_push. reflexivity.
Qed.

(** X22: With the query template that the policy loader stores when a policy
    names none, [get_historical_workload] fails before any request is sent:
    the template asks [format] for the keys [service_name] and [window],
    and the call passes [service] only.  The call returns nothing, leaves the
    client as it was, and a cycle fed by it ends on "no historical data",
    whatever Prometheus would have answered. *)
Theorem fallback_template_never_queries
    (self : PrometheusClient) (c : crd) (end_time : Z)
    (outcome : Z -> attempt_outcome) (clock : Z -> Z)
    (alg : ScalingAlgorithm) (name : string) (env : cycle_env)
    (current : Z) :
  queryTemplate c = None ->
  let config := entry_of_crd c in
  let call :=
    get_historical_workload_call self (query_config config) end_time outcome
      clock in
  call =
    Some {| call_window := None; call_client := self; call_sleeps := [] |}
  /\ (env_replicas env = Some current ->
      Some (env_history env) = option_map call_window call ->
      res_report (_process_deployment alg name config env)
      = NoHistoricalData).
Proof.
  intros Hnone config call.
  assert (Hcall : call = Some {| call_window := None;
                                 call_client := self;
                                 call_sleeps := [] |}).
  { subst call. unfold get_historical_workload_call, template_of.
    subst config. simpl. rewrite Hnone. simpl. reflexivity. }
  split; [exact Hcall|].
  intros Hrep Hhist. rewrite Hcall in Hhist. simpl in Hhist.
  injection Hhist as Hhist.
  unfold _process_deployment, _process_deployment_body.
  rewrite Hrep, Hhist. reflexivity.
Qed.

Lemma fallback_template_never_queries_witness :
  res_report
    (_process_deployment ScalingAlgorithm_init "web" (entry_of_crd bare_crd)
       bare_policy_cycle) = NoHistoricalData.
Proof.
  destruct (fallback_template_never_queries fresh_client bare_crd
              (minutes 100) (fun _ => Answered (two_samples (minutes 100)))
              (fun _ => 0) ScalingAlgorithm_init "web" bare_policy_cycle 3)
    as [Hcall Hcycle].
  - reflexivity.
  - apply Hcycle; reflexivity.
Defined.

(** X23: With a template that holds no brace, such as the client's own default,
    the template is the query, and the call returns the window built from
    what the ranged query returned, with the client and the sleeps the
    query left. *)
Theorem plain_template_runs_the_query
    (self : PrometheusClient) (qc : QueryConfig) (end_time : Z)
    (outcome : Z -> attempt_outcome) (clock : Z -> Z) :
  brace_free (template_of qc) = true ->
  let r := _execute_range_query self outcome clock in
  py_format (template_of qc) [("service"%string, service_name qc)] =
    Formatted (template_of qc)
  /\ get_historical_workload_call self qc end_time outcome clock =
       Some {| call_window :=
                 get_historical_workload end_time qc (run_answer r);
               call_client := run_client r;
               call_sleeps := run_sleeps r |}.
Proof.
  intros Hfree r.
  assert (Hformat : py_format (template_of qc)
                      [("service"%string, service_name qc)] =
                    Formatted (template_of qc)).
  { unfold py_format. rewrite format_brace_free by exact Hfree.
    reflexivity. }
  split; [exact Hformat|].
  unfold get_historical_workload_call. rewrite Hformat. reflexivity.
Qed.

Lemma plain_template_runs_the_query_witness :
  get_historical_workload_call fresh_client (window_of 2) (minutes 100)
    (fun _ => Answered (two_samples (minutes 100))) (fun _ => 0) =
  Some {| call_window := Some [Row [FFinite 7]; Row [fzero]];
          call_client := note_success fresh_client 0;
          call_sleeps := [] |}.
Proof.
  destruct (plain_template_runs_the_query fresh_client (window_of 2)
              (minutes 100) (fun _ => Answered (two_samples (minutes 100)))
              (fun _ => 0)) as [_ H].
  - reflexivity.
  - rewrite H. vm_compute. reflexivity.
Defined.

(** ** The window handed to the model *)

Lemma last_app_repeat {A : Type} (l : list A) (x : A) (k : nat) :
  last l = Some x -> last (l ++ repeat x k) = Some x.
Proof.
  intros Hlast. induction k as [|k IH].
  - simpl. rewrite app_nil_r. exact Hlast.
  - replace (repeat x (S k)) with (repeat x k ++ [x]).
    + rewrite app_assoc. apply last_snoc.
    + clear. induction k as [|k IH]; [reflexivity|].
      simpl. f_equal. exact IH.
Qed.

Lemma last_skipn {A : Type} (l : list A) :
  forall k, (k < length l)%nat -> last (skipn k l) = last l.
Proof.
  induction l as [|x l IH]; intros k Hk; [simpl in Hk; lia|].
  destruct k as [|k]; [reflexivity|].
  simpl in Hk. simpl skipn. rewrite IH by lia.
  destruct l as [|y l]; [simpl in Hk; lia | reflexivity].
Qed.

Lemma in_skipn {A : Type} (l : list A) (e : A) :
  forall k, In e (skipn k l) -> In e l.
Proof.
  induction l as [|x l IH]; intros k He.
  - destruct k; exact He.
  - destruct k as [|k]; [exact He|]. right. exact (IH k He).
Qed.

(** X24: The window handed to the model always has 10 entries.  A shorter window
    is kept as the head of it and a longer one gives its last 10 entries; in
    both cases the last entry, the current load, stays the last, and a
    non-empty window of one-element rows stays one. *)
Theorem prediction_window_has_ten_entries (history : list window_entry) :
  length (pad_or_truncate history) = 10%nat
  /\ ((length history <= 10)%nat ->
      firstn (length history) (pad_or_truncate history) = history)
  /\ ((10 <= length history)%nat ->
      pad_or_truncate history = skipn (length history - 10) history)
  /\ (history <> [] -> last (pad_or_truncate history) = last history)
  /\ (history <> [] -> Forall is_row history ->
      Forall is_row (pad_or_truncate history)).
Proof.
  unfold pad_or_truncate.
  destruct (Nat.eqb_spec (length history) 10) as [Heq|Hne].
  { rewrite Heq. repeat split; try reflexivity; auto.
    intros _. rewrite <- Heq. apply firstn_all. }
  destruct (Nat.ltb_spec (length history) 10) as [Hlt|Hge].
  - split.
    { rewrite List.length_app, List.repeat_length. lia. }
    split.
    { intros _. rewrite firstn_app, Nat.sub_diag, firstn_all. simpl.
      apply app_nil_r. }
    split; [lia|].
    split.
    + intros Hnonempty.
      destruct (last history) as [e|] eqn:Hlast.
      * apply last_app_repeat. exact Hlast.
      * exfalso. destruct history as [|x rest]; [congruence|].
        revert Hlast. clear. revert x.
        induction rest as [|y rest IH]; intros x; [discriminate|].
        exact (IH y).
    + intros Hnonempty Hrows. apply Forall_app. split; [exact Hrows|].
      apply List.Forall_forall. intros e He. apply List.repeat_spec in He.
      subst e. destruct (last history) as [e|] eqn:Hlast.
      * eapply last_Forall; eassumption.
      * exfalso. destruct history as [|x rest]; [congruence|].
        revert Hlast. clear. revert x.
        induction rest as [|y rest IH]; intros x; [discriminate|].
        exact (IH y).
  - split.
    { rewrite List.length_skipn. lia. }
    split; [lia|]. split; [reflexivity|]. split.
    + intros _. apply last_skipn. lia.
    + intros _ Hrows. apply List.Forall_forall. intros e He.
      rewrite List.Forall_forall in Hrows. apply Hrows.
      eapply in_skipn. exact He.
Qed.

Lemma prediction_window_has_ten_entries_witness :
  last (pad_or_truncate [Row [FFinite 3]; Row [FFinite 4]])
  = Some (Row [FFinite 4]).
Proof.
  destruct (prediction_window_has_ten_entries
              [Row [FFinite 3]; Row [FFinite 4]]) as (_ & _ & _ & Hlast & _).
  rewrite Hlast; [reflexivity | discriminate].
Defined.

(** ** Errors inside the decision *)

(** X25: An exception inside the scaling decision does not count as a failure of
    the cycle: the decision comes back as [no_action] carrying the error,
    the cycle reports that no scaling is needed, asks for no patch, and
    resets the error counter of the deployment to 0.  Such errors never lead
    to eviction. *)
Theorem decision_errors_reset_the_counter
    (alg : ScalingAlgorithm) (name : string) (config : deployment_entry)
    (env : cycle_env) (current : Z) (forecast : pyfloat) (e : exn) :
  env_replicas env = Some current ->
  history_readable env ->
  env_prediction env = Some forecast ->
  calculate_scaling_decision_body alg (env_now_check env)
    (env_now_remaining env) name forecast current (scaling_config config)
  = Raise e ->
  let r := _process_deployment alg name config env in
  res_report r = NoScalingNeeded
  /\ res_decision r =
       Some (no_action_decision current forecast
               (Some (ErrorInCalculation e)))
  /\ res_patch r = None
  /\ error_count (res_entry r) = 0
  /\ res_algorithm r = alg.
Proof.
  intros Hrep (history & request & v & Hhist & Hlast & Hvalue) Hpred Hbody r.
  subst r. unfold _process_deployment, _process_deployment_body.
  rewrite Hrep, Hhist, Hlast. unfold_result. rewrite Hvalue, Hpred.
  rewrite (calculate_on_error _ _ _ _ _ _ _ e Hbody).
  simpl. repeat split; reflexivity.
Qed.

Lemma decision_errors_reset_the_counter_witness :
  res_report
    (_process_deployment ScalingAlgorithm_init "web"
       (set_error_count sample_entry 7) nan_forecast_cycle)
  = NoScalingNeeded
  /\ error_count
       (res_entry
          (_process_deployment ScalingAlgorithm_init "web"
             (set_error_count sample_entry 7) nan_forecast_cycle)) = 0.
Proof.
  destruct (decision_errors_reset_the_counter ScalingAlgorithm_init "web"
              (set_error_count sample_entry 7) nan_forecast_cycle 4 FNaN
              ValueError) as (Hreport & _ & _ & Hcount & _).
  - reflexivity.
  - exists (repeat (Row [FFinite 50]) 10), (Row [FFinite 50]),
      (Some (FFinite 50)).
    repeat split; reflexivity.
  - reflexivity.
  - reflexivity.
  - split; assumption.
Defined.

(** X26: A larger finite forecast never requires fewer pods. *)
Theorem required_pods_grow_with_the_forecast
    (q1 q2 : Q) (workload n1 n2 : Z) :
  (q1 <= q2)%Q ->
  _calculate_required_pods (FFinite q1) workload = Ok n1 ->
  _calculate_required_pods (FFinite q2) workload = Ok n2 ->
  n1 <= n2.
Proof.
  intros Hle. unfold _calculate_required_pods.
  destruct (workload <=? 0) eqn:Hw.
  { intros [= <-] [= <-]. lia. }
  unfold fdiv, float_of_int.
  assert (Hpos : (0 < inject_Z workload)%Q).
  { change 0%Q with (inject_Z 0). rewrite <- Zlt_Qlt. lia. }
  assert (Hcmp : (inject_Z workload ?= 0)%Q = Gt)
    by (rewrite <- Qgt_alt; exact Hpos).
  rewrite Hcmp. unfold_result. simpl. intros [= <-] [= <-].
  assert (Qceiling (q1 / inject_Z workload)
          <= Qceiling (q2 / inject_Z workload)).
  { apply Qceiling_resp_le.
    apply Qmult_le_compat_r; [exact Hle|].
    apply Qlt_le_weak, Qinv_lt_0_compat. exact Hpos. }
  lia.
Qed.

Lemma required_pods_grow_witness :
  _calculate_required_pods (FFinite 150) 100 = Ok 2
  /\ _calculate_required_pods (FFinite 950) 100 = Ok 10
  /\ 2 <= 10.
Proof.
  split; [reflexivity|]. split; [reflexivity|].
  apply (required_pods_grow_with_the_forecast 150 950 100 2 10).
  - discriminate.
  - reflexivity.
  - reflexivity.
Defined.

(** ** The load shape *)

Lemma clamp_unit (x : Q) :
  (0 <= py_max 0 (py_min 1 x) <= 1)%Q.
Proof.
  unfold py_max, py_min.
  destruct (Qltb x 1) eqn:H1.
  - destruct (Qltb 0 x) eqn:H0.
    + apply Qltb_lt in H0, H1. split; apply Qlt_le_weak; assumption.
    + split; discriminate.
  - change (Qltb 0 1) with true. cbv iota. split; discriminate.
Qed.

Lemma int_of_between (lo hi : Z) (x : Q) :
  (inject_Z lo <= x)%Q -> (x <= inject_Z hi)%Q -> lo <= int_of x <= hi.
Proof.
  intros Hlo Hhi. unfold int_of. destruct (Qltb x 0).
  - split.
    + rewrite <- (Qceiling_Z lo). apply Qceiling_resp_le. exact Hlo.
    + rewrite <- (Qceiling_Z hi). apply Qceiling_resp_le. exact Hhi.
  - split.
    + rewrite <- (Qfloor_Z lo). apply Qfloor_resp_le. exact Hlo.
    + rewrite <- (Qfloor_Z hi). apply Qfloor_resp_le. exact Hhi.
Qed.

(** X27: Whatever the sine and the noise are, the load shape asks for a
    number of users between [min_users] and [max_users] and for a spawn rate
    of a tenth of it, 1 at least; the shape of the file stays within 25 and
    150 users. *)
Theorem tick_stays_within_the_users
    (self : MyLoadShape) (base_wave random_noise : Q) :
  min_users self <= max_users self ->
  let users := fst (tick self base_wave random_noise) in
  let rate := snd (tick self base_wave random_noise) in
  min_users self <= users <= max_users self
  /\ rate = Z.max 1 (users / 10)
  /\ 1 <= rate <= Z.max 1 (max_users self / 10)
  /\ (self = MyLoadShape_init -> 25 <= users <= 150 /\ 2 <= rate <= 15).
Proof.
  intros Hle users rate. subst users rate. unfold tick. cbn [fst snd].
  set (n := py_max 0 (py_min 1 ((base_wave + random_noise + 1) / 2))).
  destruct (clamp_unit ((base_wave + random_noise + 1) / 2)) as [H0 H1].
  fold n in H0, H1.
  set (span := inject_Z (max_users self - min_users self)).
  assert (Hspan : (0 <= span)%Q) by (apply inject_Z_nonneg; lia).
  assert (Hbounds : min_users self
                    <= int_of (inject_Z (min_users self) + span * n)
                    <= max_users self).
  { apply int_of_between.
    - rewrite <- (Qplus_0_r (inject_Z (min_users self))) at 1.
      apply Qplus_le_compat; [apply Qle_refl|].
      apply Qmult_le_0_compat; assumption.
    - assert (Hmax : (inject_Z (max_users self)
                      == inject_Z (min_users self) + span * 1)%Q).
      { subst span. rewrite Qmult_1_r, <- inject_Z_plus.
        apply inject_Z_injective. lia. }
      rewrite Hmax. apply Qplus_le_compat; [apply Qle_refl|].
      rewrite (Qmult_comm span n), (Qmult_comm span 1).
      apply Qmult_le_compat_r; assumption. }
  set (u := int_of (inject_Z (min_users self) + span * n)) in *.
  split; [exact Hbounds|]. split; [reflexivity|].
  assert (Hdiv : u / 10 <= max_users self / 10)
    by (apply Z.div_le_mono; lia).
  split; [lia|].
  intros ->. simpl in *.
  assert (2 <= u / 10) by (apply Z.div_le_lower_bound; lia).
  assert (u / 10 <= 15) by (apply Z.div_le_upper_bound; lia).
  lia.
Qed.

Lemma tick_stays_within_the_users_witness :
  tick MyLoadShape_init 1 (1 # 10) = (150, 15).
Proof.
  destruct (tick_stays_within_the_users MyLoadShape_init 1 (1 # 10))
    as (_ & _ & _ & _).
  - simpl. lia.
  - reflexivity.
Defined.

(** ** The request tracker *)

Lemma count_of_insert_same (counts : gmap Z Z) (m k : Z) :
  count_of (<[m := count_of counts m]> counts) k = count_of counts k.
Proof.
  unfold count_of. rewrite lookup_insert.
  destruct (decide (m = k)) as [->|_]; reflexivity.
Qed.

Lemma log_minutes_fold (start : Q) (minutes : list Z) :
  forall self : RequestTracker,
    let after := fold_left (log_minute start) minutes self in
    csv_rows after =
      csv_rows self ++ rows_for start (request_counts self) minutes
    /\ (forall k, count_of (request_counts after) k
                  = count_of (request_counts self) k)
    /\ start_time after = start_time self
    /\ last_logged_minute after =
         match last minutes with
         | Some m => m
         | None => last_logged_minute self
         end.
Proof.
  induction minutes as [|m rest IH]; intros self.
  - simpl. rewrite app_nil_r. repeat split; reflexivity.
  - cbn [fold_left]. destruct (IH (log_minute start self m))
      as (Hrows & Hcounts & Hstart & Hlast).
    cbv zeta. split.
    { rewrite Hrows. simpl. rewrite <- app_assoc. simpl. do 2 f_equal.
      unfold rows_for. apply map_ext. intros k.
      rewrite count_of_insert_same. reflexivity. }
    split.
    { intros k. rewrite Hcounts. simpl. apply count_of_insert_same. }
    split; [rewrite Hstart; reflexivity|].
    rewrite Hlast. destruct rest as [|m' rest]; [reflexivity|].
    change (last (m :: m' :: rest)) with (last (m' :: rest)).
    destruct (last (m' :: rest)) eqn:Hsome; [reflexivity|].
    apply last_None in Hsome. discriminate.
Qed.

Lemma last_py_range_between (a b : Z) :
  last (py_range_between a b) = if a <? b then Some (b - 1) else None.
Proof.
  unfold py_range_between.
  destruct (a <? b) eqn:Hab.
  - replace (Z.to_nat (b - a)) with (S (Z.to_nat (b - a - 1))) by lia.
    rewrite seq_S, map_app. simpl. rewrite last_snoc. f_equal. lia.
  - replace (Z.to_nat (b - a)) with 0%nat by lia. reflexivity.
Qed.

Lemma log_minute_data_started (self : RequestTracker) (start now : Q) :
  start_time self = Some start ->
  log_minute_data self now =
    fold_left (log_minute start)
      (py_range_between (last_logged_minute self + 1) (minute_of start now))
      self.
Proof. intros H. unfold log_minute_data. rewrite H. reflexivity. Qed.

(** X28: [log_minute_data] appends one row for each minute after the last one
    logged and before the running one, in order, with the number of requests
    recorded for it, 0 when there was none; the running minute is not
    written; no recorded count changes; and the last logged minute becomes
    the minute before the running one when something was written. *)
Theorem tracker_logs_the_finished_minutes
    (self : RequestTracker) (start now : Q) :
  start_time self = Some start ->
  let current_minute := minute_of start now in
  let after := log_minute_data self now in
  csv_rows after =
    csv_rows self
    ++ rows_for start (request_counts self)
         (py_range_between (last_logged_minute self + 1) current_minute)
  /\ (forall k, count_of (request_counts after) k
                = count_of (request_counts self) k)
  /\ last_logged_minute after =
       (if last_logged_minute self + 1 <? current_minute
        then current_minute - 1
        else last_logged_minute self)
  /\ start_time after = Some start.
Proof.
  intros Hstart current_minute after. subst after.
  rewrite (log_minute_data_started self start now Hstart).
  fold current_minute.
  destruct (log_minutes_fold start
              (py_range_between (last_logged_minute self + 1) current_minute)
              self) as (Hrows & Hcounts & Hst & Hlast).
  split; [exact Hrows|]. split; [exact Hcounts|].
  split; [|rewrite Hst; exact Hstart].
  rewrite Hlast, last_py_range_between.
  destruct (last_logged_minute self + 1 <? current_minute); reflexivity.
Qed.

Lemma tracker_logs_the_finished_minutes_witness :
  map snd (csv_rows (log_minute_data busy_tracker 200)) = [2; 0; 1].
Proof.
  destruct (tracker_logs_the_finished_minutes busy_tracker 0 200)
    as (Hrows & _).
  - reflexivity.
  - rewrite Hrows. vm_compute. reflexivity.
Defined.

Lemma seq_from (k n : nat) :
  seq k n = map (fun i => (k + i)%nat) (seq 0 n).
Proof.
  induction n as [|n IH]; [reflexivity|].
  rewrite !seq_S, map_app, IH. reflexivity.
Qed.

Lemma py_range_between_split (a b c : Z) :
  a <= b <= c ->
  py_range_between a b ++ py_range_between b c = py_range_between a c.
Proof.
  intros Habc. unfold py_range_between.
  replace (Z.to_nat (c - a))
    with (Z.to_nat (b - a) + Z.to_nat (c - b))%nat by lia.
  rewrite seq_app, map_app. f_equal.
  rewrite (seq_from (0 + Z.to_nat (b - a))), List.map_map.
  apply map_ext. intros i. lia.
Qed.

Lemma rows_for_same_counts (start : Q) (c1 c2 : gmap Z Z)
    (minutes : list Z) :
  (forall k, count_of c1 k = count_of c2 k) ->
  rows_for start c1 minutes = rows_for start c2 minutes.
Proof.
  intros Hsame. unfold rows_for. apply map_ext. intros m.
  rewrite Hsame. reflexivity.
Qed.

Lemma minute_of_mono (start now1 now2 : Q) :
  (now1 <= now2)%Q -> minute_of start now1 <= minute_of start now2.
Proof.
  intros Hle. unfold minute_of. apply Qfloor_resp_le.
  apply Qmult_le_compat_r; [|discriminate].
  apply Qplus_le_compat; [exact Hle | apply Qle_refl].
Qed.

(** X29: Logging again later never writes a minute twice: two calls of
    [log_minute_data], the second not earlier than the first and no request
    recorded between them, leave the same rows, the same last logged minute
    and the same counts as the second call alone. *)
Theorem tracker_never_logs_a_minute_twice
    (self : RequestTracker) (start now1 now2 : Q) :
  start_time self = Some start ->
  (now1 <= now2)%Q ->
  let once := log_minute_data self now2 in
  let twice := log_minute_data (log_minute_data self now1) now2 in
  csv_rows twice = csv_rows once
  /\ last_logged_minute twice = last_logged_minute once
  /\ (forall k, count_of (request_counts twice) k
                = count_of (request_counts once) k).
Proof.
  intros Hstart Hle once twice.
  pose proof (minute_of_mono start now1 now2 Hle) as Hmono.
  assert (Hspec : forall tracker now,
            start_time tracker = Some start ->
            csv_rows (log_minute_data tracker now) =
              csv_rows tracker
              ++ rows_for start (request_counts tracker)
                   (py_range_between (last_logged_minute tracker + 1)
                      (minute_of start now))
            /\ (forall k,
                  count_of (request_counts (log_minute_data tracker now)) k
                  = count_of (request_counts tracker) k)
            /\ last_logged_minute (log_minute_data tracker now) =
                 (if last_logged_minute tracker + 1 <? minute_of start now
                  then minute_of start now - 1
                  else last_logged_minute tracker)
            /\ start_time (log_minute_data tracker now) = Some start).
  { intros tracker now Htracker.
    rewrite (log_minute_data_started tracker start now Htracker).
    destruct (log_minutes_fold start
                (py_range_between (last_logged_minute tracker + 1)
                   (minute_of start now)) tracker)
      as (Hr & Hc & Hs & Hl).
    split; [exact Hr|]. split; [exact Hc|].
    split; [|rewrite Hs; exact Htracker].
    rewrite Hl, last_py_range_between.
    destruct (last_logged_minute tracker + 1 <? minute_of start now);
      reflexivity. }
  destruct (Hspec self now1 Hstart)
    as (Hrows1 & Hcounts1 & Hlast1 & Hstart1).
  destruct (Hspec self now2 Hstart) as (Hrows2 & Hcounts2 & Hlast2 & _).
  destruct (Hspec (log_minute_data self now1) now2 Hstart1)
    as (Hrows & Hcounts & Hlast & _).
  clear Hspec. subst once twice.
  set (m1 := minute_of start now1) in *.
  set (m2 := minute_of start now2) in *.
  set (l := last_logged_minute self) in *.
  split; [|split].
  - rewrite Hrows, Hrows1, Hrows2, <- app_assoc. f_equal.
    rewrite (rows_for_same_counts start _ (request_counts self) _ Hcounts1).
    unfold rows_for. rewrite <- map_app. f_equal.
    rewrite Hlast1. destruct (l + 1 <? m1) eqn:Hl.
    + replace (m1 - 1 + 1) with m1 by lia.
      apply py_range_between_split. lia.
    + unfold py_range_between at 1.
      replace (Z.to_nat (m1 - (l + 1))) with 0%nat by lia. reflexivity.
  - rewrite Hlast, Hlast1, Hlast2.
    destruct (l + 1 <? m1) eqn:Hl1.
    + destruct (m1 - 1 + 1 <? m2) eqn:H12; destruct (l + 1 <? m2) eqn:Hl2;
        lia.
    + reflexivity.
  - intros k. rewrite Hcounts, Hcounts1, Hcounts2. reflexivity.
Qed.

Lemma tracker_never_logs_a_minute_twice_witness :
  csv_rows (log_minute_data (log_minute_data busy_tracker 100) 200) =
  csv_rows (log_minute_data busy_tracker 200).
Proof.
  destruct (tracker_never_logs_a_minute_twice busy_tracker 0 100 200)
    as (Hrows & _).
  - reflexivity.
  - discriminate.
  - exact Hrows.
Defined.
